(** * Device crypto identity store (device/crypto.go)

    A shallow embedding of the Go file [device/crypto.go]: the crypto
    directory of one device, the operations that fill and wipe it, and the
    certificate checks built on top of it.

    The Go functions are methods of [*Device] that talk to the file system,
    to the system clock and to the random source.  They are embedded as
    computations of a state-and-error monad [M] over a [World]; what the
    operating system decides (an I/O call failing, how many bytes of a
    failing write reached the disk, where a new directory entry is listed,
    what the clock and the random source read) is taken from an
    environment [Env], indexed by a counter of the calls made so far.  The
    pure functions of Go's standard library that the file calls
    (encoding/pem, crypto/x509, crypto/rsa, crypto/tls) are the operations of
    the interface [GoLib]. *)

From Stdlib Require Import List String ZArith Bool Arith Lia Permutation.
From Stdlib.Strings Require Import Byte.
Import ListNotations.
Local Open Scope string_scope.
Local Open Scope list_scope.

(** ** Data *)

Definition bytes := list byte.

(** [[]byte(s)] *)
Definition bytes_of_string (s : string) : bytes := list_byte_of_string s.

(** The calls into the operating system that can fail.  A path inside the
    crypto directory is represented by its base name. *)
Inductive Syscall : Type :=
| SysMkdirAll
| SysOpen
| SysReaddir
| SysStat (name : string)
| SysRemove (name : string)
| SysReadFile (name : string)
| SysCreate (name : string)
| SysWrite (name : string).

(** Go [error] values: the [*os.PathError] of a failed system call, and the
    [errors.New] values of this file and of the standard library. *)
Inductive error : Type :=
| PathError (op : Syscall)
| ErrorString (msg : string).

(** [pem.Block]; the code never sets or reads [Headers]. *)
Record pem_Block : Type := mkBlock {
  BlockType : string;
  Bytes : bytes
}.

(** [rsa.PublicKey] and [rsa.PrivateKey]. *)
Record rsa_PublicKey : Type := mkPublicKey {
  rsa_N : Z;
  rsa_E : Z
}.

Record rsa_PrivateKey : Type := mkPrivateKey {
  PublicKey : rsa_PublicKey;
  rsa_D : Z;
  rsa_Primes : list Z
}.

(** The dynamic type behind the [interface{}] that
    [x509.ParsePKCS8PrivateKey] returns. *)
Inductive AnyPrivateKey : Type :=
| RSAKey (k : rsa_PrivateKey)
| ECDSAKey (der : bytes)
| Ed25519Key (seed : bytes).

(** [time.Time], as an instant on the time line. *)
Definition Time := Z.

(** [t.Before(u)]: strictly earlier. *)
Definition Before (t u : Time) : bool := (t <? u)%Z.

(** The fields of [x509.Certificate] the code looks at. *)
Record x509_Certificate : Type := mkCertificate {
  Raw : bytes;
  NotBefore : Time;
  NotAfter : Time
}.

Inductive SignatureAlgorithm : Type :=
| UnknownSignatureAlgorithm
| SHA1WithRSA
| SHA256WithRSA
| SHA384WithRSA
| SHA512WithRSA
| ECDSAWithSHA256.

Record pkix_Name : Type := mkName {
  CommonName : string;
  Organization : list string
}.

(** [x509.CertificateRequest], as used for a template. *)
Record x509_CertificateRequest : Type := mkRequest {
  Subject : pkix_Name;
  RequestSignatureAlgorithm : SignatureAlgorithm
}.

(** [tls.Certificate]: the DER chain and its private key. *)
Record tls_Certificate : Type := mkTLSCertificate {
  CertificateChain : list bytes;
  TLSPrivateKey : AnyPrivateKey
}.

(** [*x509.CertPool]; [None] is the nil pool. *)
Definition CertPool := option (list bytes).

(** [tls.Config], the fields [getTLSConfig] sets. *)
Record tls_Config : Type := mkConfig {
  Certificates : list tls_Certificate;
  ConfigRootCAs : CertPool;
  InsecureSkipVerify : bool
}.

(** The fields of [Device] this file reads. *)
Record Device : Type := mkDevice {
  realm : string;
  deviceID : string;
  persistencyDir : string;
  RootCAs : CertPool;
  IgnoreSSLErrors : bool
}.

(** A regular file: its content and the permission bits it was created
    with (before umask). *)
Record File : Type := mkFile {
  data : bytes;
  mode : Z
}.

(** A directory is the list of its entries in directory order, the order
    in which [Readdir] reports them. *)
Definition Dir := list (string * File).

(** The state the operations act on: the crypto directory ([None] when it
    does not exist), the number of environment calls made so far, and what
    was printed. *)
Record World : Type := mkWorld {
  cryptoDir : option Dir;
  clock : nat;
  stdout : list string
}.

(** What the operating system decides.  Every field is indexed by the
    [clock] at the time of the call: whether a system call fails, how many
    bytes of a failing write reached the file, at which position of the
    directory order a new entry is listed (the order of [Readdir] is up to
    the file system), what [time.Now] returns, and what [rand.Reader]
    yields. *)
Record Env : Type := mkEnv {
  io_fails : Syscall -> nat -> bool;
  short_write : nat -> nat;
  dir_slot : nat -> nat;
  time_Now : nat -> Time;
  rand_Reader : nat -> bytes
}.

(** The pure functions of Go's standard library used by the file, and
    [x509.ParseCertificateRequest], the reader of what
    [x509.CreateCertificateRequest] produces. *)
Class GoLib : Type := mkGoLib {
  filepath_Join : string -> string -> string;
  pem_Decode : bytes -> option (pem_Block * bytes);
  pem_EncodeToMemory : pem_Block -> bytes;
  x509_ParseCertificate : bytes -> error + x509_Certificate;
  x509_ParsePKCS1PrivateKey : bytes -> error + rsa_PrivateKey;
  x509_ParsePKCS8PrivateKey : bytes -> error + AnyPrivateKey;
  x509_MarshalPKCS1PrivateKey : rsa_PrivateKey -> bytes;
  x509_MarshalPKIXPublicKey : rsa_PublicKey -> error + bytes;
  x509_CreateCertificateRequest :
    bytes -> x509_CertificateRequest -> rsa_PrivateKey -> error + bytes;
  x509_ParseCertificateRequest : bytes -> error + x509_CertificateRequest;
  rsa_GenerateKey : bytes -> nat -> error + rsa_PrivateKey;
  tls_X509KeyPair : bytes -> bytes -> error + tls_Certificate
}.

(** ** Directories *)

Fixpoint find_file (name : string) (dir : Dir) : option File :=
  match dir with
  | [] => None
  | (n, f) :: rest => if String.eqb name n then Some f else find_file name rest
  end.

Fixpoint update_file (name : string) (f : File) (dir : Dir) : Dir :=
  match dir with
  | [] => []
  | (n, g) :: rest =>
      if String.eqb name n then (n, f) :: rest
      else (n, g) :: update_file name f rest
  end.

Fixpoint remove_file (name : string) (dir : Dir) : Dir :=
  match dir with
  | [] => []
  | (n, g) :: rest =>
      if String.eqb name n then rest else (n, g) :: remove_file name rest
  end.

Definition insert_at (k : nat) (e : string * File) (dir : Dir) : Dir :=
  firstn k dir ++ e :: skipn k dir.

Definition file_names (dir : Dir) : list string := map fst dir.

Definition has_file (name : string) (dir : option Dir) : bool :=
  match dir with
  | Some l => match find_file name l with Some _ => true | None => false end
  | None => false
  end.

Definition lookup_file (name : string) (dir : option Dir) : option File :=
  match dir with
  | Some l => find_file name l
  | None => None
  end.

(** ** The monad *)

(** How a Go call ends: it returns (a value, or an error), or it panics. *)
Inductive Outcome (A : Type) : Type :=
| Ok (a : A)
| Err (e : error)
| Panic (msg : string).
Arguments Ok {A} a.
Arguments Err {A} e.
Arguments Panic {A} msg.

Definition M (A : Type) : Type := World -> Outcome A * World.

Definition ret {A} (a : A) : M A := fun w => (Ok a, w).

(** [if err != nil { return err }] *)
Definition bind {A B} (m : M A) (f : A -> M B) : M B :=
  fun w =>
    match m w with
    | (Ok a, w') => f a w'
    | (Err e, w') => (Err e, w')
    | (Panic msg, w') => (Panic msg, w')
    end.

Definition raise {A} (e : error) : M A := fun w => (Err e, w).

Definition panic {A} (msg : string) : M A := fun w => (Panic msg, w).

(** [v, err := f()], the error kept as a value to be inspected. *)
Definition attempt {A} (m : M A) : M (error + A) :=
  fun w =>
    match m w with
    | (Ok a, w') => (Ok (inr a), w')
    | (Err e, w') => (Ok (inl e), w')
    | (Panic msg, w') => (Panic msg, w')
    end.

Definition liftE {A} (r : error + A) : M A :=
  match r with
  | inr a => ret a
  | inl e => raise e
  end.

Declare Scope go_scope.
Delimit Scope go_scope with go.
Notation "x <- m ;; k" := (bind m (fun x => k))
  (at level 100, m at next level, right associativity) : go_scope.
Notation "m ;;; k" := (bind m (fun _ => k))
  (at level 100, right associativity) : go_scope.
Local Open Scope go_scope.

Definition tick (w : World) : World :=
  {| cryptoDir := cryptoDir w; clock := S (clock w); stdout := stdout w |}.

Definition set_dir (dir : option Dir) (w : World) : World :=
  {| cryptoDir := dir; clock := clock w; stdout := stdout w |}.

Section Model.

Context {lib : GoLib}.
Variable env : Env.
Variable d : Device.

(** ** The operating system *)

(** [os.MkdirAll(cryptoDir, 0700)]: nothing to do when the directory is
    there. *)
Definition os_MkdirAll : M unit := fun w =>
  match cryptoDir w with
  | Some _ => (Ok tt, tick w)
  | None =>
      if io_fails env SysMkdirAll (clock w)
      then (Err (PathError SysMkdirAll), tick w)
      else (Ok tt, tick (set_dir (Some []) w))
  end.

Definition fmt_Println (s : string) : M unit := fun w =>
  (Ok tt, {| cryptoDir := cryptoDir w; clock := clock w;
             stdout := stdout w ++ [s] |}).

(** [os.Open(cryptoDir)] *)
Definition os_Open : M unit := fun w =>
  match cryptoDir w with
  | None => (Err (PathError SysOpen), tick w)
  | Some _ =>
      if io_fails env SysOpen (clock w)
      then (Err (PathError SysOpen), tick w)
      else (Ok tt, tick w)
  end.

(** [dirRead.Readdir(0)], the names of the entries. *)
Definition Readdir : M (list string) := fun w =>
  match cryptoDir w with
  | None => (Err (PathError SysReaddir), tick w)
  | Some dir =>
      if io_fails env SysReaddir (clock w)
      then (Err (PathError SysReaddir), tick w)
      else (Ok (file_names dir), tick w)
  end.

(** [os.Stat(name)]: fails when the entry is not there, and may fail when
    it is. *)
Definition os_Stat (name : string) : M unit := fun w =>
  if has_file name (cryptoDir w) && negb (io_fails env (SysStat name) (clock w))
  then (Ok tt, tick w)
  else (Err (PathError (SysStat name)), tick w).

(** [os.Remove(name)] *)
Definition os_Remove (name : string) : M unit := fun w =>
  match cryptoDir w with
  | None => (Err (PathError (SysRemove name)), tick w)
  | Some dir =>
      if has_file name (Some dir) && negb (io_fails env (SysRemove name) (clock w))
      then (Ok tt, tick (set_dir (Some (remove_file name dir)) w))
      else (Err (PathError (SysRemove name)), tick w)
  end.

(** [ioutil.ReadFile(name)] *)
Definition ioutil_ReadFile (name : string) : M bytes := fun w =>
  match lookup_file name (cryptoDir w) with
  | None => (Err (PathError (SysReadFile name)), tick w)
  | Some f =>
      if io_fails env (SysReadFile name) (clock w)
      then (Err (PathError (SysReadFile name)), tick w)
      else (Ok (data f), tick w)
  end.

(** Opening [name] with [O_CREATE|O_TRUNC] and permission [perm]: an
    existing file is emptied and keeps its permissions, a new one is
    created with [perm] and listed where the file system puts it. *)
Definition open_trunc (name : string) (perm : Z) : M unit := fun w =>
  match cryptoDir w with
  | None => (Err (PathError (SysCreate name)), tick w)
  | Some dir =>
      if io_fails env (SysCreate name) (clock w)
      then (Err (PathError (SysCreate name)), tick w)
      else
        match find_file name dir with
        | Some f =>
            (Ok tt, tick (set_dir (Some (update_file name (mkFile [] (mode f)) dir)) w))
        | None =>
            (Ok tt, tick (set_dir
               (Some (insert_at (dir_slot env (clock w)) (name, mkFile [] perm) dir)) w))
        end
  end.

(** [f.Write(content)] on the file just opened: a failing write leaves a
    prefix of the content behind. *)
Definition write_all (name : string) (content : bytes) : M unit := fun w =>
  match cryptoDir w with
  | None => (Err (PathError (SysWrite name)), tick w)
  | Some dir =>
      match find_file name dir with
      | None => (Err (PathError (SysWrite name)), tick w)
      | Some f =>
          if io_fails env (SysWrite name) (clock w)
          then (Err (PathError (SysWrite name)),
                tick (set_dir (Some (update_file name
                   (mkFile (firstn (short_write env (clock w)) content) (mode f)) dir)) w))
          else (Ok tt, tick (set_dir (Some (update_file name (mkFile content (mode f)) dir)) w))
      end
  end.

(** [os.Create(name)]: mode 0666. *)
Definition os_Create (name : string) : M unit := open_trunc name 438.

(** [ioutil.WriteFile(name, content, perm)] *)
Definition ioutil_WriteFile (name : string) (content : bytes) (perm : Z) : M unit :=
  open_trunc name perm ;;;
  write_all name content.

(** [pem.Encode(file, block)] *)
Definition pem_Encode (name : string) (b : pem_Block) : M unit :=
  write_all name (pem_EncodeToMemory b).

(** [time.Now()] *)
Definition time_now : M Time := fun w => (Ok (time_Now env (clock w)), tick w).

(** Reading [rand.Reader]. *)
Definition read_rand : M bytes := fun w => (Ok (rand_Reader env (clock w)), tick w).

(** [tls.LoadX509KeyPair(certFile, keyFile)] *)
Definition tls_LoadX509KeyPair (certFile keyFile : string) : M tls_Certificate :=
  certPEMBlock <- ioutil_ReadFile certFile ;;
  keyPEMBlock <- ioutil_ReadFile keyFile ;;
  liftE (tls_X509KeyPair certPEMBlock keyPEMBlock).

(** ** device/crypto.go *)

Definition getCryptoDir : M string :=
  let cryptoDir := filepath_Join (persistencyDir d) "crypto" in
  r <- attempt os_MkdirAll ;;
  match r with
  | inl _ => fmt_Println "WARNING - could not access crypto dir!"
  | inr _ => ret tt
  end ;;;
  ret cryptoDir.

(** [filepath.Join(d.getCryptoDir(), name)] *)
Definition cryptoFile (name : string) : M string :=
  getCryptoDir ;;;
  ret name.

Fixpoint removeAll (dirFiles : list string) : M unit :=
  match dirFiles with
  | [] => ret tt
  | name :: rest => os_Remove name ;;; removeAll rest
  end.

Definition ClearCrypto : M unit :=
  getCryptoDir ;;;
  os_Open ;;;
  dirFiles <- Readdir ;;
  removeAll dirFiles.

Definition hasValidCertificate : M bool :=
  certFile <- cryptoFile "device.crt" ;;
  keyFile <- cryptoFile "device.key" ;;
  loaded <- attempt (tls_LoadX509KeyPair certFile keyFile) ;;
  match loaded with
  | inl _ => ret false
  | inr _ =>
      certFile <- cryptoFile "device.crt" ;;
      r <- attempt (ioutil_ReadFile certFile) ;;
      match r with
      | inl _ => ret false
      | inr r =>
          match pem_Decode r with
          | None => panic "invalid memory address or nil pointer dereference"
          | Some (block, _) =>
              match x509_ParseCertificate (Bytes block) with
              | inl _ => ret false
              | inr cert =>
                  now <- time_now ;;
                  ret (Before now (NotAfter cert))
              end
          end
      end
  end.

Definition getTLSConfig : M tls_Config :=
  certFile <- cryptoFile "device.crt" ;;
  keyFile <- cryptoFile "device.key" ;;
  cert <- tls_LoadX509KeyPair certFile keyFile ;;
  ret {| Certificates := [cert];
         ConfigRootCAs := RootCAs d;
         InsecureSkipVerify := IgnoreSSLErrors d |}.

(** The call [tls.LoadX509KeyPair(filepath.Join(d.getCryptoDir(), "device.crt"),
    filepath.Join(d.getCryptoDir(), "device.key"))] that opens both
    [hasValidCertificate] and [getTLSConfig], with the evaluation of its
    arguments: the load step. *)
Definition loadKeyPair : M tls_Certificate :=
  certFile <- cryptoFile "device.crt" ;;
  keyFile <- cryptoFile "device.key" ;;
  tls_LoadX509KeyPair certFile keyFile.

(** [ioutil.ReadFile(filepath.Join(d.getCryptoDir(), "device.crt"))]: the
    read step of [hasValidCertificate]. *)
Definition readCertificate : M bytes :=
  certFile <- cryptoFile "device.crt" ;;
  ioutil_ReadFile certFile.

Definition savePEMKey (fileName : string) (key : rsa_PrivateKey) : M unit :=
  os_Create fileName ;;;
  pem_Encode fileName
    {| BlockType := "RSA PRIVATE KEY"; Bytes := x509_MarshalPKCS1PrivateKey key |}.

Definition savePublicPEMKey (fileName : string) (pubkey : rsa_PublicKey) : M unit :=
  pkixBytes <- liftE (x509_MarshalPKIXPublicKey pubkey) ;;
  os_Create fileName ;;;
  pem_Encode fileName {| BlockType := "PUBLIC KEY"; Bytes := pkixBytes |}.

Definition ensureKeyPair : M unit :=
  keyFile <- cryptoFile "device.key" ;;
  st <- attempt (os_Stat keyFile) ;;
  match st with
  | inr _ => ret tt
  | inl _ =>
      ClearCrypto ;;;
      reader <- read_rand ;;
      let bitSize := 2048%nat in
      key <- liftE (rsa_GenerateKey reader bitSize) ;;
      let publicKey := PublicKey key in
      pubFile <- cryptoFile "device.pub" ;;
      savePublicPEMKey pubFile publicKey ;;;
      savePEMKey keyFile key
  end.

Definition csrTemplate : x509_CertificateRequest :=
  {| Subject := {| CommonName := realm d ++ "/" ++ deviceID d;
                   Organization := ["Devices"] |};
     RequestSignatureAlgorithm := SHA256WithRSA |}.

Definition ensureCSR : M unit :=
  ensureKeyPair ;;;
  csrFilename <- cryptoFile "device.csr" ;;
  st <- attempt (os_Stat csrFilename) ;;
  match st with
  | inr _ => ret tt
  | inl _ =>
      let template := csrTemplate in
      keyFile <- cryptoFile "device.key" ;;
      priv <- ioutil_ReadFile keyFile ;;
      match pem_Decode priv with
      | None =>
          raise (ErrorString "Corrupted data in Device Private key, clearing the crypto store")
      | Some (privPem, _) =>
          parsedKey <-
            match x509_ParsePKCS1PrivateKey (Bytes privPem) with
            | inr k => ret (RSAKey k)
            | inl _ => liftE (x509_ParsePKCS8PrivateKey (Bytes privPem))
            end ;;
          match parsedKey with
          | RSAKey privateKey =>
              reader <- read_rand ;;
              csrBytes <- liftE (x509_CreateCertificateRequest reader template privateKey) ;;
              os_Create csrFilename ;;;
              pem_Encode csrFilename
                {| BlockType := "CERTIFICATE REQUEST"; Bytes := csrBytes |}
          | _ =>
              raise (ErrorString "Unable to parse RSA private key, clearing the crypto store")
          end
      end
  end.

Definition getCSRString : M bytes :=
  csrFile <- cryptoFile "device.csr" ;;
  ioutil_ReadFile csrFile.

Definition saveCertificateFromString (certificateString : string) : M unit :=
  certFile <- cryptoFile "device.crt" ;;
  match pem_Decode (bytes_of_string certificateString) with
  | None => raise (ErrorString "Could not decode PEM certificate")
  | Some _ => ioutil_WriteFile certFile (bytes_of_string certificateString) 384
  end.

End Model.

(** ** Runs of the operations *)

Inductive Op : Type :=
| OpClearCrypto
| OpEnsureKeyPair
| OpEnsureCSR
| OpGetCSRString
| OpSaveCertificate (certificateString : string)
| OpHasValidCertificate
| OpGetTLSConfig.

(** The world an operation leaves behind, whatever it returned. *)
Definition exec {lib : GoLib} (env : Env) (d : Device) (o : Op) (w : World) : World :=
  match o with
  | OpClearCrypto => snd (ClearCrypto env d w)
  | OpEnsureKeyPair => snd (ensureKeyPair env d w)
  | OpEnsureCSR => snd (ensureCSR env d w)
  | OpGetCSRString => snd (getCSRString env d w)
  | OpSaveCertificate s => snd (saveCertificateFromString env d s w)
  | OpHasValidCertificate => snd (hasValidCertificate env d w)
  | OpGetTLSConfig => snd (getTLSConfig env d w)
  end.

Fixpoint run {lib : GoLib} (env : Env) (d : Device) (ops : list Op) (w : World) : World :=
  match ops with
  | [] => w
  | o :: rest => run env d rest (exec env d o w)
  end.

(** The private key is never without its public key. *)
Definition key_has_pub (w : World) : Prop :=
  has_file "device.key" (cryptoDir w) = true ->
  has_file "device.pub" (cryptoDir w) = true.

(** No file was created, changed or removed between [w] and [w']: the
    directory is the same, or it did not exist and was created empty. *)
Definition same_files (w w' : World) : Prop :=
  cryptoDir w' = cryptoDir w \/ (cryptoDir w = None /\ cryptoDir w' = Some []).

(** No group or other permission bit. *)
Definition owner_only (m : Z) : bool := (Z.land m 63 =? 0)%Z.

(** The three ways in which [ensureCSR] rejects the content [priv] of the
    private-key file, with the error it returns: no PEM block; bytes that
    parse neither as PKCS#1 nor as PKCS#8; a PKCS#8 key that is not RSA. *)
Definition key_rejected {lib : GoLib} (priv : bytes) (e : error) : Prop :=
  (pem_Decode priv = None /\
   e = ErrorString "Corrupted data in Device Private key, clearing the crypto store")
  \/
  (exists privPem rest e1,
     pem_Decode priv = Some (privPem, rest) /\
     x509_ParsePKCS1PrivateKey (Bytes privPem) = inl e1 /\
     x509_ParsePKCS8PrivateKey (Bytes privPem) = inl e)
  \/
  (exists privPem rest e1 k,
     pem_Decode priv = Some (privPem, rest) /\
     x509_ParsePKCS1PrivateKey (Bytes privPem) = inl e1 /\
     x509_ParsePKCS8PrivateKey (Bytes privPem) = inr k /\
     (forall rsa, k <> RSAKey rsa) /\
     e = ErrorString "Unable to parse RSA private key, clearing the crypto store").



(** Every entry named [device.crt] has permission 0600. *)
Definition cert_owner_only (w : World) : Prop :=
  forall dir f,
    cryptoDir w = Some dir -> In ("device.crt", f) dir -> mode f = 384%Z.

(** What the code relies on from [tls.X509KeyPair]: it fails with
    "tls: failed to find any PEM data in certificate input" when the
    certificate input holds no PEM block, so a pair it returns comes from a
    certificate input that [pem.Decode] can decode. *)
Definition X509KeyPair_needs_pem (lib : GoLib) : Prop :=
  forall certPEM keyPEM cert,
    tls_X509KeyPair certPEM keyPEM = inr cert -> pem_Decode certPEM <> None.

(** ** A small instance of the library, to run the model

    [sampleLib] is a stand-in for Go's standard library with the same
    shapes: a PEM text is the block type, a newline, and the body; a DER
    value is a few bytes.  It is used only to evaluate the operations on
    concrete worlds. *)

Definition byte_of_Z (z : Z) : byte :=
  match Byte.of_N (Z.to_N (z mod 256)) with
  | Some b => b
  | None => x00
  end.

Definition Z_of_byte (b : byte) : Z := Z.of_N (Byte.to_N b).

Fixpoint split_line (l : bytes) : option (bytes * bytes) :=
  match l with
  | [] => None
  | b :: rest =>
      if Byte.eqb b x0a then Some ([], rest)
      else match split_line rest with
           | Some (line, body) => Some (b :: line, body)
           | None => None
           end
  end.

Definition sample_pem_Decode (l : bytes) : option (pem_Block * bytes) :=
  match split_line l with
  | Some (line, body) => Some (mkBlock (string_of_list_byte line) body, [])
  | None => None
  end.

Definition sample_pem_EncodeToMemory (b : pem_Block) : bytes :=
  bytes_of_string (BlockType b) ++ x0a :: Bytes b.

Definition sample_ParseCertificate (der : bytes) : error + x509_Certificate :=
  match der with
  | [] => inl (ErrorString "x509: malformed certificate")
  | b :: _ => inr (mkCertificate der 0%Z (Z_of_byte b))
  end.

Definition sample_ParsePKCS1PrivateKey (der : bytes) : error + rsa_PrivateKey :=
  match der with
  | [n; e; k] => inr (mkPrivateKey (mkPublicKey (Z_of_byte n) (Z_of_byte e)) (Z_of_byte k) [])
  | _ => inl (ErrorString "x509: failed to parse private key")
  end.

Definition sample_ParsePKCS8PrivateKey (der : bytes) : error + AnyPrivateKey :=
  match der with
  | x00 :: rest =>
      match sample_ParsePKCS1PrivateKey rest with
      | inr k => inr (RSAKey k)
      | inl e => inl e
      end
  | x01 :: rest => inr (ECDSAKey rest)
  | _ => inl (ErrorString "x509: failed to parse private key")
  end.

Definition sample_MarshalPKCS1PrivateKey (k : rsa_PrivateKey) : bytes :=
  [byte_of_Z (rsa_N (PublicKey k)); byte_of_Z (rsa_E (PublicKey k)); byte_of_Z (rsa_D k)].

Definition sample_MarshalPKIXPublicKey (p : rsa_PublicKey) : error + bytes :=
  inr [byte_of_Z (rsa_N p); byte_of_Z (rsa_E p)].

(** A string as its length in unary, a zero, and its bytes. *)
Definition enc_string (s : string) : bytes :=
  repeat x01 (List.length (bytes_of_string s)) ++ x00 :: bytes_of_string s.

Fixpoint count_ones (l : bytes) : option (nat * bytes) :=
  match l with
  | x00 :: rest => Some (0%nat, rest)
  | x01 :: rest =>
      match count_ones rest with
      | Some (n, r) => Some (S n, r)
      | None => None
      end
  | _ => None
  end.

Definition dec_string (l : bytes) : option (string * bytes) :=
  match count_ones l with
  | Some (n, r) =>
      if (List.length r <? n)%nat then None
      else Some (string_of_list_byte (firstn n r), skipn n r)
  | None => None
  end.

Fixpoint enc_strings (l : list string) : bytes :=
  match l with
  | [] => [x00]
  | s :: rest => x01 :: enc_string s ++ enc_strings rest
  end.

Fixpoint dec_strings (fuel : nat) (l : bytes) : option (list string) :=
  match fuel with
  | O => None
  | S fuel' =>
      match l with
      | [x00] => Some []
      | x01 :: rest =>
          match dec_string rest with
          | Some (s, r) =>
              match dec_strings fuel' r with
              | Some ss => Some (s :: ss)
              | None => None
              end
          | None => None
          end
      | _ => None
      end
  end.

Definition alg_code (a : SignatureAlgorithm) : byte :=
  match a with
  | UnknownSignatureAlgorithm => x00
  | SHA1WithRSA => x03
  | SHA256WithRSA => x04
  | SHA384WithRSA => x05
  | SHA512WithRSA => x06
  | ECDSAWithSHA256 => x0a
  end.

Definition alg_of_code (b : byte) : SignatureAlgorithm :=
  match b with
  | x03 => SHA1WithRSA
  | x04 => SHA256WithRSA
  | x05 => SHA384WithRSA
  | x06 => SHA512WithRSA
  | x0a => ECDSAWithSHA256
  | _ => UnknownSignatureAlgorithm
  end.

Definition sample_CreateCertificateRequest
  (rnd : bytes) (template : x509_CertificateRequest) (k : rsa_PrivateKey) : error + bytes :=
  inr (alg_code (RequestSignatureAlgorithm template)
       :: byte_of_Z (rsa_N (PublicKey k))
       :: enc_string (CommonName (Subject template))
       ++ enc_strings (Organization (Subject template))).

Definition sample_ParseCertificateRequest (der : bytes) : error + x509_CertificateRequest :=
  match der with
  | a :: _ :: rest =>
      match dec_string rest with
      | Some (cn, r) =>
          match dec_strings (S (List.length r)) r with
          | Some orgs => inr (mkRequest (mkName cn orgs) (alg_of_code a))
          | None => inl (ErrorString "asn1: syntax error")
          end
      | None => inl (ErrorString "asn1: syntax error")
      end
  | _ => inl (ErrorString "asn1: syntax error")
  end.

(** Joining paths that need no cleaning: an empty directory is ignored. *)
Definition sample_filepath_Join (dir name : string) : string :=
  match dir with
  | EmptyString => name
  | _ => dir ++ "/" ++ name
  end.

Definition sample_GenerateKey (rnd : bytes) (bits : nat) : error + rsa_PrivateKey :=
  match rnd with
  | [] => inl (ErrorString "unexpected EOF")
  | b :: _ => inr (mkPrivateKey (mkPublicKey (Z_of_byte b) 3%Z) 5%Z [])
  end.

Definition sample_X509KeyPair (certPEM keyPEM : bytes) : error + tls_Certificate :=
  match sample_pem_Decode certPEM with
  | None => inl (ErrorString "tls: failed to find any PEM data in certificate input")
  | Some (c, _) =>
      match sample_pem_Decode keyPEM with
      | None => inl (ErrorString "tls: failed to find any PEM data in key input")
      | Some (k, _) =>
          match sample_ParseCertificate (Bytes c), sample_ParsePKCS1PrivateKey (Bytes k) with
          | inr _, inr key => inr (mkTLSCertificate [Bytes c] (RSAKey key))
          | inl e, _ => inl e
          | _, inl e => inl e
          end
      end
  end.

Definition sampleLib : GoLib :=
  {| filepath_Join := sample_filepath_Join;
     pem_Decode := sample_pem_Decode;
     pem_EncodeToMemory := sample_pem_EncodeToMemory;
     x509_ParseCertificate := sample_ParseCertificate;
     x509_ParsePKCS1PrivateKey := sample_ParsePKCS1PrivateKey;
     x509_ParsePKCS8PrivateKey := sample_ParsePKCS8PrivateKey;
     x509_MarshalPKCS1PrivateKey := sample_MarshalPKCS1PrivateKey;
     x509_MarshalPKIXPublicKey := sample_MarshalPKIXPublicKey;
     x509_CreateCertificateRequest := sample_CreateCertificateRequest;
     x509_ParseCertificateRequest := sample_ParseCertificateRequest;
     rsa_GenerateKey := sample_GenerateKey;
     tls_X509KeyPair := sample_X509KeyPair |}.

(** An environment in which nothing fails, new entries are listed last,
    and the clock reads 100. *)
Definition quietEnv : Env :=
  {| io_fails := fun _ _ => false;
     short_write := fun _ => 0%nat;
     dir_slot := fun _ => 1000%nat;
     time_Now := fun _ => 100%Z;
     rand_Reader := fun _ => [x07] |}.

(** As [quietEnv], but [device.key] cannot be removed. *)
Definition stickyKeyEnv : Env :=
  {| io_fails := fun c _ => match c with
                            | SysRemove n => String.eqb n "device.key"
                            | _ => false
                            end;
     short_write := fun _ => 0%nat;
     dir_slot := fun _ => 1000%nat;
     time_Now := fun _ => 100%Z;
     rand_Reader := fun _ => [x07] |}.

Definition sampleDevice : Device :=
  {| realm := "test"; deviceID := "dev1"; persistencyDir := "/var/lib/astarte";
     RootCAs := None; IgnoreSSLErrors := false |}.

Definition emptyWorld : World :=
  {| cryptoDir := Some []; clock := 0; stdout := [] |}.

Definition world_of (dir : Dir) : World :=
  {| cryptoDir := Some dir; clock := 0; stdout := [] |}.

Definition newline : string := String (Ascii.ascii_of_nat 10) EmptyString.

(** A PEM text of [sampleLib] whose certificate expires at 122, and one
    that expired at 65. *)
Definition freshCertificateText : string := "CERTIFICATE" ++ newline ++ "z".
Definition staleCertificateText : string := "CERTIFICATE" ++ newline ++ "A".

(** A crypto directory holding key, public key, CSR and certificate: what
    [ensureCSR] and [saveCertificateFromString] leave on an empty one. *)
Definition fullWorld : World :=
  run (lib := sampleLib) quietEnv sampleDevice
    [OpEnsureCSR; OpSaveCertificate freshCertificateText] emptyWorld.

(** What [ensureKeyPair] leaves on an empty directory. *)
Definition keyWorld : World :=
  run (lib := sampleLib) quietEnv sampleDevice [OpEnsureKeyPair] emptyWorld.

(** A directory that holds a CSR and no private key. *)
Definition csrOnlyWorld : World :=
  world_of [("device.csr", mkFile [x01] 438%Z)].

(** A directory whose private-key file is not PEM. *)
Definition corruptKeyWorld : World :=
  world_of [("device.key", mkFile [x01; x02] 438%Z)].

(** A key pair is generated, then [ClearCrypto] is called while the
    private-key file cannot be removed. *)
Definition stuckClearWorld : World :=
  run (lib := sampleLib) stickyKeyEnv sampleDevice
    [OpEnsureKeyPair; OpClearCrypto] emptyWorld.

(** The files an operation may bring into the crypto directory. *)
Definition may_create (o : Op) : list string :=
  match o with
  | OpEnsureKeyPair => ["device.pub"; "device.key"]
  | OpEnsureCSR => ["device.pub"; "device.key"; "device.csr"]
  | OpSaveCertificate _ => ["device.crt"]
  | _ => []
  end.

(** The operations other than [ClearCrypto] and
    [saveCertificateFromString]. *)
Definition keeps_store (o : Op) : bool :=
  match o with
  | OpClearCrypto | OpSaveCertificate _ => false
  | _ => true
  end.

(** An environment in which [os.Stat] fails on the private-key file,
    nothing else fails, and the random source reads something new every
    time. *)
Definition statFailsEnv : Env :=
  {| io_fails := fun c _ => match c with
                            | SysStat n => String.eqb n "device.key"
                            | _ => false
                            end;
     short_write := fun _ => 0%nat;
     dir_slot := fun _ => 1000%nat;
     time_Now := fun _ => 100%Z;
     rand_Reader := fun t => [byte_of_Z (Z.of_nat t)] |}.


(** An environment in which every write stops after three bytes. *)
Definition fullDiskEnv : Env :=
  {| io_fails := fun c _ => match c with SysWrite _ => true | _ => false end;
     short_write := fun _ => 3%nat;
     dir_slot := fun _ => 1000%nat;
     time_Now := fun _ => 100%Z;
     rand_Reader := fun _ => [x07] |}.

(** An environment in which only the private-key file cannot be written
    in full. *)
Definition keyWriteFailsEnv : Env :=
  {| io_fails := fun c _ => match c with
                            | SysWrite n => String.eqb n "device.key"
                            | _ => false
                            end;
     short_write := fun _ => 3%nat;
     dir_slot := fun _ => 1000%nat;
     time_Now := fun _ => 100%Z;
     rand_Reader := fun _ => [x07] |}.


(** What a generated key is expected to satisfy in the library: the PEM
    text that [savePEMKey] writes for it decodes to the block that was
    encoded, and its PKCS#1 form parses back to the key. *)
Definition key_reads_back (lib : GoLib) : Prop :=
  forall rnd key,
    rsa_GenerateKey rnd 2048 = inr key ->
    (exists rest,
       pem_Decode (pem_EncodeToMemory
                     (mkBlock "RSA PRIVATE KEY" (x509_MarshalPKCS1PrivateKey key)))
       = Some (mkBlock "RSA PRIVATE KEY" (x509_MarshalPKCS1PrivateKey key), rest)) /\
    x509_ParsePKCS1PrivateKey (x509_MarshalPKCS1PrivateKey key) = inr key.

(** A call that keeps the permissions of the certificate file: started
    where every [device.crt] has permission 0600, it ends, however it
    ends, where every [device.crt] has. *)
Definition keeps_cert_mode {A : Type} (m : M A) : Prop :=
  forall w r w', m w = (r, w') -> cert_owner_only w -> cert_owner_only w'.

(** * Properties *)

(** ** Directories *)

Lemma find_file_update (name n : string) (f : File) (dir : Dir) :
  find_file n (update_file name f dir) =
  if String.eqb n name
  then match find_file name dir with Some _ => Some f | None => None end
  else find_file n dir.
Proof.
  induction dir as [|[m g] rest IH]; simpl.
  - destruct (String.eqb n name); reflexivity.
  - destruct (String.eqb name m) eqn:Hm; simpl.
    + apply String.eqb_eq in Hm; subst m.
      destruct (String.eqb n name); reflexivity.
    + rewrite IH. destruct (String.eqb n name) eqn:Hn.
      * apply String.eqb_eq in Hn; subst n. rewrite Hm. reflexivity.
      * reflexivity.
Qed.

Lemma file_names_update (name : string) (f : File) (dir : Dir) :
  file_names (update_file name f dir) = file_names dir.
Proof.
  unfold file_names.
  induction dir as [|[m g] rest IH]; simpl; [reflexivity|].
  destruct (String.eqb name m); simpl; [reflexivity|].
  rewrite IH. reflexivity.
Qed.

Lemma find_file_app (n : string) (l1 l2 : Dir) :
  find_file n (l1 ++ l2) =
  match find_file n l1 with Some f => Some f | None => find_file n l2 end.
Proof.
  induction l1 as [|[m g] rest IH]; simpl; [reflexivity|].
  destruct (String.eqb n m); [reflexivity|apply IH].
Qed.

Lemma find_file_insert_at (k : nat) (name n : string) (f : File) (dir : Dir) :
  find_file name dir = None ->
  find_file n (insert_at k (name, f) dir) =
  if String.eqb n name then Some f else find_file n dir.
Proof.
  intros Hnew. unfold insert_at.
  rewrite find_file_app. simpl.
  assert (Hsplit : find_file n dir =
                   match find_file n (firstn k dir) with
                   | Some g => Some g
                   | None => find_file n (skipn k dir)
                   end).
  { rewrite <- find_file_app, firstn_skipn. reflexivity. }
  destruct (String.eqb n name) eqn:Hn.
  - apply String.eqb_eq in Hn; subst n.
    rewrite Hnew in Hsplit.
    destruct (find_file name (firstn k dir)); [discriminate|reflexivity].
  - symmetry. exact Hsplit.
Qed.

Lemma find_file_firstn (k : nat) (name : string) (dir : Dir) :
  find_file name dir = None -> find_file name (firstn k dir) = None.
Proof.
  intros H. rewrite <- (firstn_skipn k dir), find_file_app in H.
  destruct (find_file name (firstn k dir)); [discriminate|reflexivity].
Qed.

Lemma update_file_app (name : string) (f : File) (l1 l2 : Dir) :
  find_file name l1 = None ->
  update_file name f (l1 ++ l2) = l1 ++ update_file name f l2.
Proof.
  induction l1 as [|[m g] rest IH]; simpl; [reflexivity|].
  destruct (String.eqb name m); [discriminate|].
  intros H. rewrite (IH H). reflexivity.
Qed.

(** Writing to an entry that was just listed. *)
Lemma update_file_insert_at (k : nat) (name : string) (f g : File) (dir : Dir) :
  find_file name dir = None ->
  update_file name f (insert_at k (name, g) dir) = insert_at k (name, f) dir.
Proof.
  intros H. unfold insert_at.
  rewrite update_file_app by (apply find_file_firstn; exact H).
  simpl. rewrite String.eqb_refl. reflexivity.
Qed.

Lemma insert_at_perm (k : nat) (e : string * File) (dir : Dir) :
  Permutation (insert_at k e dir) (e :: dir).
Proof.
  unfold insert_at. symmetry.
  rewrite <- (firstn_skipn k dir) at 1.
  apply Permutation_middle.
Qed.

Lemma has_file_In (name : string) (dir : Dir) :
  has_file name (Some dir) = true <-> In name (file_names dir).
Proof.
  unfold has_file, file_names.
  induction dir as [|[m g] rest IH]; simpl.
  - split; [discriminate|tauto].
  - destruct (String.eqb name m) eqn:E.
    + apply String.eqb_eq in E. subst m. tauto.
    + apply String.eqb_neq in E. rewrite IH. split; [tauto|].
      intros [H|H]; [congruence|exact H].
Qed.

Lemma has_file_perm (name : string) (dir dir' : Dir) :
  Permutation dir dir' ->
  has_file name (Some dir) = has_file name (Some dir').
Proof.
  intros HP.
  assert (Hin : In name (file_names dir) <-> In name (file_names dir')).
  { unfold file_names. split; apply Permutation_in, Permutation_map;
      [exact HP|symmetry; exact HP]. }
  rewrite <- !has_file_In in Hin.
  destruct (has_file name (Some dir)), (has_file name (Some dir'));
    intuition congruence.
Qed.

Lemma remove_file_head (n : string) (f : File) (rest : Dir) :
  remove_file n ((n, f) :: rest) = rest.
Proof. simpl. rewrite String.eqb_refl. reflexivity. Qed.

Section Properties.

Context {lib : GoLib}.
Variable env : Env.
Variable d : Device.

Abbreviation entered w := (snd (getCryptoDir env d w)).

(** ** Entering the crypto directory *)

Lemma getCryptoDir_ok (w : World) :
  getCryptoDir env d w =
  (Ok (filepath_Join (persistencyDir d) "crypto"), entered w).
Proof.
  unfold getCryptoDir, bind, attempt, os_MkdirAll, fmt_Println, ret.
  destruct (cryptoDir w); [reflexivity|].
  destruct (io_fails env SysMkdirAll (clock w)); reflexivity.
Qed.

Lemma cryptoFile_ok (name : string) (w : World) :
  cryptoFile env d name w = (Ok name, entered w).
Proof.
  unfold cryptoFile, bind. rewrite getCryptoDir_ok. reflexivity.
Qed.

Lemma entered_clock (w : World) : clock (entered w) = S (clock w).
Proof.
  unfold getCryptoDir, bind, attempt, os_MkdirAll, fmt_Println, ret.
  destruct (cryptoDir w); [reflexivity|].
  destruct (io_fails env SysMkdirAll (clock w)); reflexivity.
Qed.

Lemma same_files_refl (w : World) : same_files w w.
Proof. left. reflexivity. Qed.

Lemma same_files_trans (w1 w2 w3 : World) :
  same_files w1 w2 -> same_files w2 w3 -> same_files w1 w3.
Proof.
  unfold same_files.
  intros [H12|[H1 H2]] [H23|[H2' H3]].
  - left. congruence.
  - right. split; congruence.
  - right. split; congruence.
  - congruence.
Qed.

Lemma same_files_some (w w' : World) (dir : Dir) :
  same_files w w' -> cryptoDir w = Some dir -> cryptoDir w' = Some dir.
Proof. intros [H|[H _]] E; congruence. Qed.

Lemma same_files_lookup (w w' : World) (name : string) :
  same_files w w' ->
  lookup_file name (cryptoDir w') = lookup_file name (cryptoDir w).
Proof. intros [H|[H1 H2]]; [rewrite H|rewrite H1, H2]; reflexivity. Qed.

Lemma same_files_has (w w' : World) (name : string) :
  same_files w w' ->
  has_file name (cryptoDir w') = has_file name (cryptoDir w).
Proof. intros [H|[H1 H2]]; [rewrite H|rewrite H1, H2]; reflexivity. Qed.

Lemma same_files_tick (w : World) : same_files w (tick w).
Proof. left. reflexivity. Qed.

Lemma entered_same (w : World) : same_files w (entered w).
Proof.
  unfold same_files, getCryptoDir, bind, attempt, os_MkdirAll, fmt_Println, ret.
  destruct (cryptoDir w) eqn:E; simpl; auto.
  destruct (io_fails env SysMkdirAll (clock w)); simpl; auto.
Qed.

Lemma entered_some (w : World) (dir : Dir) :
  cryptoDir w = Some dir -> cryptoDir (entered w) = Some dir.
Proof. apply same_files_some, entered_same. Qed.

Lemma entered_lookup (name : string) (w : World) :
  lookup_file name (cryptoDir (entered w)) = lookup_file name (cryptoDir w).
Proof. apply same_files_lookup, entered_same. Qed.

Lemma entered_has (name : string) (w : World) :
  has_file name (cryptoDir (entered w)) = has_file name (cryptoDir w).
Proof. apply same_files_has, entered_same. Qed.

(** ** Clearing the directory *)

(** The removal loop on the listing of the directory: it ends with the
    directory empty, or at the first removal that fails, with the entries
    before it gone and the others in place. *)
Lemma removeAll_spec (dir : Dir) :
  forall w r w',
  cryptoDir w = Some dir ->
  removeAll env (file_names dir) w = (r, w') ->
  (r = Ok tt /\ cryptoDir w' = Some [] /\
   forall i, i < List.length dir ->
     io_fails env (SysRemove (nth i (file_names dir) "")) (clock w + i) = false)
  \/
  (exists k, k < List.length dir /\
     r = Err (PathError (SysRemove (nth k (file_names dir) ""))) /\
     cryptoDir w' = Some (skipn k dir) /\
     io_fails env (SysRemove (nth k (file_names dir) "")) (clock w + k) = true /\
     forall i, i < k ->
       io_fails env (SysRemove (nth i (file_names dir) "")) (clock w + i) = false).
Proof.
  induction dir as [|[n f] rest IH]; intros w r w' Hdir Hrun.
  - simpl in Hrun. unfold ret in Hrun. inversion Hrun; subst.
    left. repeat split; auto. simpl. intros i Hi. lia.
  - simpl in Hrun. unfold bind, os_Remove in Hrun.
    rewrite Hdir in Hrun. simpl in Hrun. rewrite String.eqb_refl in Hrun.
    simpl in Hrun.
    destruct (io_fails env (SysRemove n) (clock w)) eqn:Hfail; simpl in Hrun.
    + inversion Hrun; subst. right. exists 0. simpl.
      rewrite Nat.add_0_r, Hdir.
      repeat split; auto; lia.
    + specialize (IH (tick (set_dir (Some rest) w)) r w' eq_refl Hrun).
      simpl in IH.
      destruct IH as [(Hr & Hd & Hall) | (k & Hk & Hr & Hd & Hbad & Hgood)].
      * left. repeat split; auto.
        intros [|i] Hi; simpl.
        -- rewrite Nat.add_0_r. exact Hfail.
        -- simpl in Hi. rewrite Nat.add_succ_r. apply Hall. lia.
      * right. exists (S k). simpl. rewrite Nat.add_succ_r.
        repeat split; auto; try lia.
        intros [|i] Hi; simpl.
        -- rewrite Nat.add_0_r. exact Hfail.
        -- rewrite Nat.add_succ_r. apply Hgood. lia.
Qed.

(** ** Loading and checking the certificate *)

Lemma ReadFile_inv (name : string) (w : World) (r : Outcome bytes) (w' : World) :
  ioutil_ReadFile env name w = (r, w') ->
  w' = tick w /\
  ((exists f, r = Ok (data f) /\ lookup_file name (cryptoDir w) = Some f /\
              io_fails env (SysReadFile name) (clock w) = false) \/
   r = Err (PathError (SysReadFile name))).
Proof.
  unfold ioutil_ReadFile.
  destruct (lookup_file name (cryptoDir w)) as [f|] eqn:Hf.
  - destruct (io_fails env (SysReadFile name) (clock w)) eqn:Hio;
      intros H; inversion H; subst; split; auto.
    left. exists f. auto.
  - intros H; inversion H; subst; auto.
Qed.

Lemma loadKeyPair_eq (w : World) :
  loadKeyPair env d w =
  tls_LoadX509KeyPair env "device.crt" "device.key" (entered (entered w)).
Proof.
  unfold loadKeyPair, bind. rewrite !cryptoFile_ok. reflexivity.
Qed.

Lemma readCertificate_eq (w : World) :
  readCertificate env d w = ioutil_ReadFile env "device.crt" (entered w).
Proof.
  unfold readCertificate, bind. rewrite cryptoFile_ok. reflexivity.
Qed.

(** What a successful load tells about the files. *)
Lemma loadKeyPair_inv (w : World) (r : Outcome tls_Certificate) (w1 : World) :
  loadKeyPair env d w = (r, w1) ->
  same_files w w1 /\
  match r with
  | Ok tc =>
      exists c k, lookup_file "device.crt" (cryptoDir w) = Some c /\
                  lookup_file "device.key" (cryptoDir w) = Some k /\
                  tls_X509KeyPair (data c) (data k) = inr tc
  | Err e =>
      (exists name, e = PathError (SysReadFile name)) \/
      (exists c k, lookup_file "device.crt" (cryptoDir w) = Some c /\
                   lookup_file "device.key" (cryptoDir w) = Some k /\
                   tls_X509KeyPair (data c) (data k) = inl e)
  | Panic _ => False
  end.
Proof.
  rewrite loadKeyPair_eq. unfold tls_LoadX509KeyPair, bind.
  assert (Hs : same_files w (entered (entered w))).
  { eapply same_files_trans; apply entered_same. }
  destruct (ioutil_ReadFile env "device.crt" (entered (entered w))) as [r1 wa] eqn:H1.
  apply ReadFile_inv in H1. destruct H1 as [-> H1].
  destruct H1 as [(c & -> & Hc & _) | ->].
  - destruct (ioutil_ReadFile env "device.key" (tick (entered (entered w))))
      as [r2 wb] eqn:H2.
    apply ReadFile_inv in H2. destruct H2 as [-> H2].
    assert (Hs2 : same_files w (tick (tick (entered (entered w))))).
    { eapply same_files_trans; [exact Hs|].
      eapply same_files_trans; apply same_files_tick. }
    destruct H2 as [(k & -> & Hk & _) | ->].
    + simpl in Hk.
      rewrite (same_files_lookup _ _ "device.crt" Hs) in Hc.
      rewrite (same_files_lookup _ _ "device.key" Hs) in Hk.
      destruct (tls_X509KeyPair (data c) (data k)) as [e|tc] eqn:Hp; simpl;
        unfold raise, ret; intros H; inversion H; subst; split; auto.
      * right. exists c, k. auto.
      * exists c, k. auto.
    + intros H; inversion H; subst. split; eauto.
  - intros H; inversion H; subst. split; eauto.
Qed.

Lemma readCertificate_inv (w : World) (r : Outcome bytes) (w2 : World) :
  readCertificate env d w = (r, w2) ->
  same_files w w2 /\
  match r with
  | Ok content =>
      exists c, lookup_file "device.crt" (cryptoDir w) = Some c /\ content = data c
  | Err _ => True
  | Panic _ => False
  end.
Proof.
  rewrite readCertificate_eq. intros H.
  apply ReadFile_inv in H. destruct H as [-> H].
  split.
  - eapply same_files_trans; [apply entered_same|apply same_files_tick].
  - destruct H as [(c & -> & Hc & _) | ->]; [|exact I].
    exists c. rewrite entered_lookup in Hc. auto.
Qed.

(** [hasValidCertificate], step by step. *)
Lemma hasValidCertificate_eq (w : World) :
  hasValidCertificate env d w =
  match loadKeyPair env d w with
  | (Ok _, w1) =>
      match readCertificate env d w1 with
      | (Ok r, w2) =>
          match pem_Decode r with
          | None => (Panic "invalid memory address or nil pointer dereference", w2)
          | Some (block, _) =>
              match x509_ParseCertificate (Bytes block) with
              | inl _ => (Ok false, w2)
              | inr cert =>
                  (Ok (Before (time_Now env (clock w2)) (NotAfter cert)), tick w2)
              end
          end
      | (Err _, w2) => (Ok false, w2)
      | (Panic msg, w2) => (Panic msg, w2)
      end
  | (Err _, w1) => (Ok false, w1)
  | (Panic msg, w1) => (Panic msg, w1)
  end.
Proof.
  rewrite loadKeyPair_eq.
  unfold hasValidCertificate, bind, attempt. rewrite !cryptoFile_ok.
  destruct (tls_LoadX509KeyPair env "device.crt" "device.key" (entered (entered w)))
    as [[tc|e|msg] w1]; try reflexivity.
  rewrite readCertificate_eq, cryptoFile_ok.
  destruct (ioutil_ReadFile env "device.crt" (entered w1)) as [[r|e|msg] w2];
    try reflexivity.
  destruct (pem_Decode r) as [[block rest]|]; try reflexivity.
  destruct (x509_ParseCertificate (Bytes block)); reflexivity.
Qed.

(** C1. [hasValidCertificate] always returns a boolean: it never returns
    an error and never panics.  It returns false when the key pair cannot
    be loaded, when the certificate file cannot be read, when the
    certificate file holds no PEM block, and when the decoded bytes are not
    an X.509 certificate; and after a successful load the PEM block it
    dereferences is never nil.  The last point rests on
    [tls.X509KeyPair] rejecting a certificate input without PEM data. *)
Theorem hasValidCertificate_never_raises :
  X509KeyPair_needs_pem lib ->
  forall w, exists b w',
    hasValidCertificate env d w = (Ok b, w') /\
    same_files w w' /\
    (forall e w1, loadKeyPair env d w = (Err e, w1) -> b = false) /\
    (forall tc w1 e w2,
        loadKeyPair env d w = (Ok tc, w1) ->
        readCertificate env d w1 = (Err e, w2) -> b = false) /\
    (forall c,
        lookup_file "device.crt" (cryptoDir w) = Some c ->
        pem_Decode (data c) = None -> b = false) /\
    (forall tc w1 r w2 block rest e,
        loadKeyPair env d w = (Ok tc, w1) ->
        readCertificate env d w1 = (Ok r, w2) ->
        pem_Decode r = Some (block, rest) ->
        x509_ParseCertificate (Bytes block) = inl e -> b = false) /\
    (forall tc w1 r w2,
        loadKeyPair env d w = (Ok tc, w1) ->
        readCertificate env d w1 = (Ok r, w2) -> pem_Decode r <> None).
Proof.
  intros Hlaw w. rewrite hasValidCertificate_eq.
  destruct (loadKeyPair env d w) as [[tc|e|msg] w1] eqn:HL;
    pose proof (loadKeyPair_inv _ _ _ HL) as [Hs1 HL'].
  - destruct HL' as (c & k & Hc & Hk & Hpair).
    pose proof (Hlaw _ _ _ Hpair) as Hpem.
    destruct (readCertificate env d w1) as [[r|e|msg] w2] eqn:HR;
      pose proof (readCertificate_inv _ _ _ HR) as [Hs2 HR'].
    + destruct HR' as (c' & Hc' & ->).
      rewrite (same_files_lookup _ _ "device.crt" Hs1), Hc in Hc'.
      inversion Hc'; subst c'.
      destruct (pem_Decode (data c)) as [[block rest]|] eqn:HD; [|congruence].
      destruct (x509_ParseCertificate (Bytes block)) as [e|cert] eqn:HP.
      * exists false, w2.
        split; [reflexivity|]. split; [eapply same_files_trans; eauto|].
        repeat split; auto; try congruence.
      * exists (Before (time_Now env (clock w2)) (NotAfter cert)), (tick w2).
        split; [reflexivity|].
        split; [eapply same_files_trans; [|apply same_files_tick];
                eapply same_files_trans; eauto|].
        repeat split; try congruence.
    + exists false, w2.
      split; [reflexivity|]. split; [eapply same_files_trans; eauto|].
      repeat split; auto; try congruence.
    + destruct HR'.
  - exists false, w1.
    split; [reflexivity|]. split; [exact Hs1|].
    repeat split; auto; congruence.
  - destruct HL'.
Qed.

(** C5. When the load, read, decode and parse steps of
    [hasValidCertificate] succeed, it returns true exactly when the current
    time is strictly before the certificate's [NotAfter]; it returns false
    when [NotAfter] is at or before the current time. *)
Theorem hasValidCertificate_expiry
    (w : World) (tc : tls_Certificate) (w1 : World) (r : bytes) (w2 : World)
    (block : pem_Block) (rest : bytes) (cert : x509_Certificate) :
  loadKeyPair env d w = (Ok tc, w1) ->
  readCertificate env d w1 = (Ok r, w2) ->
  pem_Decode r = Some (block, rest) ->
  x509_ParseCertificate (Bytes block) = inr cert ->
  exists b,
    hasValidCertificate env d w = (Ok b, tick w2) /\
    (b = true <-> (time_Now env (clock w2) < NotAfter cert)%Z) /\
    ((NotAfter cert <= time_Now env (clock w2))%Z -> b = false).
Proof.
  intros HL HR HD HP.
  rewrite hasValidCertificate_eq, HL, HR, HD, HP.
  exists (Before (time_Now env (clock w2)) (NotAfter cert)).
  split; [reflexivity|]. unfold Before. split.
  - apply Z.ltb_lt.
  - intros H. apply Z.ltb_ge. exact H.
Qed.

(** ** The TLS configuration *)

Lemma getTLSConfig_eq (w : World) :
  getTLSConfig env d w =
  match loadKeyPair env d w with
  | (Ok cert, w1) =>
      (Ok {| Certificates := [cert];
             ConfigRootCAs := RootCAs d;
             InsecureSkipVerify := IgnoreSSLErrors d |}, w1)
  | (Err e, w1) => (Err e, w1)
  | (Panic msg, w1) => (Panic msg, w1)
  end.
Proof.
  rewrite loadKeyPair_eq.
  unfold getTLSConfig, bind. rewrite !cryptoFile_ok.
  destruct (tls_LoadX509KeyPair env "device.crt" "device.key" (entered (entered w)))
    as [[tc|e|msg] w1]; reflexivity.
Qed.

(** C7. [getTLSConfig] fails exactly when the key pair cannot be loaded,
    and then with the error of the load: in particular when the
    certificate or the key file is missing, and when [tls.X509KeyPair]
    rejects the pair.  When it succeeds, the configuration holds the loaded
    pair, its root pool is the device's [RootCAs], and peer verification is
    skipped exactly when [IgnoreSSLErrors] is set; no file is touched. *)
Theorem getTLSConfig_spec (w : World) :
  (forall e w1,
      getTLSConfig env d w = (Err e, w1) <-> loadKeyPair env d w = (Err e, w1)) /\
  (forall cfg w1,
      getTLSConfig env d w = (Ok cfg, w1) ->
      exists cert,
        loadKeyPair env d w = (Ok cert, w1) /\
        Certificates cfg = [cert] /\
        ConfigRootCAs cfg = RootCAs d /\
        (InsecureSkipVerify cfg = true <-> IgnoreSSLErrors d = true) /\
        same_files w w1) /\
  (forall cert w1,
      loadKeyPair env d w = (Ok cert, w1) ->
      exists cfg, getTLSConfig env d w = (Ok cfg, w1)) /\
  (lookup_file "device.crt" (cryptoDir w) = None \/
   lookup_file "device.key" (cryptoDir w) = None ->
   exists name, fst (getTLSConfig env d w) = Err (PathError (SysReadFile name))) /\
  (forall c k e,
      lookup_file "device.crt" (cryptoDir w) = Some c ->
      lookup_file "device.key" (cryptoDir w) = Some k ->
      tls_X509KeyPair (data c) (data k) = inl e ->
      fst (getTLSConfig env d w) = Err e \/
      exists name, fst (getTLSConfig env d w) = Err (PathError (SysReadFile name))) /\
  (forall msg w1, getTLSConfig env d w <> (Panic msg, w1)).
Proof.
  rewrite getTLSConfig_eq.
  destruct (loadKeyPair env d w) as [[tc|e|msg] w1] eqn:HL;
    pose proof (loadKeyPair_inv _ _ _ HL) as [Hs HL'].
  - destruct HL' as (c & k & Hc & Hk & Hpair).
    repeat split; try congruence.
    + intros cfg w0 H. inversion H; subst. exists tc. simpl.
      repeat split; auto.
    + intros cert w0 H. inversion H; subst. eexists. reflexivity.
    + intros [H|H]; congruence.
  - repeat split; try congruence.
    + intros [H|H]; (destruct HL' as [[name ->]|(c & k & Hc & Hk & _)];
        [exists name; reflexivity|congruence]).
    + intros c0 k0 e0 Hc0 Hk0 He. simpl.
      destruct HL' as [[name ->]|(c & k & Hc & Hk & Hp)].
      * right. exists name. reflexivity.
      * left. congruence.
  - destruct HL'.
Qed.

Lemma hasValidCertificate_without_certificate (w : World) :
  lookup_file "device.crt" (cryptoDir w) = None ->
  exists w', hasValidCertificate env d w = (Ok false, w').
Proof.
  intros Hnone. rewrite hasValidCertificate_eq.
  destruct (loadKeyPair env d w) as [[tc|e|msg] w1] eqn:HL;
    pose proof (loadKeyPair_inv _ _ _ HL) as [_ HL'].
  - destruct HL' as (c & k & Hc & _). congruence.
  - eexists. reflexivity.
  - destruct HL'.
Qed.

(** A successful [ClearCrypto] leaves nothing. *)
Lemma ClearCrypto_ok_empty (w w' : World) :
  ClearCrypto env d w = (Ok tt, w') -> cryptoDir w' = Some [].
Proof.
  unfold ClearCrypto, bind. rewrite getCryptoDir_ok.
  unfold os_Open, Readdir.
  destruct (cryptoDir (entered w)) as [dir|] eqn:Hdir; [|discriminate].
  destruct (io_fails env SysOpen (clock (entered w))); [discriminate|].
  simpl. rewrite Hdir.
  destruct (io_fails env SysReaddir (S (clock (entered w)))); [discriminate|].
  intros Hrun. apply (removeAll_spec dir) in Hrun; [|exact Hdir].
  destruct Hrun as [(_ & Hd & _) | (k & _ & Hr & _)]; [exact Hd|discriminate].
Qed.

(** C8. [ClearCrypto], run to success, leaves the crypto directory empty,
    and [hasValidCertificate] then returns false.  It fails exactly when
    the directory cannot be opened, when it cannot be listed, or when the
    removal of one of the listed files fails; the error is that of the
    failing call.  When the first failing removal is that of the k-th
    listed file, the k files before it are gone and stay gone, and the
    others are still there. *)
Theorem ClearCrypto_clears (w : World) (r : Outcome unit) (w' : World) :
  ClearCrypto env d w = (r, w') ->
  let w1 := entered w in
  let names := match cryptoDir w1 with Some dir => file_names dir | None => [] end in
  (r = Ok tt ->
     cryptoDir w' = Some [] /\
     exists w'', hasValidCertificate env d w' = (Ok false, w'')) /\
  (forall e, r = Err e ->
     (exists op, e = PathError op) /\
     exists k, cryptoDir w' = option_map (skipn k) (cryptoDir w1)) /\
  ((exists e, r = Err e) <->
     cryptoDir w1 = None \/
     io_fails env SysOpen (clock w1) = true \/
     io_fails env SysReaddir (S (clock w1)) = true \/
     exists i, i < List.length names /\
       io_fails env (SysRemove (nth i names "")) (S (S (clock w1)) + i) = true) /\
  (forall k,
     cryptoDir w1 <> None ->
     io_fails env SysOpen (clock w1) = false ->
     io_fails env SysReaddir (S (clock w1)) = false ->
     k < List.length names ->
     (forall i, i < k ->
        io_fails env (SysRemove (nth i names "")) (S (S (clock w1)) + i) = false) ->
     io_fails env (SysRemove (nth k names "")) (S (S (clock w1)) + k) = true ->
     r = Err (PathError (SysRemove (nth k names ""))) /\
     cryptoDir w' = option_map (skipn k) (cryptoDir w1)) /\
  (forall msg, r <> Panic msg).
Proof.
  intros Hrun. cbv zeta.
  unfold ClearCrypto, bind in Hrun. rewrite getCryptoDir_ok in Hrun.
  remember (entered w) as w1 eqn:Hw1. clear Hw1.
  revert Hrun. unfold os_Open, Readdir.
  assert (Hearly : forall op,
    r = Err (PathError op) ->
    cryptoDir w' = cryptoDir w1 ->
    (cryptoDir w1 = None \/
     io_fails env SysOpen (clock w1) = true \/
     io_fails env SysReaddir (S (clock w1)) = true) ->
    (r = Ok tt ->
       cryptoDir w' = Some [] /\
       exists w'', hasValidCertificate env d w' = (Ok false, w'')) /\
    (forall e, r = Err e ->
       (exists op, e = PathError op) /\
       exists k, cryptoDir w' = option_map (skipn k) (cryptoDir w1)) /\
    ((exists e, r = Err e) <->
       cryptoDir w1 = None \/
       io_fails env SysOpen (clock w1) = true \/
       io_fails env SysReaddir (S (clock w1)) = true \/
       exists i,
         i < List.length
               match cryptoDir w1 with Some dir => file_names dir | None => [] end /\
         io_fails env
           (SysRemove (nth i match cryptoDir w1 with
                             | Some dir => file_names dir
                             | None => []
                             end ""))
           (S (S (clock w1)) + i) = true)).
  { intros op -> Hsame Hwhy.
    split; [discriminate|]. split.
    - intros e He. inversion He; subst. split; [eauto|].
      exists 0. rewrite Hsame. destruct (cryptoDir w1); reflexivity.
    - split; [intros _|eauto]. tauto. }
  destruct (cryptoDir w1) as [dir|] eqn:Hdir.
  2:{ intros H; inversion H; subst.
      destruct (Hearly SysOpen eq_refl Hdir (or_introl eq_refl)) as (H1 & H2 & H3).
      repeat (split; [assumption|]). split; [congruence|discriminate]. }
  destruct (io_fails env SysOpen (clock w1)) eqn:Hopen.
  { intros H; inversion H; subst.
    destruct (Hearly SysOpen eq_refl Hdir (or_intror (or_introl eq_refl)))
      as (H1 & H2 & H3).
    repeat (split; [assumption|]). split; [congruence|discriminate]. }
  simpl. rewrite Hdir.
  destruct (io_fails env SysReaddir (S (clock w1))) eqn:Hlist.
  { intros H; inversion H; subst.
    destruct (Hearly SysReaddir eq_refl Hdir (or_intror (or_intror eq_refl)))
      as (H1 & H2 & H3).
    repeat (split; [assumption|]). split; [congruence|discriminate]. }
  clear Hearly. intros Hrun.
  apply (removeAll_spec dir) in Hrun; [|exact Hdir].
  simpl in Hrun.
  assert (Hlen : List.length (file_names dir) = List.length dir)
    by (unfold file_names; apply length_map).
  rewrite Hlen.
  destruct Hrun as [(-> & Hd & Hall) | (k & Hk & -> & Hd & Hbad & Hgood)].
  - split; [intros _; split; [exact Hd|]|].
    { apply hasValidCertificate_without_certificate. rewrite Hd. reflexivity. }
    split; [discriminate|]. split; [split|split].
    + intros [e He]. discriminate.
    + intros [H|[H|[H|(i & Hi & Hf)]]]; try discriminate.
      rewrite (Hall i Hi) in Hf. discriminate.
    + intros k _ _ _ Hk _ Hf. rewrite (Hall k Hk) in Hf. discriminate.
    + discriminate.
  - assert (Huniq : forall k',
        k' < List.length dir ->
        (forall i, i < k' ->
           io_fails env (SysRemove (nth i (file_names dir) ""))
             (S (S (clock w1)) + i) = false) ->
        io_fails env (SysRemove (nth k' (file_names dir) ""))
          (S (S (clock w1)) + k') = true -> k' = k).
    { intros k' Hk' Hg' Hb'.
      destruct (Nat.lt_trichotomy k' k) as [Hlt|[Heq|Hgt]]; auto.
      - pose proof (Hgood k' Hlt) as Hx. simpl in Hx, Hb'. congruence.
      - pose proof (Hg' k Hgt) as Hx. simpl in Hx, Hbad. congruence. }
    split; [discriminate|]. split; [|split; [split|split]].
    + intros e He. inversion He; subst. split; [eauto|].
      exists k. rewrite Hd. reflexivity.
    + intros _. right. right. right. exists k. auto.
    + eauto.
    + intros k' _ _ _ Hk' Hg' Hb'.
      rewrite (Huniq k' Hk' Hg' Hb'), Hd. auto.
    + discriminate.
Qed.

(** ** Creating and writing files *)

Lemma open_trunc_inv (name : string) (perm : Z) (w : World)
    (r : Outcome unit) (w' : World) :
  open_trunc env name perm w = (r, w') ->
  (r = Err (PathError (SysCreate name)) /\ w' = tick w /\
   (cryptoDir w = None \/ io_fails env (SysCreate name) (clock w) = true))
  \/
  (r = Ok tt /\ io_fails env (SysCreate name) (clock w) = false /\
   exists dir,
     cryptoDir w = Some dir /\
     cryptoDir w' =
       Some match find_file name dir with
            | Some f => update_file name (mkFile [] (mode f)) dir
            | None => insert_at (dir_slot env (clock w)) (name, mkFile [] perm) dir
            end).
Proof.
  unfold open_trunc.
  destruct (cryptoDir w) as [dir|] eqn:Hdir.
  - destruct (io_fails env (SysCreate name) (clock w)) eqn:Hio.
    + intros H; inversion H; subst. left. auto.
    + destruct (find_file name dir) as [f|] eqn:Hf;
        intros H; inversion H; subst; right;
        (split; [reflexivity|]); (split; [reflexivity|]);
        exists dir; rewrite Hf; auto.
  - intros H; inversion H; subst. left. auto.
Qed.

Lemma write_all_inv (name : string) (content : bytes) (w : World)
    (r : Outcome unit) (w' : World) :
  write_all env name content w = (r, w') ->
  (r = Err (PathError (SysWrite name)) /\ w' = tick w /\
   lookup_file name (cryptoDir w) = None)
  \/
  (exists dir f written,
     cryptoDir w = Some dir /\ find_file name dir = Some f /\
     cryptoDir w' = Some (update_file name (mkFile written (mode f)) dir) /\
     ((r = Ok tt /\ written = content /\
       io_fails env (SysWrite name) (clock w) = false) \/
      (r = Err (PathError (SysWrite name)) /\
       written = firstn (short_write env (clock w)) content /\
       io_fails env (SysWrite name) (clock w) = true))).
Proof.
  unfold write_all.
  destruct (cryptoDir w) as [dir|] eqn:Hdir.
  - simpl. destruct (find_file name dir) as [f|] eqn:Hf.
    + destruct (io_fails env (SysWrite name) (clock w)) eqn:Hio;
        intros H; inversion H; subst; right; do 3 eexists;
        (split; [reflexivity|]); (split; [exact Hf|]);
        (split; [reflexivity|]); auto.
    + intros H; inversion H; subst. left. auto.
  - intros H; inversion H; subst. left. auto.
Qed.

Lemma open_trunc_clock (name : string) (perm : Z) (w : World)
    (r : Outcome unit) (w' : World) :
  open_trunc env name perm w = (r, w') -> clock w' = S (clock w).
Proof.
  unfold open_trunc.
  destruct (cryptoDir w) as [dir|];
    [destruct (io_fails env (SysCreate name) (clock w));
       [|destruct (find_file name dir)]|];
    intros H; inversion H; reflexivity.
Qed.

Lemma write_all_clock (name : string) (content : bytes) (w : World)
    (r : Outcome unit) (w' : World) :
  write_all env name content w = (r, w') -> clock w' = S (clock w).
Proof.
  unfold write_all.
  destruct (cryptoDir w) as [dir|];
    [destruct (find_file name dir);
       [destruct (io_fails env (SysWrite name) (clock w))|]|];
    intros H; inversion H; reflexivity.
Qed.

(** Files after a successful open. *)
Lemma open_trunc_lookup (name : string) (perm : Z) (w w' : World) :
  open_trunc env name perm w = (Ok tt, w') ->
  cryptoDir w <> None /\
  lookup_file name (cryptoDir w') =
    Some (mkFile [] match lookup_file name (cryptoDir w) with
                    | Some f => mode f
                    | None => perm
                    end) /\
  (forall n, n <> name ->
     lookup_file n (cryptoDir w') = lookup_file n (cryptoDir w)).
Proof.
  intros H. apply open_trunc_inv in H.
  destruct H as [(H & _) | (_ & _ & dir & Hdir & Hdir')]; [discriminate|].
  rewrite Hdir, Hdir'. simpl. split; [discriminate|].
  destruct (find_file name dir) as [f|] eqn:Hf; split.
  - rewrite find_file_update, String.eqb_refl, Hf. reflexivity.
  - intros n Hn. rewrite find_file_update.
    apply String.eqb_neq in Hn. rewrite Hn. reflexivity.
  - rewrite (find_file_insert_at _ _ _ _ _ Hf), String.eqb_refl. reflexivity.
  - intros n Hn. rewrite (find_file_insert_at _ _ _ _ _ Hf).
    apply String.eqb_neq in Hn. rewrite Hn. reflexivity.
Qed.

(** Files after a write, successful or not. *)
Lemma write_all_lookup (name : string) (content : bytes) (w : World)
    (r : Outcome unit) (w' : World) :
  write_all env name content w = (r, w') ->
  (forall n, n <> name ->
     lookup_file n (cryptoDir w') = lookup_file n (cryptoDir w)) /\
  (forall n, has_file n (cryptoDir w') = has_file n (cryptoDir w)) /\
  (r = Ok tt ->
     exists f, lookup_file name (cryptoDir w) = Some f /\
               lookup_file name (cryptoDir w') = Some (mkFile content (mode f))) /\
  (r = Ok tt \/ r = Err (PathError (SysWrite name))).
Proof.
  intros H. apply write_all_inv in H.
  destruct H as [(-> & -> & Hnone) | (dir & f & written & Hdir & Hf & Hdir' & Hr)].
  - repeat split; auto. discriminate.
  - rewrite Hdir, Hdir'. simpl. repeat split.
    + intros n Hn. rewrite find_file_update.
      apply String.eqb_neq in Hn. rewrite Hn. reflexivity.
    + intros n. rewrite find_file_update.
      destruct (String.eqb n name) eqn:Hn; [|reflexivity].
      apply String.eqb_eq in Hn; subst n. rewrite Hf. reflexivity.
    + intros ->. destruct Hr as [(_ & -> & _) | (Hr & _)]; [|discriminate].
      exists f. rewrite find_file_update, String.eqb_refl, Hf. auto.
    + destruct Hr as [(-> & _) | (-> & _)]; auto.
Qed.

(** ** Storing the certificate *)

Lemma find_file_In (name : string) (dir : Dir) (f : File) :
  find_file name dir = Some f -> In (name, f) dir.
Proof.
  induction dir as [|[n g] rest IH]; simpl; [discriminate|].
  destruct (String.eqb name n) eqn:E.
  - apply String.eqb_eq in E. subst n. intros H; inversion H; subst. auto.
  - intros H. right. apply IH. exact H.
Qed.

Lemma In_update_file (name : string) (f : File) (dir : Dir) (e : string * File) :
  In e (update_file name f dir) -> In e dir \/ e = (name, f).
Proof.
  induction dir as [|[n g] rest IH]; simpl; [tauto|].
  destruct (String.eqb name n) eqn:E.
  - apply String.eqb_eq in E. subst n. intros [H|H]; auto.
  - intros [H|H]; [auto|]. destruct (IH H); auto.
Qed.

Lemma In_remove_file (name : string) (dir : Dir) (e : string * File) :
  In e (remove_file name dir) -> In e dir.
Proof.
  induction dir as [|[n g] rest IH]; simpl; [tauto|].
  destruct (String.eqb name n); [auto|].
  intros [H|H]; auto.
Qed.

Lemma In_insert_at (k : nat) (x e : string * File) (dir : Dir) :
  In e (insert_at k x dir) -> e = x \/ In e dir.
Proof.
  unfold insert_at. intros H. apply in_app_or in H.
  destruct H as [H|[H|H]]; [right|left|right].
  - rewrite <- (firstn_skipn k dir). apply in_or_app. left. exact H.
  - symmetry. exact H.
  - rewrite <- (firstn_skipn k dir). apply in_or_app. right. exact H.
Qed.

Lemma cert_owner_only_same (w w' : World) :
  same_files w w' -> cert_owner_only w -> cert_owner_only w'.
Proof.
  intros [H|[_ H]] Hw dir f Hd Hin; rewrite H in Hd.
  - apply (Hw dir f Hd Hin).
  - inversion Hd; subst. destruct Hin.
Qed.

(** Rewriting the content of a file keeps the permissions of every entry
    named [device.crt]. *)
Lemma cert_owner_only_update (name : string) (old f : File) (dir : Dir) (w : World) :
  cryptoDir w = Some dir ->
  find_file name dir = Some old ->
  mode f = mode old ->
  cert_owner_only w ->
  cert_owner_only (tick (set_dir (Some (update_file name f dir)) w)).
Proof.
  intros Hdir Hold Hmode Hw dir' g Hd Hin. simpl in Hd.
  inversion Hd; subst dir'.
  destruct (In_update_file _ _ _ _ Hin) as [H|H].
  - apply (Hw dir g Hdir H).
  - inversion H; subst. rewrite Hmode.
    apply (Hw dir old Hdir). apply find_file_In. exact Hold.
Qed.

Lemma keeps_ret {A : Type} (a : A) : keeps_cert_mode (ret a).
Proof. intros w r w' H Hw. inversion H; subst. exact Hw. Qed.

Lemma keeps_raise {A : Type} (e : error) : keeps_cert_mode (@raise A e).
Proof. intros w r w' H Hw. inversion H; subst. exact Hw. Qed.

Lemma keeps_panic {A : Type} (msg : string) : keeps_cert_mode (@panic A msg).
Proof. intros w r w' H Hw. inversion H; subst. exact Hw. Qed.

Lemma keeps_liftE {A : Type} (x : error + A) : keeps_cert_mode (liftE x).
Proof. destruct x; [apply keeps_raise|apply keeps_ret]. Qed.

Lemma keeps_bind {A B : Type} (m : M A) (f : A -> M B) :
  keeps_cert_mode m ->
  (forall a, keeps_cert_mode (f a)) ->
  keeps_cert_mode (bind m f).
Proof.
  intros Hm Hf w r w' H Hw. unfold bind in H.
  destruct (m w) as [[a|e|msg] w1] eqn:E.
  - apply (Hf a w1 r w' H). apply (Hm _ _ _ E Hw).
  - inversion H; subst. apply (Hm _ _ _ E Hw).
  - inversion H; subst. apply (Hm _ _ _ E Hw).
Qed.

Lemma keeps_attempt {A : Type} (m : M A) :
  keeps_cert_mode m -> keeps_cert_mode (attempt m).
Proof.
  intros Hm w r w' H Hw. unfold attempt in H.
  destruct (m w) as [[a|e|msg] w1] eqn:E;
    inversion H; subst; apply (Hm _ _ _ E Hw).
Qed.

Lemma keeps_os_MkdirAll : keeps_cert_mode (os_MkdirAll env).
Proof.
  intros w r w' H Hw. unfold os_MkdirAll in H.
  destruct (cryptoDir w) as [dir|] eqn:Hdir.
  - inversion H; subst. exact Hw.
  - destruct (io_fails env SysMkdirAll (clock w)); inversion H; subst.
    + exact Hw.
    + intros dir f Hd Hin. simpl in Hd. inversion Hd; subst. destruct Hin.
Qed.

Lemma keeps_fmt_Println (s : string) : keeps_cert_mode (fmt_Println s).
Proof. intros w r w' H Hw. inversion H; subst. exact Hw. Qed.

Lemma keeps_os_Open : keeps_cert_mode (os_Open env).
Proof.
  intros w r w' H Hw. unfold os_Open in H.
  destruct (cryptoDir w); [destruct (io_fails env SysOpen (clock w))|];
    inversion H; subst; exact Hw.
Qed.

Lemma keeps_Readdir : keeps_cert_mode (Readdir env).
Proof.
  intros w r w' H Hw. unfold Readdir in H.
  destruct (cryptoDir w); [destruct (io_fails env SysReaddir (clock w))|];
    inversion H; subst; exact Hw.
Qed.

Lemma keeps_os_Stat (name : string) : keeps_cert_mode (os_Stat env name).
Proof.
  intros w r w' H Hw. unfold os_Stat in H.
  destruct (has_file name (cryptoDir w)
            && negb (io_fails env (SysStat name) (clock w)));
    inversion H; subst; exact Hw.
Qed.

Lemma keeps_os_Remove (name : string) : keeps_cert_mode (os_Remove env name).
Proof.
  intros w r w' H Hw. unfold os_Remove in H.
  destruct (cryptoDir w) as [dir|] eqn:Hdir.
  - destruct (has_file name (Some dir)
              && negb (io_fails env (SysRemove name) (clock w)));
      inversion H; subst; [|exact Hw].
    intros dir' f Hd Hin. simpl in Hd. inversion Hd; subst dir'.
    apply (Hw dir f Hdir). apply (In_remove_file _ _ _ Hin).
  - inversion H; subst. exact Hw.
Qed.

Lemma keeps_ioutil_ReadFile (name : string) :
  keeps_cert_mode (ioutil_ReadFile env name).
Proof.
  intros w r w' H Hw. unfold ioutil_ReadFile in H.
  destruct (lookup_file name (cryptoDir w));
    [destruct (io_fails env (SysReadFile name) (clock w))|];
    inversion H; subst; exact Hw.
Qed.

Lemma keeps_time_now : keeps_cert_mode (time_now env).
Proof. intros w r w' H Hw. inversion H; subst. exact Hw. Qed.

Lemma keeps_read_rand : keeps_cert_mode (read_rand env).
Proof. intros w r w' H Hw. inversion H; subst. exact Hw. Qed.

(** Opening a file keeps the permissions of an existing certificate file;
    the certificate file itself must be created with 0600. *)
Lemma keeps_open_trunc (name : string) (perm : Z) :
  (name = "device.crt" -> perm = 384%Z) ->
  keeps_cert_mode (open_trunc env name perm).
Proof.
  intros Hperm w r w' H Hw. unfold open_trunc in H.
  destruct (cryptoDir w) as [dir|] eqn:Hdir; [|inversion H; subst; exact Hw].
  destruct (io_fails env (SysCreate name) (clock w));
    [inversion H; subst; exact Hw|].
  destruct (find_file name dir) as [old|] eqn:Hold; inversion H; subst.
  - apply (cert_owner_only_update name old); auto.
  - intros dir' f Hd Hin. simpl in Hd. inversion Hd; subst dir'.
    destruct (In_insert_at _ _ _ _ Hin) as [Hf|Hf].
    + inversion Hf; subst. simpl. apply Hperm. reflexivity.
    + apply (Hw dir f Hdir Hf).
Qed.

Lemma keeps_write_all (name : string) (content : bytes) :
  keeps_cert_mode (write_all env name content).
Proof.
  intros w r w' H Hw. unfold write_all in H.
  destruct (cryptoDir w) as [dir|] eqn:Hdir; [|inversion H; subst; exact Hw].
  destruct (find_file name dir) as [old|] eqn:Hold;
    [|inversion H; subst; exact Hw].
  destruct (io_fails env (SysWrite name) (clock w)); inversion H; subst;
    apply (cert_owner_only_update name old); auto.
Qed.

Lemma keeps_getCryptoDir : keeps_cert_mode (getCryptoDir env d).
Proof.
  intros w r w' H Hw.
  apply (cert_owner_only_same w); [|exact Hw].
  rewrite getCryptoDir_ok in H. inversion H; subst. apply entered_same.
Qed.

(** [cryptoFile] returns the name it was given. *)
Lemma keeps_bind_cryptoFile {B : Type} (name : string) (f : string -> M B) :
  keeps_cert_mode (f name) ->
  keeps_cert_mode (bind (cryptoFile env d name) f).
Proof.
  intros Hf w r w' H Hw. unfold bind in H. rewrite cryptoFile_ok in H.
  apply (Hf _ _ _ H). apply (cert_owner_only_same w); [apply entered_same|exact Hw].
Qed.

Lemma keeps_removeAll (dirFiles : list string) :
  keeps_cert_mode (removeAll env dirFiles).
Proof.
  induction dirFiles as [|name rest IH]; simpl.
  - apply keeps_ret.
  - apply keeps_bind; [apply keeps_os_Remove|intros _; exact IH].
Qed.

Ltac keeps_step :=
  first
    [ apply keeps_getCryptoDir | apply keeps_os_Open | apply keeps_Readdir
    | apply keeps_os_Stat | apply keeps_ioutil_ReadFile
    | apply keeps_time_now | apply keeps_read_rand
    | apply keeps_removeAll | apply keeps_write_all
    | apply keeps_open_trunc; discriminate
    | apply keeps_ret | apply keeps_raise | apply keeps_panic
    | apply keeps_liftE | apply keeps_attempt
    | apply keeps_bind_cryptoFile | apply keeps_bind
    | match goal with
      | |- forall _, _ => intro
      | |- keeps_cert_mode (match ?x with _ => _ end) => destruct x
      | |- keeps_cert_mode (let _ := _ in _) => cbv zeta
      end ].

Lemma keeps_ClearCrypto : keeps_cert_mode (ClearCrypto env d).
Proof. unfold ClearCrypto. repeat keeps_step. Qed.

Lemma keeps_ensureKeyPair : keeps_cert_mode (ensureKeyPair env d).
Proof.
  unfold ensureKeyPair, savePublicPEMKey, savePEMKey, os_Create, pem_Encode.
  repeat first [apply keeps_ClearCrypto | keeps_step].
Qed.

Lemma keeps_ensureCSR : keeps_cert_mode (ensureCSR env d).
Proof.
  unfold ensureCSR, os_Create, pem_Encode.
  repeat first [apply keeps_ensureKeyPair | keeps_step].
Qed.

Lemma keeps_saveCertificateFromString (certificateString : string) :
  keeps_cert_mode (saveCertificateFromString env d certificateString).
Proof.
  unfold saveCertificateFromString, ioutil_WriteFile.
  repeat first [apply keeps_open_trunc; reflexivity | keeps_step].
Qed.

Lemma keeps_getCSRString : keeps_cert_mode (getCSRString env d).
Proof. unfold getCSRString. repeat keeps_step. Qed.

Lemma keeps_hasValidCertificate : keeps_cert_mode (hasValidCertificate env d).
Proof. unfold hasValidCertificate, tls_LoadX509KeyPair. repeat keeps_step. Qed.

Lemma keeps_getTLSConfig : keeps_cert_mode (getTLSConfig env d).
Proof. unfold getTLSConfig, tls_LoadX509KeyPair. repeat keeps_step. Qed.

(** Every operation keeps the permissions of the certificate file, and so
    does every run. *)
Lemma exec_cert_owner_only (o : Op) (w : World) :
  cert_owner_only w -> cert_owner_only (exec env d o w).
Proof.
  intros Hw. destruct o; simpl.
  - destruct (ClearCrypto env d w) as [r w'] eqn:H.
    apply (keeps_ClearCrypto _ _ _ H Hw).
  - destruct (ensureKeyPair env d w) as [r w'] eqn:H.
    apply (keeps_ensureKeyPair _ _ _ H Hw).
  - destruct (ensureCSR env d w) as [r w'] eqn:H.
    apply (keeps_ensureCSR _ _ _ H Hw).
  - destruct (getCSRString env d w) as [r w'] eqn:H.
    apply (keeps_getCSRString _ _ _ H Hw).
  - destruct (saveCertificateFromString env d certificateString w) as [r w'] eqn:H.
    apply (keeps_saveCertificateFromString _ _ _ _ H Hw).
  - destruct (hasValidCertificate env d w) as [r w'] eqn:H.
    apply (keeps_hasValidCertificate _ _ _ H Hw).
  - destruct (getTLSConfig env d w) as [r w'] eqn:H.
    apply (keeps_getTLSConfig _ _ _ H Hw).
Qed.

Lemma run_cert_owner_only (ops : list Op) (w : World) :
  cert_owner_only w -> cert_owner_only (run env d ops w).
Proof.
  revert w. induction ops as [|o rest IH]; intros w Hw; simpl; [exact Hw|].
  apply IH. apply exec_cert_owner_only. exact Hw.
Qed.

Lemma cert_owner_only_fresh (w : World) :
  cryptoDir w = None \/ cryptoDir w = Some [] -> cert_owner_only w.
Proof.
  intros [H|H] dir f Hd Hin; rewrite H in Hd; [discriminate|].
  inversion Hd; subst. destruct Hin.
Qed.

(** C2.  The certificate file is written by [saveCertificateFromString]
    alone, with [ioutil.WriteFile] and permission 0600, so in every state
    that the operations reach from an empty or a missing crypto directory
    every [device.crt] has permission 0600 (first part).  In every such
    state (second part) [saveCertificateFromString] fails with the decode
    error exactly when the input holds no PEM block, and then no file is
    touched; when a block is found, whether or not it is an X.509
    certificate, the only thing that can fail is the write, and when the
    write succeeds the certificate file holds the input text verbatim, in
    place of any earlier content, with permission 0600: read and write for
    the owner, nothing for anyone else.  No other file changes, and the
    call succeeds when the directory is there and neither opening nor
    writing the file fails. *)
Theorem saveCertificateFromString_spec :
  (forall ops w0,
     cryptoDir w0 = None \/ cryptoDir w0 = Some [] ->
     cert_owner_only (run env d ops w0)) /\
  (forall (certificateString : string) (w : World) (r : Outcome unit) (w' : World),
     cert_owner_only w ->
     saveCertificateFromString env d certificateString w = (r, w') ->
     let text := bytes_of_string certificateString in
     (r = Err (ErrorString "Could not decode PEM certificate") <->
        pem_Decode text = None) /\
     (pem_Decode text = None -> same_files w w') /\
     (pem_Decode text <> None -> r = Ok tt ->
        exists f,
          lookup_file "device.crt" (cryptoDir w') = Some f /\
          data f = text /\
          mode f = 384%Z /\
          owner_only (mode f) = true) /\
     (forall n, n <> "device.crt" ->
        lookup_file n (cryptoDir w') = lookup_file n (cryptoDir w)) /\
     (pem_Decode text <> None -> r = Ok tt \/ exists op, r = Err (PathError op)) /\
     (pem_Decode text <> None ->
        cryptoDir (entered w) <> None ->
        io_fails env (SysCreate "device.crt") (S (clock w)) = false ->
        io_fails env (SysWrite "device.crt") (S (S (clock w))) = false ->
        r = Ok tt) /\
     cert_owner_only w').
Proof.
  split.
  { intros ops w0 H0. apply run_cert_owner_only, cert_owner_only_fresh, H0. }
  intros certificateString w r w' Hmode Hrun. cbv zeta.
  pose proof (keeps_saveCertificateFromString _ _ _ _ Hrun Hmode) as Hmode'.
  unfold saveCertificateFromString, bind in Hrun.
  rewrite cryptoFile_ok in Hrun.
  pose proof (entered_same w) as Hs.
  pose proof (entered_clock w) as Hclock.
  remember (entered w) as w1 eqn:Hw1. clear Hw1.
  destruct (pem_Decode (bytes_of_string certificateString)) as [p|] eqn:HD.
  - unfold ioutil_WriteFile, bind in Hrun.
    destruct (open_trunc env "device.crt" 384 w1) as [[[]|e|msg] w2] eqn:Hopen.
    + pose proof (open_trunc_lookup _ _ _ _ Hopen) as (Hex & Hcrt & Hother).
      pose proof (write_all_lookup _ _ _ _ _ Hrun) as (Hother' & _ & Hok & Hres).
      split; [split; intros H; [destruct Hres; congruence|discriminate]|].
      split; [discriminate|].
      split.
      { intros _ ->. destruct (Hok eq_refl) as (f & Hf & Hf').
        assert (Hin : mode {| data := bytes_of_string certificateString;
                              mode := mode f |} = 384%Z).
        { destruct (cryptoDir w') as [dir'|] eqn:Hd'; [|discriminate].
          apply (Hmode' dir' _ Hd'). apply find_file_In. exact Hf'. }
        eexists. split; [exact Hf'|]. split; [reflexivity|].
        split; [exact Hin|]. rewrite Hin. reflexivity. }
      split.
      { intros n Hn. rewrite (Hother' n Hn), (Hother n Hn).
        apply same_files_lookup. exact Hs. }
      split.
      { intros _. destruct Hres as [->| ->]; eauto. }
      split; [|exact Hmode'].
      intros _ _ _ Hw.
      apply open_trunc_clock in Hopen.
      apply write_all_inv in Hrun.
      destruct Hrun as [(_ & _ & Hnone) | (dir' & f & written & _ & _ & _ & Hr)].
      * rewrite Hcrt in Hnone. discriminate.
      * destruct Hr as [(-> & _) | (_ & _ & Hbad)]; [reflexivity|].
        congruence.
    + inversion Hrun; subst.
      apply open_trunc_inv in Hopen.
      destruct Hopen as [(Hx & -> & Hwhy) | (Hx & _)]; [|discriminate].
      inversion Hx; subst.
      split; [split; intros H; discriminate|].
      split; [discriminate|]. split; [discriminate|].
      split; [intros n _; apply same_files_lookup; exact Hs|].
      split; [eauto|].
      split; [|exact Hmode'].
      intros _ Hex Hc _. destruct Hwhy as [H|H]; congruence.
    + apply open_trunc_inv in Hopen.
      destruct Hopen as [(Hx & _) | (Hx & _)]; discriminate.
  - unfold raise in Hrun. inversion Hrun; subst.
    split; [split; auto|]. split; [auto|].
    split; [congruence|].
    split; [intros n _; apply same_files_lookup; exact Hs|].
    split; [congruence|].
    split; [congruence|exact Hmode'].
Qed.

(** [os.Create] followed by [pem.Encode], on a name that is not listed:
    on success the directory has one more entry, holding the encoding. *)
Lemma create_encode_new (name : string) (b : pem_Block) (w w' : World) (dir : Dir) :
  cryptoDir w = Some dir ->
  find_file name dir = None ->
  (os_Create env name ;;; pem_Encode env name b) w = (Ok tt, w') ->
  cryptoDir w' =
    Some (insert_at (dir_slot env (clock w))
            (name, mkFile (pem_EncodeToMemory b) 438) dir).
Proof.
  intros Hdir Hnew. unfold bind, os_Create, pem_Encode.
  destruct (open_trunc env name 438 w) as [[[]|e|msg] w1] eqn:Hopen;
    try discriminate.
  intros Hwrite.
  apply open_trunc_inv in Hopen.
  destruct Hopen as [(Hx & _) | (_ & _ & dir0 & Hdir0 & Hdir1)]; [discriminate|].
  rewrite Hdir in Hdir0. inversion Hdir0; subst dir0. rewrite Hnew in Hdir1.
  apply write_all_inv in Hwrite.
  destruct Hwrite as [(Hx & _) | (dir1 & f & written & Hd1 & Hf & Hd' & Hr)];
    [discriminate|].
  rewrite Hdir1 in Hd1. inversion Hd1; subst dir1.
  rewrite (find_file_insert_at _ _ _ _ _ Hnew), String.eqb_refl in Hf.
  inversion Hf; subst f. simpl in Hd'.
  destruct Hr as [(_ & -> & _) | (Hx & _)]; [|discriminate].
  rewrite Hd'. rewrite (update_file_insert_at _ _ _ _ _ Hnew). reflexivity.
Qed.

(** ** The key pair *)

Lemma ensureKeyPair_eq (w : World) :
  ensureKeyPair env d w =
  if has_file "device.key" (cryptoDir w)
     && negb (io_fails env (SysStat "device.key") (S (clock w)))
  then (Ok tt, tick (entered w))
  else
    (ClearCrypto env d ;;;
     reader <- read_rand env ;;
     key <- liftE (rsa_GenerateKey reader 2048) ;;
     pubFile <- cryptoFile env d "device.pub" ;;
     savePublicPEMKey env pubFile (PublicKey key) ;;;
     savePEMKey env "device.key" key) (tick (entered w)).
Proof.
  unfold ensureKeyPair. unfold bind at 1. rewrite cryptoFile_ok.
  unfold bind at 1. unfold attempt, os_Stat.
  rewrite entered_has, entered_clock.
  destruct (has_file "device.key" (cryptoDir w)
            && negb (io_fails env (SysStat "device.key") (S (clock w))));
    reflexivity.
Qed.

Lemma savePublicPEMKey_new (name : string) (pub : rsa_PublicKey)
    (w w' : World) (dir : Dir) :
  cryptoDir w = Some dir ->
  find_file name dir = None ->
  savePublicPEMKey env name pub w = (Ok tt, w') ->
  exists pkix,
    x509_MarshalPKIXPublicKey pub = inr pkix /\
    cryptoDir w' =
      Some (insert_at (dir_slot env (clock w))
              (name, mkFile (pem_EncodeToMemory (mkBlock "PUBLIC KEY" pkix)) 438) dir).
Proof.
  intros Hdir Hnew. unfold savePublicPEMKey. unfold bind at 1.
  destruct (x509_MarshalPKIXPublicKey pub) as [e|pkix]; simpl; [discriminate|].
  intros H. exists pkix. split; [reflexivity|].
  apply (create_encode_new _ _ _ _ _ Hdir Hnew H).
Qed.

Lemma savePEMKey_new (name : string) (key : rsa_PrivateKey)
    (w w' : World) (dir : Dir) :
  cryptoDir w = Some dir ->
  find_file name dir = None ->
  savePEMKey env name key w = (Ok tt, w') ->
  cryptoDir w' =
    Some (insert_at (dir_slot env (clock w))
            (name, mkFile (pem_EncodeToMemory
                             (mkBlock "RSA PRIVATE KEY" (x509_MarshalPKCS1PrivateKey key)))
                          438) dir).
Proof.
  intros Hdir Hnew H. apply (create_encode_new _ _ _ _ _ Hdir Hnew H).
Qed.

Lemma key_absent_unseen (w : World) :
  has_file "device.key" (cryptoDir w) = false ->
  has_file "device.key" (cryptoDir w)
  && negb (io_fails env (SysStat "device.key") (S (clock w))) = false.
Proof. intros H. rewrite H. reflexivity. Qed.

(** A successful [ensureKeyPair] whose [os.Stat] did not report the
    private key: the directory is cleared, then the public key and the
    private key are listed, in this order of creation. *)
Lemma ensureKeyPair_fresh_pair (w w' : World) :
  has_file "device.key" (cryptoDir w)
  && negb (io_fails env (SysStat "device.key") (S (clock w))) = false ->
  ensureKeyPair env d w = (Ok tt, w') ->
  exists wc key pkix k1 k2,
    ClearCrypto env d (tick (entered w)) = (Ok tt, wc) /\
    cryptoDir wc = Some [] /\
    rsa_GenerateKey (rand_Reader env (clock wc)) 2048 = inr key /\
    x509_MarshalPKIXPublicKey (PublicKey key) = inr pkix /\
    cryptoDir w' =
      Some (insert_at k2
              ("device.key",
               mkFile (pem_EncodeToMemory
                         (mkBlock "RSA PRIVATE KEY" (x509_MarshalPKCS1PrivateKey key)))
                      438)
              (insert_at k1
                 ("device.pub",
                  mkFile (pem_EncodeToMemory (mkBlock "PUBLIC KEY" pkix)) 438)
                 [])).
Proof.
  intros Hkey. rewrite ensureKeyPair_eq, Hkey. unfold bind at 1.
  destruct (ClearCrypto env d (tick (entered w))) as [[[]|e|msg] wc] eqn:HC;
    try discriminate.
  pose proof (ClearCrypto_ok_empty _ _ HC) as Hwc.
  unfold bind at 1. unfold read_rand. unfold bind at 1.
  destruct (rsa_GenerateKey (rand_Reader env (clock wc)) 2048) as [e|key] eqn:HG;
    simpl; [discriminate|].
  unfold bind at 1. rewrite cryptoFile_ok. unfold bind at 1.
  assert (Hd1 : cryptoDir (entered (tick wc)) = Some [])
    by (apply entered_some; exact Hwc).
  destruct (savePublicPEMKey env "device.pub" (PublicKey key) (entered (tick wc)))
    as [[[]|e|msg] w2] eqn:HP; try discriminate.
  apply (savePublicPEMKey_new _ _ _ _ [] Hd1 eq_refl) in HP.
  destruct HP as (pkix & Hpkix & Hd2).
  intros HK.
  apply (savePEMKey_new _ _ _ _ _ Hd2) in HK.
  2:{ rewrite (find_file_insert_at _ "device.pub" "device.key" _ [] eq_refl).
      reflexivity. }
  exists wc, key, pkix. do 2 eexists.
  repeat (split; [first [reflexivity|assumption]|]).
  exact HK.
Qed.

Lemma fresh_pair_perm (k1 k2 : nat) (pub key : string * File) :
  Permutation (insert_at k2 key (insert_at k1 pub [])) [pub; key].
Proof.
  eapply Permutation_trans; [apply insert_at_perm|].
  eapply Permutation_trans; [apply perm_skip, insert_at_perm|].
  apply perm_swap.
Qed.

(** C4. When the private-key file is absent, whatever else the directory
    holds, a successful [ensureKeyPair] has first cleared the whole
    directory, then generated a 2048-bit RSA key, and leaves a directory
    that holds exactly two files: [device.pub] with the PEM encoding
    (type PUBLIC KEY) of the PKIX form of the new public key, and
    [device.key] with the PEM encoding (type RSA PRIVATE KEY) of the PKCS#1
    form of the new private key. *)
Theorem ensureKeyPair_regenerates (w w' : World) :
  has_file "device.key" (cryptoDir w) = false ->
  ensureKeyPair env d w = (Ok tt, w') ->
  exists wc key pkix dir',
    ClearCrypto env d (tick (entered w)) = (Ok tt, wc) /\
    cryptoDir wc = Some [] /\
    rsa_GenerateKey (rand_Reader env (clock wc)) 2048 = inr key /\
    x509_MarshalPKIXPublicKey (PublicKey key) = inr pkix /\
    cryptoDir w' = Some dir' /\
    Permutation dir'
      [("device.pub",
        mkFile (pem_EncodeToMemory (mkBlock "PUBLIC KEY" pkix)) 438);
       ("device.key",
        mkFile (pem_EncodeToMemory
                  (mkBlock "RSA PRIVATE KEY" (x509_MarshalPKCS1PrivateKey key)))
               438)] /\
    List.length dir' = 2 /\
    has_file "device.key" (Some dir') = true /\
    has_file "device.pub" (Some dir') = true.
Proof.
  intros Hkey Hrun.
  assert (Hseen : has_file "device.key" (cryptoDir w)
                  && negb (io_fails env (SysStat "device.key") (S (clock w)))
                  = false) by (rewrite Hkey; reflexivity).
  destruct (ensureKeyPair_fresh_pair _ _ Hseen Hrun)
    as (wc & key & pkix & k1 & k2 & HC & Hwc & HG & HM & Hd).
  exists wc, key, pkix. eexists.
  repeat (split; [first [eassumption|reflexivity]|]).
  pose proof (fresh_pair_perm k1 k2
    ("device.pub", mkFile (pem_EncodeToMemory (mkBlock "PUBLIC KEY" pkix)) 438)
    ("device.key",
     mkFile (pem_EncodeToMemory
               (mkBlock "RSA PRIVATE KEY" (x509_MarshalPKCS1PrivateKey key))) 438))
    as HP.
  split; [exact HP|].
  split; [apply (Permutation_length HP)|].
  split; rewrite (has_file_perm _ _ _ HP); reflexivity.
Qed.

(** With the private-key file in place, and reported by [os.Stat],
    [ensureKeyPair] does nothing. *)
Lemma ensureKeyPair_present (w : World) :
  has_file "device.key" (cryptoDir w) = true ->
  io_fails env (SysStat "device.key") (S (clock w)) = false ->
  exists w', ensureKeyPair env d w = (Ok tt, w') /\ cryptoDir w' = cryptoDir w.
Proof.
  intros Hkey Hstat. rewrite ensureKeyPair_eq, Hkey, Hstat.
  eexists. split; [reflexivity|]. simpl.
  destruct (cryptoDir w) as [dir|] eqn:Hdir; [|discriminate].
  apply entered_some. exact Hdir.
Qed.

(** After a successful [ensureKeyPair] the private-key file is there. *)
Lemma ensureKeyPair_ok_has_key (w w' : World) :
  ensureKeyPair env d w = (Ok tt, w') ->
  has_file "device.key" (cryptoDir w') = true.
Proof.
  intros H.
  destruct (has_file "device.key" (cryptoDir w)
            && negb (io_fails env (SysStat "device.key") (S (clock w))))
    eqn:Hseen.
  - rewrite ensureKeyPair_eq, Hseen in H. inversion H; subst. simpl.
    rewrite entered_has. apply andb_prop in Hseen. apply Hseen.
  - destruct (ensureKeyPair_fresh_pair _ _ Hseen H)
      as (wc & key & pkix & k1 & k2 & _ & _ & _ & _ & Hd).
    rewrite Hd, (has_file_perm _ _ _ (fresh_pair_perm _ _ _ _)). reflexivity.
Qed.

(** C3, as the code has it.  When the private-key file exists and
    [os.Stat] reports it, [ensureKeyPair] returns success and leaves the
    crypto directory as it was.  Hence, after a first successful call (on
    a fresh directory, or on any other), a second call whose [os.Stat]
    reports the key succeeds too and leaves the directory, and so the
    private-key file that the first call left, unchanged. *)
Theorem ensureKeyPair_idempotent (w : World) :
  (has_file "device.key" (cryptoDir w) = true ->
   io_fails env (SysStat "device.key") (S (clock w)) = false ->
   exists w', ensureKeyPair env d w = (Ok tt, w') /\ cryptoDir w' = cryptoDir w) /\
  (forall w1,
     ensureKeyPair env d w = (Ok tt, w1) ->
     io_fails env (SysStat "device.key") (S (clock w1)) = false ->
     exists w2,
       ensureKeyPair env d w1 = (Ok tt, w2) /\
       cryptoDir w2 = cryptoDir w1 /\
       lookup_file "device.key" (cryptoDir w1) <> None /\
       lookup_file "device.key" (cryptoDir w2) =
       lookup_file "device.key" (cryptoDir w1)).
Proof.
  split; [apply ensureKeyPair_present|].
  intros w1 H1 Hstat.
  pose proof (ensureKeyPair_ok_has_key _ _ H1) as Hkey.
  destruct (ensureKeyPair_present w1 Hkey Hstat) as (w2 & H2 & Hd).
  exists w2. split; [exact H2|]. split; [exact Hd|]. split.
  - unfold has_file in Hkey. unfold lookup_file.
    destruct (cryptoDir w1) as [dir|]; [|discriminate].
    destruct (find_file "device.key" dir); [discriminate|discriminate].
  - rewrite Hd. reflexivity.
Qed.

(** ** The certificate signing request *)

(** [ensureCSR], step by step. *)
Lemma ensureCSR_eq (w : World) :
  let sign := fun (privateKey : rsa_PrivateKey) (w3 : World) =>
    match x509_CreateCertificateRequest
            (rand_Reader env (clock w3)) (csrTemplate d) privateKey with
    | inl e => (Err e, tick w3)
    | inr csrBytes =>
        (os_Create env "device.csr" ;;;
         pem_Encode env "device.csr"
           {| BlockType := "CERTIFICATE REQUEST"; Bytes := csrBytes |}) (tick w3)
    end in
  ensureCSR env d w =
  match ensureKeyPair env d w with
  | (Ok _, w1) =>
      if has_file "device.csr" (cryptoDir w1)
         && negb (io_fails env (SysStat "device.csr") (S (clock w1)))
      then (Ok tt, tick (entered w1))
      else
        match ioutil_ReadFile env "device.key" (entered (tick (entered w1))) with
        | (Ok priv, w3) =>
            match pem_Decode priv with
            | None =>
                (Err (ErrorString
                   "Corrupted data in Device Private key, clearing the crypto store"), w3)
            | Some (privPem, _) =>
                match x509_ParsePKCS1PrivateKey (Bytes privPem) with
                | inr k => sign k w3
                | inl _ =>
                    match x509_ParsePKCS8PrivateKey (Bytes privPem) with
                    | inl e => (Err e, w3)
                    | inr (RSAKey k) => sign k w3
                    | inr _ =>
                        (Err (ErrorString
                           "Unable to parse RSA private key, clearing the crypto store"), w3)
                    end
                end
            end
        | (Err e, w3) => (Err e, w3)
        | (Panic msg, w3) => (Panic msg, w3)
        end
  | (Err e, w1) => (Err e, w1)
  | (Panic msg, w1) => (Panic msg, w1)
  end.
Proof.
  cbv zeta. unfold ensureCSR. unfold bind at 1.
  destruct (ensureKeyPair env d w) as [[[]|e|msg] w1]; try reflexivity.
  unfold bind at 1. rewrite cryptoFile_ok.
  unfold bind at 1. unfold attempt, os_Stat. rewrite entered_has, entered_clock.
  destruct (has_file "device.csr" (cryptoDir w1)
            && negb (io_fails env (SysStat "device.csr") (S (clock w1))));
    [reflexivity|].
  unfold bind at 1. rewrite cryptoFile_ok. unfold bind at 1.
  destruct (ioutil_ReadFile env "device.key" (entered (tick (entered w1))))
    as [[priv|e|msg] w3]; try reflexivity.
  destruct (pem_Decode priv) as [[privPem rest]|]; [|reflexivity].
  unfold bind at 1.
  destruct (x509_ParsePKCS1PrivateKey (Bytes privPem)) as [e1|k]; simpl.
  - destruct (x509_ParsePKCS8PrivateKey (Bytes privPem)) as [e|[k|der|seed]];
      simpl; try reflexivity.
    unfold bind at 1. unfold read_rand. unfold bind at 1.
    destruct (x509_CreateCertificateRequest (rand_Reader env (clock w3))
                (csrTemplate d) k); reflexivity.
  - unfold bind at 1. unfold read_rand. unfold bind at 1.
    destruct (x509_CreateCertificateRequest (rand_Reader env (clock w3))
                (csrTemplate d) k); reflexivity.
Qed.

(** The two ways in which [ensureKeyPair] succeeds: [os.Stat] reported the
    key and nothing changed, or it did not and a fresh pair replaces
    everything. *)
Lemma ensureKeyPair_ok_cases (w w1 : World) :
  ensureKeyPair env d w = (Ok tt, w1) ->
  (has_file "device.key" (cryptoDir w) = true /\
   io_fails env (SysStat "device.key") (S (clock w)) = false /\
   cryptoDir w1 = cryptoDir w)
  \/
  (has_file "device.key" (cryptoDir w)
   && negb (io_fails env (SysStat "device.key") (S (clock w))) = false /\
   exists key pkix k1 k2 t,
     rsa_GenerateKey (rand_Reader env t) 2048 = inr key /\
     cryptoDir w1 =
       Some (insert_at k2
               ("device.key",
                mkFile (pem_EncodeToMemory
                          (mkBlock "RSA PRIVATE KEY" (x509_MarshalPKCS1PrivateKey key)))
                       438)
               (insert_at k1
                  ("device.pub",
                   mkFile (pem_EncodeToMemory (mkBlock "PUBLIC KEY" pkix)) 438)
                  []))).
Proof.
  intros H1.
  destruct (has_file "device.key" (cryptoDir w)
            && negb (io_fails env (SysStat "device.key") (S (clock w))))
    eqn:Hseen.
  - left. apply andb_prop in Hseen. destruct Hseen as [Hkey Hstat].
    apply Bool.negb_true_iff in Hstat.
    split; [exact Hkey|]. split; [exact Hstat|].
    destruct (ensureKeyPair_present w Hkey Hstat) as (w' & H' & Hd).
    congruence.
  - right. split; [reflexivity|].
    destruct (ensureKeyPair_fresh_pair _ _ Hseen H1)
      as (wc & key & pkix & k1 & k2 & _ & _ & HG & _ & Hd).
    exists key, pkix, k1, k2. eexists. split; [exact HG|exact Hd].
Qed.

Lemma ensureKeyPair_keeps_when_key (w w1 : World) :
  has_file "device.key" (cryptoDir w) = true ->
  io_fails env (SysStat "device.key") (S (clock w)) = false ->
  ensureKeyPair env d w = (Ok tt, w1) ->
  cryptoDir w1 = cryptoDir w.
Proof.
  intros Hkey Hstat H1.
  destruct (ensureKeyPair_present w Hkey Hstat) as (w' & H' & Hd).
  congruence.
Qed.

(** [ensureKeyPair] never brings a CSR into the directory, and a CSR that
    was there without a private key is gone. *)
Lemma ensureKeyPair_no_csr (w w1 : World) :
  has_file "device.csr" (cryptoDir w) = false \/
  has_file "device.key" (cryptoDir w) = false ->
  ensureKeyPair env d w = (Ok tt, w1) ->
  has_file "device.csr" (cryptoDir w1) = false.
Proof.
  intros Hcsr H1.
  destruct (ensureKeyPair_ok_cases _ _ H1)
    as [(Hkey & _ & Hd) | (_ & key & pkix & k1 & k2 & t & _ & Hd)].
  - rewrite Hd. destruct Hcsr as [Hcsr|Hcsr]; [exact Hcsr|congruence].
  - rewrite Hd, (has_file_perm _ _ _ (fresh_pair_perm _ _ _ _)). reflexivity.
Qed.

(** With a library in which generated keys read back, the key file that
    [savePEMKey] wrote in full is not one that [ensureCSR] rejects. *)
Lemma generated_key_not_rejected (rnd : bytes) (key : rsa_PrivateKey) (e : error) :
  key_reads_back lib ->
  rsa_GenerateKey rnd 2048 = inr key ->
  key_rejected
    (pem_EncodeToMemory (mkBlock "RSA PRIVATE KEY" (x509_MarshalPKCS1PrivateKey key)))
    e ->
  False.
Proof.
  intros Hback HG Hrej.
  destruct (Hback _ _ HG) as ((rest & HD) & HP).
  destruct Hrej as [(HD' & _) | [(privPem & rest' & e1 & HD' & HP1 & _)
                               | (privPem & rest' & e1 & k & HD' & HP1 & _)]];
    rewrite HD in HD'; try discriminate;
    inversion HD'; subst privPem; simpl in HP1; congruence.
Qed.

(** C10. When the content of the private-key file is rejected (no PEM
    block, bytes that are neither PKCS#1 nor PKCS#8, or a key that is not
    RSA), [ensureCSR] returns the error (or the error of the read, when
    reading the key file fails), and every file of the crypto directory is
    as it was when the call started: the store is not cleared, whatever
    the messages say.  The key pair has been ensured first; with a library
    in which a freshly generated key reads back, a rejected key can only
    be one that was there before the call, reported by [os.Stat] and left
    alone. *)
Theorem ensureCSR_rejected_key_keeps_files
    (w w1 : World) (keyFile : File) (e : error) :
  key_reads_back lib ->
  ensureKeyPair env d w = (Ok tt, w1) ->
  has_file "device.csr" (cryptoDir w1) = false \/
  io_fails env (SysStat "device.csr") (S (clock w1)) = true ->
  lookup_file "device.key" (cryptoDir w1) = Some keyFile ->
  key_rejected (data keyFile) e ->
  exists e' w',
    ensureCSR env d w = (Err e', w') /\
    (e' = e \/ e' = PathError (SysReadFile "device.key")) /\
    cryptoDir w' = cryptoDir w.
Proof.
  intros Hback H1 Hcsr Hkey Hrej.
  assert (Hkept : cryptoDir w1 = cryptoDir w).
  { destruct (ensureKeyPair_ok_cases _ _ H1)
      as [(_ & _ & Hd) | (_ & key & pkix & k1 & k2 & t & HG & Hd)];
      [exact Hd|exfalso].
    rewrite Hd in Hkey. simpl in Hkey.
    rewrite find_file_insert_at, String.eqb_refl in Hkey.
    2:{ rewrite (find_file_insert_at _ "device.pub" "device.key" _ [] eq_refl).
        reflexivity. }
    inversion Hkey; subst keyFile. simpl in Hrej.
    exact (generated_key_not_rejected _ _ _ Hback HG Hrej). }
  assert (Hunseen : has_file "device.csr" (cryptoDir w1)
                    && negb (io_fails env (SysStat "device.csr") (S (clock w1)))
                    = false).
  { apply Bool.andb_false_iff.
    destruct Hcsr as [H|H]; [left; exact H|right; rewrite H; reflexivity]. }
  pose proof (ensureCSR_eq w) as Heq. cbv zeta in Heq.
  rewrite Heq, H1, Hunseen. clear Heq.
  assert (Hs : same_files w1 (entered (tick (entered w1)))).
  { eapply same_files_trans; [apply entered_same|].
    eapply same_files_trans; [apply same_files_tick|apply entered_same]. }
  assert (Hdir : cryptoDir (tick (entered (tick (entered w1)))) = cryptoDir w).
  { simpl. rewrite <- Hkept.
    destruct (cryptoDir w1) as [dir|] eqn:E; [|discriminate].
    apply (same_files_some _ _ _ Hs E). }
  destruct (ioutil_ReadFile env "device.key" (entered (tick (entered w1))))
    as [r w3] eqn:HR.
  apply ReadFile_inv in HR. destruct HR as [-> HR].
  destruct HR as [(f & -> & Hf & _) | ->].
  2:{ do 2 eexists. split; [reflexivity|]. auto. }
  rewrite (same_files_lookup _ _ "device.key" Hs), Hkey in Hf.
  inversion Hf; subst f.
  destruct Hrej as [(HD & ->) | [(privPem & rest & e1 & HD & HP1 & HP8)
                               | (privPem & rest & e1 & k & HD & HP1 & HP8 & Hk & ->)]];
    rewrite HD; [|rewrite HP1, HP8..].
  - do 2 eexists. split; [reflexivity|]. auto.
  - do 2 eexists. split; [reflexivity|]. auto.
  - destruct k as [rsa| |]; [exfalso; apply (Hk rsa); reflexivity| |];
      do 2 eexists; (split; [reflexivity|]); auto.
Qed.


(** ** The private key and its public key *)

Lemma has_file_of_lookup (name : string) (dir : option Dir) :
  has_file name dir =
  match lookup_file name dir with Some _ => true | None => false end.
Proof. destruct dir; reflexivity. Qed.

Lemma key_has_pub_same (w w' : World) :
  same_files w w' -> key_has_pub w -> key_has_pub w'.
Proof.
  unfold key_has_pub. intros Hs H.
  rewrite !(same_files_has _ _ _ Hs). exact H.
Qed.

(** Files other than [name] keep their presence; so [key_has_pub] survives
    any change that is confined to a third file. *)
Lemma key_has_pub_other (name : string) (w w' : World) :
  name <> "device.key" -> name <> "device.pub" ->
  (forall n, n <> name ->
     lookup_file n (cryptoDir w') = lookup_file n (cryptoDir w)) ->
  key_has_pub w -> key_has_pub w'.
Proof.
  unfold key_has_pub. intros Hk Hp Hother H.
  rewrite !has_file_of_lookup in *.
  rewrite (Hother "device.key"), (Hother "device.pub") by congruence.
  exact H.
Qed.

Lemma hasValidCertificate_same_files (w : World) (r : Outcome bool) (w' : World) :
  hasValidCertificate env d w = (r, w') -> same_files w w'.
Proof.
  rewrite hasValidCertificate_eq.
  destruct (loadKeyPair env d w) as [[tc|e|msg] w1] eqn:HL;
    pose proof (loadKeyPair_inv _ _ _ HL) as [Hs1 _];
    try (intros H; inversion H; subst; exact Hs1).
  destruct (readCertificate env d w1) as [[c|e|msg] w2] eqn:HR;
    pose proof (readCertificate_inv _ _ _ HR) as [Hs2 _];
    pose proof (same_files_trans _ _ _ Hs1 Hs2) as Hs;
    try (intros H; inversion H; subst; exact Hs).
  destruct (pem_Decode c) as [[block rest]|];
    [destruct (x509_ParseCertificate (Bytes block))|];
    intros H; inversion H; subst; exact Hs.
Qed.

Lemma getTLSConfig_same_files (w : World) (r : Outcome tls_Config) (w' : World) :
  getTLSConfig env d w = (r, w') -> same_files w w'.
Proof.
  rewrite getTLSConfig_eq.
  destruct (loadKeyPair env d w) as [[tc|e|msg] w1] eqn:HL;
    pose proof (loadKeyPair_inv _ _ _ HL) as [Hs1 _];
    intros H; inversion H; subst; exact Hs1.
Qed.

Lemma getCSRString_same_files (w : World) (r : Outcome bytes) (w' : World) :
  getCSRString env d w = (r, w') -> same_files w w'.
Proof.
  unfold getCSRString, bind. rewrite cryptoFile_ok. intros H.
  apply ReadFile_inv in H. destruct H as [-> _].
  eapply same_files_trans; [apply entered_same|apply same_files_tick].
Qed.

(** [os.Create] then [pem.Encode]: whatever happens, only [name] is touched,
    and it is not removed. *)
Lemma create_encode_others (name : string) (b : pem_Block) (w : World)
    (r : Outcome unit) (w' : World) :
  (os_Create env name ;;; pem_Encode env name b) w = (r, w') ->
  (forall n, n <> name ->
     lookup_file n (cryptoDir w') = lookup_file n (cryptoDir w)) /\
  (r = Ok tt -> has_file name (cryptoDir w') = true).
Proof.
  unfold bind, os_Create, pem_Encode.
  destruct (open_trunc env name 438 w) as [[[]|e|msg] w1] eqn:Hopen.
  - pose proof (open_trunc_lookup _ _ _ _ Hopen) as (_ & Hname & Hother).
    intros Hw.
    pose proof (write_all_lookup _ _ _ _ _ Hw) as (Hother' & Hhas & _ & _).
    split.
    + intros n Hn. rewrite (Hother' n Hn). apply Hother. exact Hn.
    + intros _. rewrite Hhas, has_file_of_lookup, Hname. reflexivity.
  - apply open_trunc_inv in Hopen.
    destruct Hopen as [(_ & -> & _) | (Hx & _)]; [|discriminate].
    intros H; inversion H; subst. split; [reflexivity|discriminate].
  - apply open_trunc_inv in Hopen.
    destruct Hopen as [(Hx & _) | (Hx & _)]; discriminate.
Qed.

Lemma saveCertificateFromString_others
    (certificateString : string) (w : World) (r : Outcome unit) (w' : World) :
  saveCertificateFromString env d certificateString w = (r, w') ->
  forall n, n <> "device.crt" ->
    lookup_file n (cryptoDir w') = lookup_file n (cryptoDir w).
Proof.
  unfold saveCertificateFromString, bind. rewrite cryptoFile_ok.
  intros Hrun n Hn. rewrite <- (entered_lookup n w).
  destruct (pem_Decode (bytes_of_string certificateString)).
  - unfold ioutil_WriteFile, bind in Hrun.
    destruct (open_trunc env "device.crt" 384 (entered w)) as [[[]|e|msg] w1] eqn:Hopen.
    + pose proof (open_trunc_lookup _ _ _ _ Hopen) as (_ & _ & Hother).
      pose proof (write_all_lookup _ _ _ _ _ Hrun) as (Hother' & _).
      rewrite (Hother' n Hn). apply Hother. exact Hn.
    + apply open_trunc_inv in Hopen.
      destruct Hopen as [(_ & -> & _) | (Hx & _)]; [|discriminate].
      inversion Hrun; subst. reflexivity.
    + apply open_trunc_inv in Hopen.
      destruct Hopen as [(Hx & _) | (Hx & _)]; discriminate.
  - unfold raise in Hrun. inversion Hrun; subst. reflexivity.
Qed.

(** When no removal fails, [ClearCrypto] empties the directory or leaves
    it alone. *)
Lemma ClearCrypto_all_or_nothing (w : World) (r : Outcome unit) (w' : World) :
  (forall name t, io_fails env (SysRemove name) t = false) ->
  ClearCrypto env d w = (r, w') ->
  (r = Ok tt /\ cryptoDir w' = Some []) \/ (r <> Ok tt /\ same_files w w').
Proof.
  intros Hrm. unfold ClearCrypto, bind. rewrite getCryptoDir_ok.
  pose proof (entered_same w) as Hs.
  remember (entered w) as w1 eqn:Hw1. clear Hw1.
  unfold os_Open, Readdir.
  destruct (cryptoDir w1) as [dir|] eqn:Hdir.
  2:{ intros H; inversion H; subst. right. split; [discriminate|exact Hs]. }
  destruct (io_fails env SysOpen (clock w1)).
  { intros H; inversion H; subst. right. split; [discriminate|exact Hs]. }
  simpl. rewrite Hdir.
  destruct (io_fails env SysReaddir (S (clock w1))).
  { intros H; inversion H; subst. right. split; [discriminate|exact Hs]. }
  intros Hrun. apply (removeAll_spec dir) in Hrun; [|exact Hdir].
  destruct Hrun as [(-> & Hd & _) | (k & _ & _ & _ & Hbad & _)].
  - left. auto.
  - rewrite Hrm in Hbad. discriminate.
Qed.

Lemma key_has_pub_no_key (w : World) :
  has_file "device.key" (cryptoDir w) = false -> key_has_pub w.
Proof. unfold key_has_pub. congruence. Qed.

Lemma key_has_pub_with_pub (w : World) :
  has_file "device.pub" (cryptoDir w) = true -> key_has_pub w.
Proof. unfold key_has_pub. auto. Qed.

Lemma savePublicPEMKey_others (name : string) (pub : rsa_PublicKey) (w : World)
    (r : Outcome unit) (w' : World) :
  savePublicPEMKey env name pub w = (r, w') ->
  (forall n, n <> name ->
     lookup_file n (cryptoDir w') = lookup_file n (cryptoDir w)) /\
  (r = Ok tt -> has_file name (cryptoDir w') = true).
Proof.
  unfold savePublicPEMKey. unfold bind at 1.
  destruct (x509_MarshalPKIXPublicKey pub) as [e|pkix]; simpl.
  - intros H; inversion H; subst. split; [reflexivity|discriminate].
  - apply create_encode_others.
Qed.

(** [ensureKeyPair] keeps the private key with its public key, however it
    ends: the public key is written first. *)
Lemma ensureKeyPair_key_has_pub (w : World) (r : Outcome unit) (w' : World) :
  (forall name t, io_fails env (SysRemove name) t = false) ->
  key_has_pub w ->
  ensureKeyPair env d w = (r, w') ->
  key_has_pub w'.
Proof.
  intros Hrm Hinv. rewrite ensureKeyPair_eq.
  assert (Hs0 : same_files w (tick (entered w))) by apply entered_same.
  destruct (has_file "device.key" (cryptoDir w)
            && negb (io_fails env (SysStat "device.key") (S (clock w)))).
  { intros H; inversion H; subst. apply (key_has_pub_same _ _ Hs0 Hinv). }
  unfold bind at 1.
  destruct (ClearCrypto env d (tick (entered w))) as [rc wc] eqn:HC.
  apply (ClearCrypto_all_or_nothing _ _ _ Hrm) in HC.
  destruct HC as [(-> & Hwc) | (Hrc & Hsc)].
  2:{ assert (Hx : key_has_pub wc).
      { apply (key_has_pub_same _ _ Hsc), (key_has_pub_same _ _ Hs0 Hinv). }
      destruct rc as [[]|e|msg]; [congruence| |];
        intros H; inversion H; subst; exact Hx. }
  unfold bind at 1. unfold read_rand. unfold bind at 1.
  destruct (rsa_GenerateKey (rand_Reader env (clock wc)) 2048) as [e|key]; simpl.
  { intros H; inversion H; subst. apply key_has_pub_no_key.
    simpl. rewrite Hwc. reflexivity. }
  unfold bind at 1. rewrite cryptoFile_ok. unfold bind at 1.
  assert (Hd1 : cryptoDir (entered (tick wc)) = Some [])
    by (apply entered_some; exact Hwc).
  destruct (savePublicPEMKey env "device.pub" (PublicKey key) (entered (tick wc)))
    as [rp w2] eqn:HP.
  apply savePublicPEMKey_others in HP. destruct HP as (Hother & Hpub).
  assert (Hnokey : has_file "device.key" (cryptoDir w2) = false).
  { rewrite has_file_of_lookup, (Hother "device.key") by discriminate.
    rewrite Hd1. reflexivity. }
  destruct rp as [[]|e|msg];
    try (intros H; inversion H; subst; apply key_has_pub_no_key; exact Hnokey).
  intros HK. apply create_encode_others in HK. destruct HK as (Hother' & _).
  apply key_has_pub_with_pub.
  rewrite has_file_of_lookup, (Hother' "device.pub") by discriminate.
  rewrite <- has_file_of_lookup. apply Hpub. reflexivity.
Qed.

Lemma ensureCSR_key_has_pub (w : World) (r : Outcome unit) (w' : World) :
  (forall name t, io_fails env (SysRemove name) t = false) ->
  key_has_pub w ->
  ensureCSR env d w = (r, w') ->
  key_has_pub w'.
Proof.
  intros Hrm Hinv.
  pose proof (ensureCSR_eq w) as Heq. cbv zeta in Heq. rewrite Heq. clear Heq.
  destruct (ensureKeyPair env d w) as [rk w1] eqn:H1.
  pose proof (ensureKeyPair_key_has_pub _ _ _ Hrm Hinv H1) as Hinv1.
  destruct rk as [[]|e|msg]; try (intros H; inversion H; subst; exact Hinv1).
  assert (Hs2 : same_files w1 (tick (entered w1))) by apply entered_same.
  destruct (has_file "device.csr" (cryptoDir w1)
            && negb (io_fails env (SysStat "device.csr") (S (clock w1)))).
  { intros H; inversion H; subst. apply (key_has_pub_same _ _ Hs2 Hinv1). }
  assert (Hs : same_files w1 (entered (tick (entered w1)))).
  { eapply same_files_trans; [exact Hs2|apply entered_same]. }
  destruct (ioutil_ReadFile env "device.key" (entered (tick (entered w1))))
    as [rr w3] eqn:HR.
  apply ReadFile_inv in HR. destruct HR as [-> HR].
  assert (Hinv3 : key_has_pub (tick (entered (tick (entered w1)))))
    by apply (key_has_pub_same _ _ Hs Hinv1).
  assert (Hsign : forall k,
    match x509_CreateCertificateRequest
            (rand_Reader env (clock (tick (entered (tick (entered w1))))))
            (csrTemplate d) k with
    | inl e => (Err e, tick (tick (entered (tick (entered w1)))))
    | inr csrBytes =>
        (os_Create env "device.csr" ;;;
         pem_Encode env "device.csr"
           {| BlockType := "CERTIFICATE REQUEST"; Bytes := csrBytes |})
          (tick (tick (entered (tick (entered w1)))))
    end = (r, w') -> key_has_pub w').
  { intros k.
    destruct (x509_CreateCertificateRequest
                (rand_Reader env (clock (tick (entered (tick (entered w1))))))
                (csrTemplate d) k) as [e|der].
    - intros H; inversion H; subst. exact Hinv3.
    - intros H. apply create_encode_others in H. destruct H as (Hother & _).
      apply (key_has_pub_other "device.csr" (tick (tick (entered (tick (entered w1))))));
        [discriminate|discriminate|exact Hother|exact Hinv3]. }
  destruct rr as [priv|e|msg]; try (intros H; inversion H; subst; exact Hinv3).
  destruct (pem_Decode priv) as [[privPem rest]|];
    [|intros H; inversion H; subst; exact Hinv3].
  destruct (x509_ParsePKCS1PrivateKey (Bytes privPem)) as [e1|k1];
    [|apply Hsign].
  destruct (x509_ParsePKCS8PrivateKey (Bytes privPem)) as [e|[k8|der|seed]];
    try (intros H; inversion H; subst; exact Hinv3).
  apply Hsign.
Qed.

(** Every operation keeps the private key with its public key, as long as
    no removal fails. *)
Lemma exec_key_has_pub (o : Op) (w : World) :
  (forall name t, io_fails env (SysRemove name) t = false) ->
  key_has_pub w -> key_has_pub (exec env d o w).
Proof.
  intros Hrm Hinv. destruct o; simpl.
  - destruct (ClearCrypto env d w) as [r w'] eqn:H. simpl.
    apply (ClearCrypto_all_or_nothing _ _ _ Hrm) in H.
    destruct H as [(_ & Hd) | (_ & Hs)].
    + apply key_has_pub_no_key. rewrite Hd. reflexivity.
    + apply (key_has_pub_same _ _ Hs Hinv).
  - destruct (ensureKeyPair env d w) as [r w'] eqn:H. simpl.
    apply (ensureKeyPair_key_has_pub _ _ _ Hrm Hinv H).
  - destruct (ensureCSR env d w) as [r w'] eqn:H. simpl.
    apply (ensureCSR_key_has_pub _ _ _ Hrm Hinv H).
  - destruct (getCSRString env d w) as [r w'] eqn:H. simpl.
    apply (key_has_pub_same _ _ (getCSRString_same_files _ _ _ H) Hinv).
  - destruct (saveCertificateFromString env d certificateString w) as [r w'] eqn:H.
    simpl.
    apply (key_has_pub_other "device.crt" w);
      [discriminate|discriminate|
       exact (saveCertificateFromString_others _ _ _ _ H)|exact Hinv].
  - destruct (hasValidCertificate env d w) as [r w'] eqn:H. simpl.
    apply (key_has_pub_same _ _ (hasValidCertificate_same_files _ _ _ H) Hinv).
  - destruct (getTLSConfig env d w) as [r w'] eqn:H. simpl.
    apply (key_has_pub_same _ _ (getTLSConfig_same_files _ _ _ H) Hinv).
Qed.

(** C9, as the code has it.  In every state reached from an empty (or not
    yet created) crypto directory by any sequence of the operations, in an
    environment where directory and file creations, writes and reads may
    fail at any point but no file removal fails, the presence of
    [device.key] implies the presence of [device.pub]. *)
Theorem key_has_pub_reachable (ops : list Op) (w : World) :
  (forall name t, io_fails env (SysRemove name) t = false) ->
  cryptoDir w = Some [] \/ cryptoDir w = None ->
  key_has_pub (run env d ops w).
Proof.
  intros Hrm Hempty.
  assert (Hinv : key_has_pub w).
  { apply key_has_pub_no_key. destruct Hempty as [-> | ->]; reflexivity. }
  clear Hempty. revert w Hinv.
  induction ops as [|o rest IH]; intros w Hinv; simpl.
  - exact Hinv.
  - apply IH. apply exec_key_has_pub; assumption.
Qed.

(** ** Reading the directory *)

(** The load step on a directory that holds both files, when no read
    fails. *)
Lemma loadKeyPair_ok (w : World) (c k : File) (tc : tls_Certificate) :
  (forall name t, io_fails env (SysReadFile name) t = false) ->
  lookup_file "device.crt" (cryptoDir w) = Some c ->
  lookup_file "device.key" (cryptoDir w) = Some k ->
  tls_X509KeyPair (data c) (data k) = inr tc ->
  loadKeyPair env d w = (Ok tc, tick (tick (entered (entered w)))).
Proof.
  intros Hio Hc Hk Hp. rewrite loadKeyPair_eq.
  unfold tls_LoadX509KeyPair. unfold bind at 1.
  unfold ioutil_ReadFile at 1. rewrite !entered_lookup, Hc, Hio.
  unfold bind at 1. unfold ioutil_ReadFile. simpl.
  rewrite !entered_lookup, Hk, Hio, Hp. reflexivity.
Qed.

Lemma readCertificate_ok (w : World) (c : File) :
  (forall name t, io_fails env (SysReadFile name) t = false) ->
  lookup_file "device.crt" (cryptoDir w) = Some c ->
  readCertificate env d w = (Ok (data c), tick (entered w)).
Proof.
  intros Hio Hc. rewrite readCertificate_eq.
  unfold ioutil_ReadFile. rewrite entered_lookup, Hc, Hio. reflexivity.
Qed.

Lemma ReadFile_missing (name : string) (w : World) :
  lookup_file name (cryptoDir w) = None ->
  ioutil_ReadFile env name w = (Err (PathError (SysReadFile name)), tick w).
Proof. intros H. unfold ioutil_ReadFile. rewrite H. reflexivity. Qed.

(** X1. The three readers, [hasValidCertificate], [getTLSConfig] and
    [getCSRString], leave every file as it is, however they end; the only
    thing they may do to the disk is create the missing crypto
    directory. *)
Theorem readers_change_no_file (w : World) :
  (forall r w', hasValidCertificate env d w = (r, w') -> same_files w w') /\
  (forall r w', getTLSConfig env d w = (r, w') -> same_files w w') /\
  (forall r w', getCSRString env d w = (r, w') -> same_files w w').
Proof.
  split; [|split]; intros r w' H.
  - exact (hasValidCertificate_same_files _ _ _ H).
  - exact (getTLSConfig_same_files _ _ _ H).
  - exact (getCSRString_same_files _ _ _ H).
Qed.

(** X2. [hasValidCertificate] returns false, whatever the library does,
    as soon as the certificate file or the private-key file is missing: a
    certificate without its key does not count as valid. *)
Theorem hasValidCertificate_needs_both_files (w : World) :
  lookup_file "device.crt" (cryptoDir w) = None \/
  lookup_file "device.key" (cryptoDir w) = None ->
  exists w', hasValidCertificate env d w = (Ok false, w').
Proof.
  intros Hmiss. rewrite hasValidCertificate_eq.
  destruct (loadKeyPair env d w) as [[tc|e|msg] w1] eqn:HL;
    pose proof (loadKeyPair_inv _ _ _ HL) as [_ HL'].
  - destruct HL' as (c & k & Hc & Hk & _).
    destruct Hmiss as [H|H]; congruence.
  - eexists. reflexivity.
  - destruct HL'.
Qed.

(** X3. A certificate that [hasValidCertificate] accepts can be used: when
    it returns true, [getTLSConfig], called next, succeeds, provided that
    its two reads do not fail. *)
Theorem valid_certificate_gives_tls_config (w w' : World) :
  (forall name t, io_fails env (SysReadFile name) t = false) ->
  hasValidCertificate env d w = (Ok true, w') ->
  exists cfg w'',
    getTLSConfig env d w' = (Ok cfg, w'') /\
    ConfigRootCAs cfg = RootCAs d /\
    InsecureSkipVerify cfg = IgnoreSSLErrors d.
Proof.
  intros Hio Hvalid.
  pose proof (hasValidCertificate_same_files _ _ _ Hvalid) as Hs.
  rewrite hasValidCertificate_eq in Hvalid.
  destruct (loadKeyPair env d w) as [[tc|e|msg] w1] eqn:HL;
    [|discriminate|discriminate].
  pose proof (loadKeyPair_inv _ _ _ HL) as [_ (c & k & Hc & Hk & Hp)].
  rewrite <- (same_files_lookup _ _ "device.crt" Hs) in Hc.
  rewrite <- (same_files_lookup _ _ "device.key" Hs) in Hk.
  rewrite getTLSConfig_eq, (loadKeyPair_ok _ _ _ _ Hio Hc Hk Hp).
  do 2 eexists. split; [reflexivity|]. split; reflexivity.
Qed.

(** X4. A new key invalidates what was issued for the old one: after a
    successful [ensureKeyPair] that found no private key, there is neither
    CSR nor certificate, so [hasValidCertificate] returns false, and
    [getTLSConfig] and [getCSRString] fail on the missing file. *)
Theorem regeneration_invalidates (w w' : World) :
  has_file "device.key" (cryptoDir w) = false ->
  ensureKeyPair env d w = (Ok tt, w') ->
  lookup_file "device.csr" (cryptoDir w') = None /\
  lookup_file "device.crt" (cryptoDir w') = None /\
  (exists w'', hasValidCertificate env d w' = (Ok false, w'')) /\
  fst (getTLSConfig env d w') = Err (PathError (SysReadFile "device.crt")) /\
  fst (getCSRString env d w') = Err (PathError (SysReadFile "device.csr")).
Proof.
  intros Hkey Hrun.
  destruct (ensureKeyPair_fresh_pair _ _ (key_absent_unseen _ Hkey) Hrun)
    as (wc & key & pkix & k1 & k2 & _ & _ & _ & _ & Hd).
  assert (Hnone : forall n,
            n <> "device.pub" -> n <> "device.key" ->
            lookup_file n (cryptoDir w') = None).
  { intros n Hp Hk.
    pose proof (has_file_of_lookup n (cryptoDir w')) as Hh.
    rewrite Hd in Hh at 1.
    rewrite (has_file_perm _ _ _ (fresh_pair_perm _ _ _ _)) in Hh.
    simpl in Hh.
    apply String.eqb_neq in Hp, Hk. rewrite Hp, Hk in Hh.
    destruct (lookup_file n (cryptoDir w')); [discriminate|reflexivity]. }
  assert (Hcsr := Hnone "device.csr" ltac:(discriminate) ltac:(discriminate)).
  assert (Hcrt := Hnone "device.crt" ltac:(discriminate) ltac:(discriminate)).
  split; [exact Hcsr|]. split; [exact Hcrt|].
  split; [apply hasValidCertificate_without_certificate; exact Hcrt|].
  split.
  - rewrite getTLSConfig_eq, loadKeyPair_eq.
    unfold tls_LoadX509KeyPair, bind.
    rewrite ReadFile_missing by (rewrite !entered_lookup; exact Hcrt).
    reflexivity.
  - unfold getCSRString, bind. rewrite cryptoFile_ok.
    rewrite ReadFile_missing by (rewrite entered_lookup; exact Hcsr).
    reflexivity.
Qed.

(** ** More on the signing request *)

(** A successful [ensureCSR] leaves both the private key and the CSR. *)
Lemma ensureCSR_ok_has_both (w w' : World) :
  ensureCSR env d w = (Ok tt, w') ->
  has_file "device.key" (cryptoDir w') = true /\
  has_file "device.csr" (cryptoDir w') = true.
Proof.
  pose proof (ensureCSR_eq w) as Heq. cbv zeta in Heq. rewrite Heq. clear Heq.
  destruct (ensureKeyPair env d w) as [[[]|e|msg] w1] eqn:H1; try discriminate.
  pose proof (ensureKeyPair_ok_has_key _ _ H1) as Hkey.
  assert (Hs2 : same_files w1 (tick (entered w1))) by apply entered_same.
  destruct (has_file "device.csr" (cryptoDir w1)
            && negb (io_fails env (SysStat "device.csr") (S (clock w1)))) eqn:Hcsr.
  { intros H; inversion H; subst.
    apply andb_prop in Hcsr. destruct Hcsr as [Hcsr _].
    rewrite !(same_files_has _ _ _ Hs2). auto. }
  assert (Hs : same_files w1 (entered (tick (entered w1)))).
  { eapply same_files_trans; [exact Hs2|apply entered_same]. }
  destruct (ioutil_ReadFile env "device.key" (entered (tick (entered w1))))
    as [rr w3] eqn:HR.
  apply ReadFile_inv in HR. destruct HR as [-> HR].
  assert (Hsign : forall k,
    match x509_CreateCertificateRequest
            (rand_Reader env (clock (tick (entered (tick (entered w1))))))
            (csrTemplate d) k with
    | inl e => (Err e, tick (tick (entered (tick (entered w1)))))
    | inr csrBytes =>
        (os_Create env "device.csr" ;;;
         pem_Encode env "device.csr"
           {| BlockType := "CERTIFICATE REQUEST"; Bytes := csrBytes |})
          (tick (tick (entered (tick (entered w1)))))
    end = (Ok tt, w') ->
    has_file "device.key" (cryptoDir w') = true /\
    has_file "device.csr" (cryptoDir w') = true).
  { intros k.
    destruct (x509_CreateCertificateRequest
                (rand_Reader env (clock (tick (entered (tick (entered w1))))))
                (csrTemplate d) k) as [e|der]; [discriminate|].
    intros H. apply create_encode_others in H. destruct H as (Hother & Hnew).
    split; [|apply Hnew; reflexivity].
    rewrite has_file_of_lookup, (Hother "device.key") by discriminate.
    rewrite <- has_file_of_lookup. simpl.
    rewrite (same_files_has _ _ _ Hs). exact Hkey. }
  destruct rr as [priv|e|msg]; try discriminate.
  destruct (pem_Decode priv) as [[privPem rest]|]; [|discriminate].
  destruct (x509_ParsePKCS1PrivateKey (Bytes privPem)) as [e1|k1];
    [|apply Hsign].
  destruct (x509_ParsePKCS8PrivateKey (Bytes privPem)) as [e|[k8|der|seed]];
    try discriminate.
  apply Hsign.
Qed.

(** With key and CSR in place, and reported by [os.Stat], [ensureCSR]
    does nothing. *)
Lemma ensureCSR_present (w : World) :
  has_file "device.key" (cryptoDir w) = true ->
  has_file "device.csr" (cryptoDir w) = true ->
  io_fails env (SysStat "device.key") (S (clock w)) = false ->
  io_fails env (SysStat "device.csr") (S (S (S (clock w)))) = false ->
  exists w', ensureCSR env d w = (Ok tt, w') /\ cryptoDir w' = cryptoDir w.
Proof.
  intros Hkey Hcsr Hstat Hstat2.
  pose proof (ensureCSR_eq w) as Heq. cbv zeta in Heq. rewrite Heq. clear Heq.
  pose proof (ensureKeyPair_eq w) as H1. rewrite Hkey, Hstat in H1.
  cbn [andb negb] in H1.
  assert (Hd : cryptoDir (tick (entered w)) = cryptoDir w).
  { simpl. destruct (cryptoDir w) as [dir|] eqn:Hdir; [|discriminate].
    apply entered_some. exact Hdir. }
  remember (tick (entered w)) as w1 eqn:Hw1.
  assert (Hc : clock w1 = S (S (clock w))).
  { subst w1. simpl. rewrite entered_clock. reflexivity. }
  clear Hw1.
  rewrite H1, Hd, Hcsr, Hc, Hstat2. eexists. split; [reflexivity|].
  simpl. rewrite <- Hd. rewrite <- Hd in Hkey.
  destruct (cryptoDir w1) as [dir|] eqn:E; [|discriminate].
  apply entered_some. exact E.
Qed.

(** X5. [ensureCSR] is idempotent as long as [os.Stat] reports the two
    files: after a successful call, a second call whose [os.Stat] of the
    private key and of the CSR do not fail succeeds and leaves the
    directory, and so the CSR and the key it was made for, exactly as the
    first call left them. *)
Theorem ensureCSR_idempotent (w w1 : World) :
  ensureCSR env d w = (Ok tt, w1) ->
  io_fails env (SysStat "device.key") (S (clock w1)) = false ->
  io_fails env (SysStat "device.csr") (S (S (S (clock w1)))) = false ->
  exists w2,
    ensureCSR env d w1 = (Ok tt, w2) /\
    cryptoDir w2 = cryptoDir w1 /\
    lookup_file "device.csr" (cryptoDir w1) <> None /\
    lookup_file "device.key" (cryptoDir w1) <> None.
Proof.
  intros H1 Hstat Hstat2.
  destruct (ensureCSR_ok_has_both _ _ H1) as (Hkey & Hcsr).
  destruct (ensureCSR_present w1 Hkey Hcsr Hstat Hstat2) as (w2 & H2 & Hd).
  exists w2. split; [exact H2|]. split; [exact Hd|].
  rewrite !has_file_of_lookup in *.
  split.
  - destruct (lookup_file "device.csr" (cryptoDir w1)); [discriminate|discriminate].
  - destruct (lookup_file "device.key" (cryptoDir w1)); [discriminate|discriminate].
Qed.

(** X6. Once the private key exists, and [os.Stat] reports it, [ensureCSR]
    never touches it: however the call ends, every file other than
    [device.csr] (the private key, the public key, the certificate) is
    what it was. *)
Theorem ensureCSR_keeps_key (w : World) (r : Outcome unit) (w' : World) :
  has_file "device.key" (cryptoDir w) = true ->
  io_fails env (SysStat "device.key") (S (clock w)) = false ->
  ensureCSR env d w = (r, w') ->
  forall n, n <> "device.csr" ->
    lookup_file n (cryptoDir w') = lookup_file n (cryptoDir w).
Proof.
  intros Hkey Hstat.
  pose proof (ensureCSR_eq w) as Heq. cbv zeta in Heq. rewrite Heq. clear Heq.
  destruct (ensureKeyPair_present w Hkey Hstat) as (w1 & H1 & Hd).
  rewrite H1.
  assert (Hs0 : same_files w w1) by (left; exact Hd).
  assert (Hs2 : same_files w (tick (entered w1))).
  { eapply same_files_trans; [exact Hs0|apply entered_same]. }
  assert (Hs : same_files w (entered (tick (entered w1)))).
  { eapply same_files_trans; [exact Hs2|apply entered_same]. }
  destruct (has_file "device.csr" (cryptoDir w1)
            && negb (io_fails env (SysStat "device.csr") (S (clock w1)))).
  { intros H n _. inversion H; subst. apply same_files_lookup. exact Hs2. }
  destruct (ioutil_ReadFile env "device.key" (entered (tick (entered w1))))
    as [rr w3] eqn:HR.
  apply ReadFile_inv in HR. destruct HR as [-> HR].
  assert (Hkeep : forall n,
            lookup_file n (cryptoDir (tick (entered (tick (entered w1)))))
            = lookup_file n (cryptoDir w)).
  { intros n. simpl. apply same_files_lookup. exact Hs. }
  assert (Hsign : forall k,
    match x509_CreateCertificateRequest
            (rand_Reader env (clock (tick (entered (tick (entered w1))))))
            (csrTemplate d) k with
    | inl e => (Err e, tick (tick (entered (tick (entered w1)))))
    | inr csrBytes =>
        (os_Create env "device.csr" ;;;
         pem_Encode env "device.csr"
           {| BlockType := "CERTIFICATE REQUEST"; Bytes := csrBytes |})
          (tick (tick (entered (tick (entered w1)))))
    end = (r, w') ->
    forall n, n <> "device.csr" ->
      lookup_file n (cryptoDir w') = lookup_file n (cryptoDir w)).
  { intros k.
    destruct (x509_CreateCertificateRequest
                (rand_Reader env (clock (tick (entered (tick (entered w1))))))
                (csrTemplate d) k) as [e|der].
    - intros H n _. inversion H; subst. apply Hkeep.
    - intros H n Hn. apply create_encode_others in H. destruct H as (Hother & _).
      rewrite (Hother n Hn). apply Hkeep. }
  destruct rr as [priv|e|msg];
    try (intros H n _; inversion H; subst; apply Hkeep).
  destruct (pem_Decode priv) as [[privPem rest]|];
    [|intros H n _; inversion H; subst; apply Hkeep].
  destruct (x509_ParsePKCS1PrivateKey (Bytes privPem)) as [e1|k1];
    [|apply Hsign].
  destruct (x509_ParsePKCS8PrivateKey (Bytes privPem)) as [e|[k8|der|seed]];
    try (intros H n _; inversion H; subst; apply Hkeep).
  apply Hsign.
Qed.

(** X7. [getCSRString] fails with the read error when there is no CSR
    file, and otherwise returns the bytes of the CSR file as they are (or
    the read error); after a successful [ensureCSR] the CSR file is there,
    so only a failing read can make it fail. *)
Theorem getCSRString_spec (w : World) :
  (lookup_file "device.csr" (cryptoDir w) = None ->
   fst (getCSRString env d w) = Err (PathError (SysReadFile "device.csr"))) /\
  (forall f,
     lookup_file "device.csr" (cryptoDir w) = Some f ->
     fst (getCSRString env d w) =
       if io_fails env (SysReadFile "device.csr") (S (clock w))
       then Err (PathError (SysReadFile "device.csr"))
       else Ok (data f)) /\
  (forall w0,
     ensureCSR env d w0 = (Ok tt, w) ->
     exists f,
       lookup_file "device.csr" (cryptoDir w) = Some f /\
       (fst (getCSRString env d w) = Ok (data f) \/
        fst (getCSRString env d w) = Err (PathError (SysReadFile "device.csr")))).
Proof.
  assert (Hsome : forall f,
     lookup_file "device.csr" (cryptoDir w) = Some f ->
     fst (getCSRString env d w) =
       if io_fails env (SysReadFile "device.csr") (S (clock w))
       then Err (PathError (SysReadFile "device.csr"))
       else Ok (data f)).
  { intros f Hf. unfold getCSRString, bind. rewrite cryptoFile_ok.
    unfold ioutil_ReadFile. rewrite entered_lookup, Hf, entered_clock.
    destruct (io_fails env (SysReadFile "device.csr") (S (clock w))); reflexivity. }
  split; [|split; [exact Hsome|]].
  - intros Hnone. unfold getCSRString, bind. rewrite cryptoFile_ok.
    rewrite ReadFile_missing by (rewrite entered_lookup; exact Hnone).
    reflexivity.
  - intros w0 H0.
    destruct (ensureCSR_ok_has_both _ _ H0) as (_ & Hcsr).
    rewrite has_file_of_lookup in Hcsr.
    destruct (lookup_file "device.csr" (cryptoDir w)) as [f|] eqn:Hf;
      [|discriminate].
    exists f. split; [reflexivity|].
    rewrite (Hsome f eq_refl).
    destruct (io_fails env (SysReadFile "device.csr") (S (clock w))); auto.
Qed.

(** ** More on the stored certificate *)

(** [ioutil.WriteFile], step by step: the outcome and the file it leaves. *)
Lemma WriteFile_inv (name : string) (content : bytes) (perm : Z) (w : World)
    (r : Outcome unit) (w' : World) :
  ioutil_WriteFile env name content perm w = (r, w') ->
  (r = Err (PathError (SysCreate name)) /\ w' = tick w)
  \/
  (exists written,
     lookup_file name (cryptoDir w') =
       Some (mkFile written match lookup_file name (cryptoDir w) with
                            | Some old => mode old
                            | None => perm
                            end) /\
     ((r = Ok tt /\ written = content) \/
      (r = Err (PathError (SysWrite name)) /\
       written = firstn (short_write env (S (clock w))) content))).
Proof.
  unfold ioutil_WriteFile, bind.
  destruct (open_trunc env name perm w) as [[[]|e|msg] w1] eqn:Hopen.
  - pose proof (open_trunc_lookup _ _ _ _ Hopen) as (_ & Hname & _).
    pose proof (open_trunc_clock _ _ _ _ _ Hopen) as Hclock.
    intros Hw. apply write_all_inv in Hw.
    destruct Hw as [(_ & _ & Hnone) | (dir & f & written & Hdir & Hf & Hdir' & Hr)].
    + rewrite Hname in Hnone. discriminate.
    + right. exists written.
      rewrite Hdir in Hname. simpl in Hname. rewrite Hf in Hname.
      inversion Hname; subst f. simpl in Hdir'.
      split.
      * rewrite Hdir'. simpl.
        rewrite find_file_update, String.eqb_refl, Hf. reflexivity.
      * rewrite Hclock in Hr.
        destruct Hr as [(-> & -> & _) | (-> & -> & _)]; auto.
  - apply open_trunc_inv in Hopen.
    destruct Hopen as [(Hx & -> & _) | (Hx & _)]; [|discriminate].
    inversion Hx; subst. intros H; inversion H; subst. left. auto.
  - apply open_trunc_inv in Hopen.
    destruct Hopen as [(Hx & _) | (Hx & _)]; discriminate.
Qed.

(** [saveCertificateFromString] on a text that decodes is the write. *)
Lemma saveCertificateFromString_write (certificateString : string) (w : World) :
  pem_Decode (bytes_of_string certificateString) <> None ->
  saveCertificateFromString env d certificateString w =
  ioutil_WriteFile env "device.crt" (bytes_of_string certificateString) 384
    (entered w).
Proof.
  intros HD. unfold saveCertificateFromString, bind. rewrite cryptoFile_ok.
  destruct (pem_Decode (bytes_of_string certificateString)); [reflexivity|].
  congruence.
Qed.

(** X8. [saveCertificateFromString] is not atomic.  It ends in one of four
    ways: success, the decode error, the error of opening the certificate
    file, or the error of writing it.  When opening fails no file has
    changed; when the write fails the certificate file has already been
    emptied, so it holds only the part of the new text that was written,
    and the certificate that was stored before is lost. *)
Theorem saveCertificateFromString_failures
    (certificateString : string) (w : World) (r : Outcome unit) (w' : World) :
  saveCertificateFromString env d certificateString w = (r, w') ->
  (r = Ok tt \/
   r = Err (ErrorString "Could not decode PEM certificate") \/
   r = Err (PathError (SysCreate "device.crt")) \/
   r = Err (PathError (SysWrite "device.crt"))) /\
  (r = Err (PathError (SysCreate "device.crt")) -> same_files w w') /\
  (r = Err (PathError (SysWrite "device.crt")) ->
   exists f,
     lookup_file "device.crt" (cryptoDir w') = Some f /\
     data f = firstn (short_write env (S (S (clock w))))
                (bytes_of_string certificateString) /\
     mode f = match lookup_file "device.crt" (cryptoDir w) with
              | Some old => mode old
              | None => 384%Z
              end).
Proof.
  intros Hrun.
  assert (Hs : same_files w (tick (entered w))) by apply entered_same.
  destruct (pem_Decode (bytes_of_string certificateString)) as [p|] eqn:HD.
  - rewrite saveCertificateFromString_write in Hrun by congruence.
    apply WriteFile_inv in Hrun.
    rewrite entered_lookup, entered_clock in Hrun.
    destruct Hrun as [(-> & ->) | (written & Hf & [(-> & ->) | (-> & ->)])].
    + split; [auto|]. split; [intros _; exact Hs|discriminate].
    + split; [auto|]. split; discriminate.
    + split; [auto|]. split; [discriminate|].
      intros _. eexists. split; [exact Hf|]. split; reflexivity.
  - unfold saveCertificateFromString, bind in Hrun.
    rewrite cryptoFile_ok, HD in Hrun. unfold raise in Hrun.
    inversion Hrun; subst.
    split; [auto|]. split; discriminate.
Qed.

(** X9. Storing and then checking: after [saveCertificateFromString] has
    stored a text, with a private key in place that [tls.X509KeyPair]
    accepts with it, and when no read fails, [hasValidCertificate] decides
    on the first PEM block of that very text: it returns whether the time
    it reads is before the [NotAfter] of the certificate in that block. *)
Theorem stored_certificate_is_checked
    (certificateString : string) (w w1 : World) (keyFile : File)
    (tc : tls_Certificate) (block : pem_Block) (rest : bytes)
    (cert : x509_Certificate) :
  (forall name t, io_fails env (SysReadFile name) t = false) ->
  saveCertificateFromString env d certificateString w = (Ok tt, w1) ->
  lookup_file "device.key" (cryptoDir w) = Some keyFile ->
  tls_X509KeyPair (bytes_of_string certificateString) (data keyFile) = inr tc ->
  pem_Decode (bytes_of_string certificateString) = Some (block, rest) ->
  x509_ParseCertificate (Bytes block) = inr cert ->
  exists t w2,
    hasValidCertificate env d w1 =
      (Ok (Before (time_Now env t) (NotAfter cert)), w2) /\
    clock w1 <= t.
Proof.
  intros Hio Hrun Hkey Hpair HD HP.
  pose proof (saveCertificateFromString_others _ _ _ _ Hrun "device.key"
                ltac:(discriminate)) as Hkey1.
  rewrite Hkey in Hkey1.
  rewrite saveCertificateFromString_write in Hrun by congruence.
  apply WriteFile_inv in Hrun.
  destruct Hrun as [(Hx & _) | (written & Hf & [(_ & ->) | (Hx & _)])];
    try discriminate.
  rewrite hasValidCertificate_eq.
  rewrite (loadKeyPair_ok _ _ _ _ Hio Hf Hkey1 Hpair).
  assert (Hf2 : lookup_file "device.crt"
                  (cryptoDir (tick (tick (entered (entered w1))))) =
                Some (mkFile (bytes_of_string certificateString)
                        match lookup_file "device.crt" (cryptoDir (entered w)) with
                        | Some old => mode old
                        | None => 384%Z
                        end)).
  { simpl.
    rewrite (entered_lookup "device.crt" (entered w1)),
            (entered_lookup "device.crt" w1).
    exact Hf. }
  rewrite (readCertificate_ok _ _ Hio Hf2).
  simpl. rewrite HD, HP.
  do 2 eexists. split; [reflexivity|].
  simpl. rewrite !entered_clock. simpl. rewrite !entered_clock. lia.
Qed.

(** ** What the operations create *)

Lemma has_file_skipn (k : nat) (name : string) (dir : Dir) :
  has_file name (Some (skipn k dir)) = true -> has_file name (Some dir) = true.
Proof.
  rewrite !has_file_In. unfold file_names. intros H.
  rewrite <- (firstn_skipn k dir), map_app. apply in_or_app. right. exact H.
Qed.

(** [ClearCrypto] only removes. *)
Lemma ClearCrypto_removes_only (w : World) (r : Outcome unit) (w' : World) :
  ClearCrypto env d w = (r, w') ->
  forall n, has_file n (cryptoDir w') = true -> has_file n (cryptoDir w) = true.
Proof.
  unfold ClearCrypto, bind. rewrite getCryptoDir_ok.
  unfold os_Open, Readdir. intros Hrun n.
  rewrite <- (entered_has n w).
  remember (entered w) as w1 eqn:Hw1. clear Hw1. revert Hrun.
  destruct (cryptoDir w1) as [dir|] eqn:Hdir.
  2:{ intros H; inversion H; subst. simpl. rewrite Hdir. auto. }
  destruct (io_fails env SysOpen (clock w1)).
  { intros H; inversion H; subst. simpl. rewrite Hdir. auto. }
  simpl. rewrite Hdir.
  destruct (io_fails env SysReaddir (S (clock w1))).
  { intros H; inversion H; subst. simpl. rewrite Hdir. auto. }
  intros Hrun. apply (removeAll_spec dir) in Hrun; [|exact Hdir].
  destruct Hrun as [(_ & Hd & _) | (k & _ & _ & Hd & _)]; rewrite Hd.
  - discriminate.
  - apply has_file_skipn.
Qed.

(** A change confined to [name] brings in at most [name]. *)
Lemma others_has (name n : string) (w w' : World) :
  (forall m, m <> name ->
     lookup_file m (cryptoDir w') = lookup_file m (cryptoDir w)) ->
  has_file n (cryptoDir w') = true ->
  n = name \/ has_file n (cryptoDir w) = true.
Proof.
  intros Hother Hn.
  destruct (String.eqb n name) eqn:E.
  - left. apply String.eqb_eq. exact E.
  - right. apply String.eqb_neq in E.
    rewrite has_file_of_lookup in *. rewrite <- (Hother n E). exact Hn.
Qed.

Lemma ensureKeyPair_creates_only (w : World) (r : Outcome unit) (w' : World) :
  ensureKeyPair env d w = (r, w') ->
  forall n, has_file n (cryptoDir w') = true ->
    has_file n (cryptoDir w) = true \/ n = "device.pub" \/ n = "device.key".
Proof.
  rewrite ensureKeyPair_eq. intros Hrun n Hn.
  assert (Hs0 : same_files w (tick (entered w))) by apply entered_same.
  destruct (has_file "device.key" (cryptoDir w)
            && negb (io_fails env (SysStat "device.key") (S (clock w)))).
  { inversion Hrun; subst. left.
    rewrite <- (same_files_has _ _ n Hs0). exact Hn. }
  revert Hrun. unfold bind at 1.
  destruct (ClearCrypto env d (tick (entered w))) as [rc wc] eqn:HC.
  pose proof (ClearCrypto_removes_only _ _ _ HC) as Hrm.
  assert (Hwc : forall m, has_file m (cryptoDir wc) = true ->
                          has_file m (cryptoDir w) = true).
  { intros m Hm. rewrite <- (same_files_has _ _ m Hs0). apply Hrm. exact Hm. }
  destruct rc as [[]|e|msg];
    try (intros H; inversion H; subst; left; apply Hwc; exact Hn).
  unfold bind at 1. unfold read_rand. unfold bind at 1.
  destruct (rsa_GenerateKey (rand_Reader env (clock wc)) 2048) as [e|key]; simpl.
  { intros H; inversion H; subst. left. apply Hwc. exact Hn. }
  unfold bind at 1. rewrite cryptoFile_ok. unfold bind at 1.
  destruct (savePublicPEMKey env "device.pub" (PublicKey key) (entered (tick wc)))
    as [rp w2] eqn:HP.
  apply savePublicPEMKey_others in HP. destruct HP as (Hother & _).
  assert (Hw2 : forall m, has_file m (cryptoDir w2) = true ->
                  has_file m (cryptoDir w) = true \/ m = "device.pub").
  { intros m Hm. destruct (others_has _ _ _ _ Hother Hm) as [->|Hm']; [auto|].
    left. apply Hwc. rewrite entered_has in Hm'. exact Hm'. }
  destruct rp as [[]|e|msg];
    try (intros H; inversion H; subst; destruct (Hw2 n Hn); auto).
  intros HK. apply create_encode_others in HK. destruct HK as (Hother' & _).
  destruct (others_has _ _ _ _ Hother' Hn) as [->|Hn']; [auto|].
  destruct (Hw2 n Hn'); auto.
Qed.

Lemma ensureCSR_creates_only (w : World) (r : Outcome unit) (w' : World) :
  ensureCSR env d w = (r, w') ->
  forall n, has_file n (cryptoDir w') = true ->
    has_file n (cryptoDir w) = true \/
    n = "device.pub" \/ n = "device.key" \/ n = "device.csr".
Proof.
  pose proof (ensureCSR_eq w) as Heq. cbv zeta in Heq. rewrite Heq. clear Heq.
  intros Hrun n Hn. revert Hrun.
  destruct (ensureKeyPair env d w) as [rk w1] eqn:H1.
  pose proof (ensureKeyPair_creates_only _ _ _ H1) as Hk.
  assert (Hw1 : forall w3, same_files w1 w3 ->
            has_file n (cryptoDir w3) = true ->
            has_file n (cryptoDir w) = true \/
            n = "device.pub" \/ n = "device.key" \/ n = "device.csr").
  { intros w3 Hs H3. rewrite (same_files_has _ _ n Hs) in H3.
    destruct (Hk n H3) as [H|[H|H]]; auto. }
  destruct rk as [[]|e|msg];
    try (intros H; inversion H; subst; apply (Hw1 w' (same_files_refl _) Hn)).
  assert (Hs2 : same_files w1 (tick (entered w1))) by apply entered_same.
  destruct (has_file "device.csr" (cryptoDir w1)
            && negb (io_fails env (SysStat "device.csr") (S (clock w1)))).
  { intros H; inversion H; subst. apply (Hw1 _ Hs2 Hn). }
  assert (Hs : same_files w1 (entered (tick (entered w1)))).
  { eapply same_files_trans; [exact Hs2|apply entered_same]. }
  destruct (ioutil_ReadFile env "device.key" (entered (tick (entered w1))))
    as [rr w3] eqn:HR.
  apply ReadFile_inv in HR. destruct HR as [-> HR].
  assert (Hsign : forall k,
    match x509_CreateCertificateRequest
            (rand_Reader env (clock (tick (entered (tick (entered w1))))))
            (csrTemplate d) k with
    | inl e => (Err e, tick (tick (entered (tick (entered w1)))))
    | inr csrBytes =>
        (os_Create env "device.csr" ;;;
         pem_Encode env "device.csr"
           {| BlockType := "CERTIFICATE REQUEST"; Bytes := csrBytes |})
          (tick (tick (entered (tick (entered w1)))))
    end = (r, w') ->
    has_file n (cryptoDir w) = true \/
    n = "device.pub" \/ n = "device.key" \/ n = "device.csr").
  { intros k.
    destruct (x509_CreateCertificateRequest
                (rand_Reader env (clock (tick (entered (tick (entered w1))))))
                (csrTemplate d) k) as [e|der].
    - intros H; inversion H; subst. apply (Hw1 _ Hs Hn).
    - intros H. apply create_encode_others in H. destruct H as (Hother & _).
      destruct (others_has _ _ _ _ Hother Hn) as [->|Hn']; [auto|].
      apply (Hw1 _ Hs Hn'). }
  destruct rr as [priv|e|msg];
    try (intros H; inversion H; subst; apply (Hw1 _ Hs Hn)).
  destruct (pem_Decode priv) as [[privPem rest]|];
    [|intros H; inversion H; subst; apply (Hw1 _ Hs Hn)].
  destruct (x509_ParsePKCS1PrivateKey (Bytes privPem)) as [e1|k1];
    [|apply Hsign].
  destruct (x509_ParsePKCS8PrivateKey (Bytes privPem)) as [e|[k8|der|seed]];
    try (intros H; inversion H; subst; apply (Hw1 _ Hs Hn)).
  apply Hsign.
Qed.

(** X10. No operation brings a file into the crypto directory other than
    the ones it is there for, however it ends: [ensureKeyPair] at most
    [device.pub] and [device.key], [ensureCSR] at most these and
    [device.csr], [saveCertificateFromString] at most [device.crt], and
    [ClearCrypto] and the three readers none. *)
Theorem exec_creates_only (o : Op) (w : World) (n : string) :
  has_file n (cryptoDir (exec env d o w)) = true ->
  has_file n (cryptoDir w) = true \/ In n (may_create o).
Proof.
  destruct o; simpl.
  - destruct (ClearCrypto env d w) as [r w'] eqn:H. simpl. intros Hn.
    left. apply (ClearCrypto_removes_only _ _ _ H n Hn).
  - destruct (ensureKeyPair env d w) as [r w'] eqn:H. simpl. intros Hn.
    destruct (ensureKeyPair_creates_only _ _ _ H n Hn) as [Hx|[Hx|Hx]]; auto.
  - destruct (ensureCSR env d w) as [r w'] eqn:H. simpl. intros Hn.
    destruct (ensureCSR_creates_only _ _ _ H n Hn) as [Hx|[Hx|[Hx|Hx]]]; auto.
  - destruct (getCSRString env d w) as [r w'] eqn:H. simpl. intros Hn.
    left. rewrite <- (same_files_has _ _ n (getCSRString_same_files _ _ _ H)).
    exact Hn.
  - destruct (saveCertificateFromString env d certificateString w) as [r w'] eqn:H.
    simpl. intros Hn.
    destruct (others_has _ _ _ _ (saveCertificateFromString_others _ _ _ _ H) Hn)
      as [Hx|Hx]; auto.
  - destruct (hasValidCertificate env d w) as [r w'] eqn:H. simpl. intros Hn.
    left. rewrite <- (same_files_has _ _ n (hasValidCertificate_same_files _ _ _ H)).
    exact Hn.
  - destruct (getTLSConfig env d w) as [r w'] eqn:H. simpl. intros Hn.
    left. rewrite <- (same_files_has _ _ n (getTLSConfig_same_files _ _ _ H)).
    exact Hn.
Qed.

(** ** A private key that cannot be read back *)

(** [ensureCSR] on a directory whose private key is rejected. *)
Lemma ensureCSR_rejected (w : World) (keyFile : File) (e : error) :
  io_fails env (SysStat "device.key") (S (clock w)) = false ->
  lookup_file "device.key" (cryptoDir w) = Some keyFile ->
  has_file "device.csr" (cryptoDir w) = false ->
  key_rejected (data keyFile) e ->
  exists e' w',
    ensureCSR env d w = (Err e', w') /\
    (e' = e \/ e' = PathError (SysReadFile "device.key")) /\
    cryptoDir w' = cryptoDir w.
Proof.
  intros Hstat Hkf Hcsr Hrej.
  assert (Hkey : has_file "device.key" (cryptoDir w) = true)
    by (rewrite has_file_of_lookup, Hkf; reflexivity).
  destruct (ensureKeyPair_present w Hkey Hstat) as (w1 & H1 & Hd).
  pose proof (ensureCSR_eq w) as Heq. cbv zeta in Heq.
  rewrite Heq, H1, Hd, Hcsr. cbn [andb]. clear Heq.
  assert (Hs : same_files w (entered (tick (entered w1)))).
  { eapply same_files_trans; [left; exact Hd|].
    eapply same_files_trans; [apply entered_same|].
    eapply same_files_trans; [apply same_files_tick|apply entered_same]. }
  assert (Hx : cryptoDir (tick (entered (tick (entered w1)))) = cryptoDir w).
  { simpl. destruct (cryptoDir w) as [dir|] eqn:E; [|discriminate].
    apply (same_files_some _ _ _ Hs E). }
  destruct (ioutil_ReadFile env "device.key" (entered (tick (entered w1))))
    as [r w3] eqn:HR.
  apply ReadFile_inv in HR. destruct HR as [-> HR].
  destruct HR as [(f & -> & Hf & _) | ->].
  2:{ do 2 eexists. split; [reflexivity|]. auto. }
  rewrite (same_files_lookup _ _ "device.key" Hs), Hkf in Hf.
  inversion Hf; subst f.
  destruct Hrej as [(HD & ->) | [(privPem & rest & e1 & HD & HP1 & HP8)
                               | (privPem & rest & e1 & k & HD & HP1 & HP8 & Hk & ->)]];
    rewrite HD; [|rewrite HP1, HP8..].
  - do 2 eexists. split; [reflexivity|]. auto.
  - do 2 eexists. split; [reflexivity|]. auto.
  - destruct k as [rsa| |]; [exfalso; apply (Hk rsa); reflexivity| |];
      do 2 eexists; (split; [reflexivity|]); auto.
Qed.

(** X11. A private key that cannot be read back is never repaired as long
    as [os.Stat] reports the key file: in a directory with such a key file
    and no CSR, when no [os.Stat] of the private key fails, no sequence of
    [ensureKeyPair], [ensureCSR] and reader calls changes any file, and
    [ensureCSR] keeps failing.  Only [ClearCrypto] (or a stored
    certificate, which does not help) changes the directory. *)
Theorem rejected_key_is_never_repaired
    (ops : list Op) (w : World) (keyFile : File) (e : error) :
  (forall t, io_fails env (SysStat "device.key") t = false) ->
  forallb keeps_store ops = true ->
  lookup_file "device.key" (cryptoDir w) = Some keyFile ->
  has_file "device.csr" (cryptoDir w) = false ->
  key_rejected (data keyFile) e ->
  cryptoDir (run env d ops w) = cryptoDir w /\
  exists e' w',
    ensureCSR env d (run env d ops w) = (Err e', w') /\
    (e' = e \/ e' = PathError (SysReadFile "device.key")) /\
    cryptoDir w' = cryptoDir w.
Proof.
  intros Hstat Hops Hkf Hcsr Hrej.
  assert (Hrun : cryptoDir (run env d ops w) = cryptoDir w).
  { revert w Hkf Hcsr.
    induction ops as [|o rest IH]; intros w Hkf Hcsr; simpl; [reflexivity|].
    simpl in Hops. apply andb_prop in Hops. destruct Hops as [Ho Hrest].
    assert (Hstep : cryptoDir (exec env d o w) = cryptoDir w).
    { assert (Hread : forall w', same_files w w' -> cryptoDir w' = cryptoDir w).
      { intros w' Hs. destruct (cryptoDir w) as [dir|] eqn:E; [|discriminate].
        apply (same_files_some _ _ _ Hs E). }
      destruct o; simpl in Ho; try discriminate; simpl.
      - assert (Hkey : has_file "device.key" (cryptoDir w) = true)
          by (rewrite has_file_of_lookup, Hkf; reflexivity).
        destruct (ensureKeyPair_present w Hkey (Hstat _)) as (w1 & H1 & Hd).
        rewrite H1. exact Hd.
      - destruct (ensureCSR_rejected w keyFile e (Hstat _) Hkf Hcsr Hrej)
          as (e' & w' & H1 & _ & Hd).
        rewrite H1. exact Hd.
      - destruct (getCSRString env d w) as [r w'] eqn:H.
        apply Hread, (getCSRString_same_files _ _ _ H).
      - destruct (hasValidCertificate env d w) as [r w'] eqn:H.
        apply Hread, (hasValidCertificate_same_files _ _ _ H).
      - destruct (getTLSConfig env d w) as [r w'] eqn:H.
        apply Hread, (getTLSConfig_same_files _ _ _ H). }
    rewrite (IH Hrest (exec env d o w)); rewrite ?Hstep; auto. }
  split; [exact Hrun|].
  destruct (ensureCSR_rejected (run env d ops w) keyFile e (Hstat _))
    as (e' & w' & H1 & He & Hd); rewrite ?Hrun; auto.
  exists e', w'. split; [exact H1|]. split; [exact He|].
  rewrite Hd. exact Hrun.
Qed.

(** ** A crypto directory that cannot be created *)


(** ** What a failed key generation leaves behind *)

(** X13. The private-key file is the last thing [ensureKeyPair] writes.
    Starting without private key, however the call ends, if [device.key]
    is there afterwards then the directory had been cleared, [device.pub]
    holds the complete PEM encoding of the public half of the generated
    key, and [device.key] holds the PEM encoding of that key: all of it
    when the call succeeded, and otherwise a truncated part of it, the
    call having failed in the write of the private key. *)
Theorem ensureKeyPair_residue (w : World) (r : Outcome unit) (w' : World) :
  has_file "device.key" (cryptoDir w) = false ->
  ensureKeyPair env d w = (r, w') ->
  has_file "device.key" (cryptoDir w') = true ->
  exists wc key pkix written,
    ClearCrypto env d (tick (entered w)) = (Ok tt, wc) /\
    rsa_GenerateKey (rand_Reader env (clock wc)) 2048 = inr key /\
    x509_MarshalPKIXPublicKey (PublicKey key) = inr pkix /\
    lookup_file "device.pub" (cryptoDir w') =
      Some (mkFile (pem_EncodeToMemory (mkBlock "PUBLIC KEY" pkix)) 438) /\
    lookup_file "device.key" (cryptoDir w') = Some (mkFile written 438) /\
    ((r = Ok tt /\
      written = pem_EncodeToMemory
                  (mkBlock "RSA PRIVATE KEY" (x509_MarshalPKCS1PrivateKey key)))
     \/
     (r = Err (PathError (SysWrite "device.key")) /\
      exists n,
        written = firstn n (pem_EncodeToMemory
                    (mkBlock "RSA PRIVATE KEY" (x509_MarshalPKCS1PrivateKey key))))).
Proof.
  intros Hkey. rewrite ensureKeyPair_eq, Hkey. cbn [andb].
  assert (Hs0 : same_files w (tick (entered w))) by apply entered_same.
  unfold bind at 1.
  destruct (ClearCrypto env d (tick (entered w))) as [rc wc] eqn:HC.
  pose proof (ClearCrypto_removes_only _ _ _ HC "device.key") as Hrm.
  assert (Hnokey : has_file "device.key" (cryptoDir wc) = false).
  { destruct (has_file "device.key" (cryptoDir wc)) eqn:E; [|reflexivity].
    specialize (Hrm eq_refl). rewrite (same_files_has _ _ _ Hs0) in Hrm.
    congruence. }
  destruct rc as [[]|e|msg];
    try (intros H Hhas; inversion H; subst; congruence).
  pose proof (ClearCrypto_ok_empty _ _ HC) as Hwc.
  unfold bind at 1. unfold read_rand. unfold bind at 1.
  destruct (rsa_GenerateKey (rand_Reader env (clock wc)) 2048) as [e|key] eqn:HG;
    simpl.
  { intros H Hhas; inversion H; subst. simpl in Hhas. congruence. }
  unfold bind at 1. rewrite cryptoFile_ok. unfold bind at 1.
  assert (Hd1 : cryptoDir (entered (tick wc)) = Some [])
    by (apply entered_some; exact Hwc).
  destruct (savePublicPEMKey env "device.pub" (PublicKey key) (entered (tick wc)))
    as [rp w2] eqn:HP.
  assert (Hnokey2 : has_file "device.key" (cryptoDir w2) = false).
  { pose proof (savePublicPEMKey_others _ _ _ _ _ HP) as (Hother & _).
    rewrite has_file_of_lookup, (Hother "device.key") by discriminate.
    rewrite Hd1. reflexivity. }
  destruct rp as [[]|e|msg];
    try (intros H Hhas; inversion H; subst; congruence).
  apply (savePublicPEMKey_new _ _ _ _ [] Hd1 eq_refl) in HP.
  destruct HP as (pkix & Hpkix & Hd2).
  assert (Hnew : find_file "device.key"
                   (insert_at (dir_slot env (clock (entered (tick wc))))
                      ("device.pub",
                       mkFile (pem_EncodeToMemory (mkBlock "PUBLIC KEY" pkix)) 438)
                      []) = None).
  { rewrite (find_file_insert_at _ "device.pub" "device.key" _ [] eq_refl).
    reflexivity. }
  unfold savePEMKey, bind, os_Create, pem_Encode.
  destruct (open_trunc env "device.key" 438 w2) as [ro w3] eqn:Hopen.
  apply open_trunc_inv in Hopen.
  destruct Hopen as [(-> & -> & _) | (-> & _ & dir & Hdir & Hdir3)].
  { intros H Hhas; inversion H; subst. simpl in Hhas. congruence. }
  rewrite Hd2 in Hdir. inversion Hdir; subst dir. rewrite Hnew in Hdir3.
  intros Hw Hhas. apply write_all_inv in Hw.
  destruct Hw as [(_ & _ & Hnone) | (dir3 & f & written & Hd3 & Hf & Hd' & Hr)].
  { rewrite Hdir3 in Hnone. simpl in Hnone.
    rewrite (find_file_insert_at _ _ _ _ _ Hnew), String.eqb_refl in Hnone.
    discriminate. }
  rewrite Hdir3 in Hd3. inversion Hd3; subst dir3.
  rewrite (find_file_insert_at _ _ _ _ _ Hnew), String.eqb_refl in Hf.
  inversion Hf; subst f. simpl in Hd'.
  rewrite (update_file_insert_at _ _ _ _ _ Hnew) in Hd'.
  exists wc, key, pkix, written.
  split; [reflexivity|]. split; [exact HG|]. split; [exact Hpkix|].
  rewrite Hd'. simpl.
  split.
  { rewrite (find_file_insert_at _ _ _ _ _ Hnew). simpl.
    rewrite (find_file_insert_at _ "device.pub" "device.pub" _ [] eq_refl).
    reflexivity. }
  split.
  { rewrite (find_file_insert_at _ _ _ _ _ Hnew), String.eqb_refl. reflexivity. }
  destruct Hr as [(-> & -> & _) | (-> & -> & _)]; [left; auto|right].
  split; [reflexivity|]. eexists. reflexivity.
Qed.

(** ** The request is made for the generated key *)

(** X14. Key and request belong together.  With a library in which a
    generated key reads back from the file [savePEMKey] writes, a
    successful [ensureCSR] on a directory without private key generates a
    key and leaves three files made from that one key: [device.pub] with
    its public half, [device.key] with the key, and [device.csr] with the
    request that [x509.CreateCertificateRequest] signed with it. *)
Theorem ensureCSR_signs_generated_key (w w' : World) :
  key_reads_back lib ->
  has_file "device.key" (cryptoDir w) = false ->
  ensureCSR env d w = (Ok tt, w') ->
  exists key pkix der t1 t2,
    rsa_GenerateKey (rand_Reader env t1) 2048 = inr key /\
    x509_MarshalPKIXPublicKey (PublicKey key) = inr pkix /\
    x509_CreateCertificateRequest (rand_Reader env t2) (csrTemplate d) key
      = inr der /\
    lookup_file "device.pub" (cryptoDir w') =
      Some (mkFile (pem_EncodeToMemory (mkBlock "PUBLIC KEY" pkix)) 438) /\
    lookup_file "device.key" (cryptoDir w') =
      Some (mkFile (pem_EncodeToMemory
                      (mkBlock "RSA PRIVATE KEY" (x509_MarshalPKCS1PrivateKey key)))
                   438) /\
    lookup_file "device.csr" (cryptoDir w') =
      Some (mkFile (pem_EncodeToMemory (mkBlock "CERTIFICATE REQUEST" der)) 438).
Proof.
  intros Hback Hkey.
  pose proof (ensureCSR_eq w) as Heq. cbv zeta in Heq. rewrite Heq. clear Heq.
  destruct (ensureKeyPair env d w) as [[[]|e|msg] w1] eqn:H1; try discriminate.
  rewrite (ensureKeyPair_no_csr _ _ (or_intror Hkey) H1). cbn [andb].
  destruct (ensureKeyPair_fresh_pair _ _ (key_absent_unseen _ Hkey) H1)
    as (wc & key & pkix & k1 & k2 & _ & _ & HG & HM & Hd1).
  destruct (Hback _ _ HG) as ((rest & HD) & HP).
  set (pubE := ("device.pub",
                mkFile (pem_EncodeToMemory (mkBlock "PUBLIC KEY" pkix)) 438)) in *.
  set (keyE := ("device.key",
                mkFile (pem_EncodeToMemory
                          (mkBlock "RSA PRIVATE KEY"
                             (x509_MarshalPKCS1PrivateKey key))) 438)) in *.
  set (dir1 := insert_at k2 keyE (insert_at k1 pubE [])) in *.
  assert (Hnewk : find_file "device.key" (insert_at k1 pubE []) = None).
  { unfold pubE. rewrite (find_file_insert_at _ "device.pub" "device.key" _ [] eq_refl).
    reflexivity. }
  assert (Hfind : forall n,
            find_file n dir1 =
            if String.eqb n "device.key" then Some (snd keyE)
            else if String.eqb n "device.pub" then Some (snd pubE) else None).
  { intros n. unfold dir1, keyE.
    rewrite (find_file_insert_at _ _ _ _ _ Hnewk).
    destruct (String.eqb n "device.key"); [reflexivity|].
    unfold pubE.
    rewrite (find_file_insert_at _ "device.pub" n _ [] eq_refl). reflexivity. }
  assert (Hs : same_files w1 (entered (tick (entered w1)))).
  { eapply same_files_trans; [apply entered_same|].
    eapply same_files_trans; [apply same_files_tick|apply entered_same]. }
  pose proof (same_files_some _ _ _ Hs Hd1) as Hd3.
  unfold ioutil_ReadFile. rewrite Hd3. simpl.
  rewrite (Hfind "device.key"). simpl.
  destruct (io_fails env (SysReadFile "device.key")
              (clock (entered (tick (entered w1))))); [discriminate|].
  rewrite HD. simpl. rewrite HP.
  match goal with
  | |- match ?req with inl _ => _ | inr _ => _ end = _ -> _ =>
      destruct req as [e|der] eqn:HC; [discriminate|]
  end.
  intros Hw.
  apply (create_encode_new _ _ _ _ dir1) in Hw.
  2:{ exact Hd3. }
  2:{ rewrite (Hfind "device.csr"). reflexivity. }
  exists key, pkix, der. do 2 eexists.
  split; [exact HG|]. split; [exact HM|]. split; [exact HC|].
  rewrite Hw. simpl.
  assert (Hnewc : find_file "device.csr" dir1 = None)
    by (rewrite (Hfind "device.csr"); reflexivity).
  rewrite !(find_file_insert_at _ _ _ _ _ Hnewc), !Hfind. simpl.
  repeat split; reflexivity.
Qed.

End Properties.

(** ** The operations on concrete directories *)

Lemma sample_X509KeyPair_needs_pem : X509KeyPair_needs_pem sampleLib.
Proof.
  intros certPEM keyPEM cert. simpl. unfold sample_X509KeyPair.
  destruct (sample_pem_Decode certPEM); [discriminate|].
  intros H. discriminate H.
Qed.

Lemma sample_key_reads_back : key_reads_back sampleLib.
Proof.
  intros rnd key. simpl. unfold sample_GenerateKey.
  destruct rnd as [|b rnd']; [discriminate|].
  intros H. inversion H; subst key. clear H. split.
  - exists []. reflexivity.
  - unfold sample_MarshalPKCS1PrivateKey, sample_ParsePKCS1PrivateKey. simpl.
    destruct b; reflexivity.
Qed.






Example fresh_certificate_is_valid :
  fst (hasValidCertificate (lib := sampleLib) quietEnv sampleDevice fullWorld) = Ok true.
Proof. vm_compute. reflexivity. Qed.

Example stale_certificate_is_invalid :
  fst (hasValidCertificate (lib := sampleLib) quietEnv sampleDevice
         (run (lib := sampleLib) quietEnv sampleDevice
            [OpEnsureCSR; OpSaveCertificate staleCertificateText] emptyWorld))
  = Ok false.
Proof. vm_compute. reflexivity. Qed.

Example no_certificate_is_invalid :
  fst (hasValidCertificate (lib := sampleLib) quietEnv sampleDevice keyWorld) = Ok false.
Proof. vm_compute. reflexivity. Qed.

Example not_a_cert_is_refused :
  fst (saveCertificateFromString (lib := sampleLib) quietEnv sampleDevice
         "not a cert" fullWorld)
  = Err (ErrorString "Could not decode PEM certificate") /\
  cryptoDir (snd (saveCertificateFromString (lib := sampleLib) quietEnv sampleDevice
                    "not a cert" fullWorld))
  = cryptoDir fullWorld.
Proof. split; vm_compute; reflexivity. Qed.

Example tls_config_needs_certificate :
  fst (getTLSConfig (lib := sampleLib) quietEnv sampleDevice keyWorld)
  = Err (PathError (SysReadFile "device.crt")).
Proof. vm_compute. reflexivity. Qed.

(** C1 on the directory that holds a key and a fresh certificate. *)
Lemma hasValidCertificate_never_raises_witness :
  X509KeyPair_needs_pem sampleLib /\
  exists b, fst (hasValidCertificate (lib := sampleLib) quietEnv sampleDevice fullWorld) = Ok b.
Proof.
  split; [exact sample_X509KeyPair_needs_pem|].
  destruct (hasValidCertificate_never_raises (lib := sampleLib) quietEnv sampleDevice
              sample_X509KeyPair_needs_pem fullWorld) as (b & w' & H & _).
  exists b. rewrite H. reflexivity.
Defined.

(** C2 after a cycle from an empty directory: a second certificate, stored
    over the first, is in a file with mode 0600. *)
Lemma saveCertificateFromString_spec_witness :
  cert_owner_only fullWorld /\
  exists f,
    lookup_file "device.crt"
      (cryptoDir (snd (saveCertificateFromString (lib := sampleLib) quietEnv sampleDevice
                         staleCertificateText fullWorld))) = Some f /\
    data f = bytes_of_string staleCertificateText /\
    mode f = 384%Z /\ owner_only (mode f) = true.
Proof.
  destruct (saveCertificateFromString_spec (lib := sampleLib) quietEnv sampleDevice)
    as (Hreach & Hspec).
  assert (Hmode : cert_owner_only fullWorld).
  { apply (Hreach [OpEnsureCSR; OpSaveCertificate freshCertificateText] emptyWorld).
    right. reflexivity. }
  split; [exact Hmode|].
  destruct (Hspec staleCertificateText fullWorld
              (fst (saveCertificateFromString (lib := sampleLib) quietEnv sampleDevice
                      staleCertificateText fullWorld))
              (snd (saveCertificateFromString (lib := sampleLib) quietEnv sampleDevice
                      staleCertificateText fullWorld))
              Hmode (surjective_pairing _)) as (_ & _ & Hok & _).
  apply Hok.
  - discriminate.
  - vm_compute. reflexivity.
Defined.

(** C3: [ensureKeyPair] twice on an empty directory, where [os.Stat]
    fails on the private-key file.  Both calls succeed; the second one
    finds the key file of the first, and replaces it by a new key. *)
Lemma ensureKeyPair_stat_failure_counterexample :
  fst (ensureKeyPair (lib := sampleLib) statFailsEnv sampleDevice emptyWorld) = Ok tt /\
  has_file "device.key"
    (cryptoDir (snd (ensureKeyPair (lib := sampleLib) statFailsEnv sampleDevice
                       emptyWorld))) = true /\
  fst (ensureKeyPair (lib := sampleLib) statFailsEnv sampleDevice
         (snd (ensureKeyPair (lib := sampleLib) statFailsEnv sampleDevice emptyWorld)))
  = Ok tt /\
  lookup_file "device.key"
    (cryptoDir
       (snd (ensureKeyPair (lib := sampleLib) statFailsEnv sampleDevice
               (snd (ensureKeyPair (lib := sampleLib) statFailsEnv sampleDevice
                       emptyWorld)))))
  <> lookup_file "device.key"
       (cryptoDir (snd (ensureKeyPair (lib := sampleLib) statFailsEnv sampleDevice
                          emptyWorld))).
Proof.
  repeat (split; [vm_compute; reflexivity|]).
  vm_compute. discriminate.
Qed.

(** C3 on an empty directory. *)
Lemma ensureKeyPair_idempotent_witness :
  ensureKeyPair (lib := sampleLib) quietEnv sampleDevice emptyWorld = (Ok tt, keyWorld) /\
  exists w2,
    ensureKeyPair (lib := sampleLib) quietEnv sampleDevice keyWorld = (Ok tt, w2) /\
    lookup_file "device.key" (cryptoDir w2) = lookup_file "device.key" (cryptoDir keyWorld).
Proof.
  assert (H1 : ensureKeyPair (lib := sampleLib) quietEnv sampleDevice emptyWorld
               = (Ok tt, keyWorld)) by (vm_compute; reflexivity).
  split; [exact H1|].
  destruct (proj2 (ensureKeyPair_idempotent (lib := sampleLib) quietEnv sampleDevice
                     emptyWorld) keyWorld H1 eq_refl) as (w2 & H2 & _ & _ & Hsame).
  exists w2. split; [exact H2|exact Hsame].
Defined.

(** C4 on a directory that holds a CSR and no key. *)
Lemma ensureKeyPair_regenerates_witness :
  has_file "device.key" (cryptoDir csrOnlyWorld) = false /\
  exists dir',
    cryptoDir (snd (ensureKeyPair (lib := sampleLib) quietEnv sampleDevice csrOnlyWorld))
      = Some dir' /\
    List.length dir' = 2.
Proof.
  split; [reflexivity|].
  destruct (ensureKeyPair_regenerates (lib := sampleLib) quietEnv sampleDevice
              csrOnlyWorld
              (snd (ensureKeyPair (lib := sampleLib) quietEnv sampleDevice csrOnlyWorld))
              eq_refl ltac:(vm_compute; reflexivity))
    as (wc & key & pkix & dir' & _ & _ & _ & _ & Hd & _ & Hlen & _).
  exists dir'. split; [exact Hd|exact Hlen].
Defined.

(** C5 on the directory that holds a fresh certificate: the clock reads
    100 and the certificate is good until 122. *)
Lemma hasValidCertificate_expiry_witness :
  exists b,
    fst (hasValidCertificate (lib := sampleLib) quietEnv sampleDevice fullWorld) = Ok b /\
    (b = true <-> (100 < 122)%Z).
Proof.
  edestruct (hasValidCertificate_expiry (lib := sampleLib) quietEnv sampleDevice fullWorld)
    as (b & Hb & Hiff & _).
  - vm_compute. reflexivity.
  - vm_compute. reflexivity.
  - vm_compute. reflexivity.
  - vm_compute. reflexivity.
  - exists b. rewrite Hb. split; [reflexivity|exact Hiff].
Defined.



(** C7 on the directory that holds a key and a certificate. *)
Lemma getTLSConfig_spec_witness :
  exists cfg,
    fst (getTLSConfig (lib := sampleLib) quietEnv sampleDevice fullWorld) = Ok cfg /\
    ConfigRootCAs cfg = RootCAs sampleDevice /\
    (InsecureSkipVerify cfg = true <-> IgnoreSSLErrors sampleDevice = true).
Proof.
  destruct (getTLSConfig_spec (lib := sampleLib) quietEnv sampleDevice fullWorld)
    as (_ & Hok & _).
  destruct (getTLSConfig (lib := sampleLib) quietEnv sampleDevice fullWorld)
    as [r w1] eqn:Hrun.
  assert (Hr : exists cfg, r = Ok cfg).
  { assert (Hfst : fst (getTLSConfig (lib := sampleLib) quietEnv sampleDevice fullWorld)
                   = Ok (mkConfig
                           [mkTLSCertificate [["z"%byte]]
                              (RSAKey (mkPrivateKey (mkPublicKey 7 3) 5 []))]
                           None false))
      by (vm_compute; reflexivity).
    rewrite Hrun in Hfst. simpl in Hfst. eexists. exact Hfst. }
  destruct Hr as (cfg & ->).
  destruct (Hok cfg w1 eq_refl) as (cert & _ & _ & Hroots & Hskip & _).
  exists cfg. auto.
Defined.

(** C8 on the directory that holds key, public key, CSR and certificate. *)
Lemma ClearCrypto_clears_witness :
  has_file "device.key" (cryptoDir fullWorld) = true /\
  has_file "device.csr" (cryptoDir fullWorld) = true /\
  has_file "device.crt" (cryptoDir fullWorld) = true /\
  fst (ClearCrypto (lib := sampleLib) quietEnv sampleDevice fullWorld) = Ok tt /\
  cryptoDir (snd (ClearCrypto (lib := sampleLib) quietEnv sampleDevice fullWorld)) = Some [] /\
  exists w'',
    hasValidCertificate (lib := sampleLib) quietEnv sampleDevice
      (snd (ClearCrypto (lib := sampleLib) quietEnv sampleDevice fullWorld)) = (Ok false, w'').
Proof.
  repeat (split; [vm_compute; reflexivity|]).
  destruct (ClearCrypto_clears (lib := sampleLib) quietEnv sampleDevice fullWorld
              (Ok tt) (snd (ClearCrypto (lib := sampleLib) quietEnv sampleDevice fullWorld))
              ltac:(vm_compute; reflexivity)) as (Hok & _).
  exact (proj2 (Hok eq_refl)).
Defined.

(** C9: after a clear that could not remove the private key, the key is
    there without its public key. *)
Lemma key_without_pub_counterexample :
  has_file "device.key" (cryptoDir stuckClearWorld) = true /\
  has_file "device.pub" (cryptoDir stuckClearWorld) = false /\
  ~ key_has_pub stuckClearWorld.
Proof.
  split; [vm_compute; reflexivity|]. split; [vm_compute; reflexivity|].
  intros H. specialize (H ltac:(vm_compute; reflexivity)).
  vm_compute in H. discriminate H.
Qed.

(** C9 on a full cycle in an environment where nothing fails. *)
Lemma key_has_pub_reachable_witness :
  (forall name t, io_fails quietEnv (SysRemove name) t = false) /\
  key_has_pub
    (run (lib := sampleLib) quietEnv sampleDevice
       [OpEnsureCSR; OpSaveCertificate freshCertificateText; OpHasValidCertificate;
        OpClearCrypto; OpEnsureKeyPair]
       emptyWorld).
Proof.
  split; [reflexivity|].
  apply (key_has_pub_reachable (lib := sampleLib) quietEnv sampleDevice).
  - reflexivity.
  - left. reflexivity.
Defined.

(** C10 on a directory whose private-key file is not PEM. *)
Lemma ensureCSR_rejected_key_keeps_files_witness :
  key_reads_back sampleLib /\
  exists e' w',
    ensureCSR (lib := sampleLib) quietEnv sampleDevice corruptKeyWorld = (Err e', w') /\
    cryptoDir w' = cryptoDir corruptKeyWorld.
Proof.
  split; [exact sample_key_reads_back|].
  destruct (ensureCSR_rejected_key_keeps_files (lib := sampleLib) quietEnv sampleDevice
              corruptKeyWorld
              (snd (ensureKeyPair (lib := sampleLib) quietEnv sampleDevice corruptKeyWorld))
              (mkFile [x01; x02] 438)
              (ErrorString
                 "Corrupted data in Device Private key, clearing the crypto store")
              sample_key_reads_back)
    as (e' & w' & Hrun & _ & Hsame).
  - vm_compute. reflexivity.
  - left. vm_compute. reflexivity.
  - vm_compute. reflexivity.
  - left. split; [vm_compute; reflexivity|reflexivity].
  - exists e', w'. split; [exact Hrun|exact Hsame].
Defined.

(** ** The further properties on concrete directories *)

(** X1 on the directory that holds everything. *)
Lemma readers_change_no_file_witness :
  same_files fullWorld
    (snd (hasValidCertificate (lib := sampleLib) quietEnv sampleDevice fullWorld)) /\
  same_files fullWorld
    (snd (getTLSConfig (lib := sampleLib) quietEnv sampleDevice fullWorld)) /\
  same_files fullWorld
    (snd (getCSRString (lib := sampleLib) quietEnv sampleDevice fullWorld)).
Proof.
  destruct (readers_change_no_file (lib := sampleLib) quietEnv sampleDevice fullWorld)
    as (H1 & H2 & H3).
  split; [|split].
  - apply (H1 (fst (hasValidCertificate (lib := sampleLib) quietEnv sampleDevice fullWorld))).
    apply surjective_pairing.
  - apply (H2 (fst (getTLSConfig (lib := sampleLib) quietEnv sampleDevice fullWorld))).
    apply surjective_pairing.
  - apply (H3 (fst (getCSRString (lib := sampleLib) quietEnv sampleDevice fullWorld))).
    apply surjective_pairing.
Defined.

(** X2 on a directory with a key and no certificate. *)
Lemma hasValidCertificate_needs_both_files_witness :
  lookup_file "device.crt" (cryptoDir keyWorld) = None /\
  exists w', hasValidCertificate (lib := sampleLib) quietEnv sampleDevice keyWorld
             = (Ok false, w').
Proof.
  split; [vm_compute; reflexivity|].
  apply (hasValidCertificate_needs_both_files (lib := sampleLib) quietEnv sampleDevice).
  left. vm_compute. reflexivity.
Defined.

(** X3 on the directory that holds a key and a fresh certificate. *)
Lemma valid_certificate_gives_tls_config_witness :
  exists cfg w'',
    getTLSConfig (lib := sampleLib) quietEnv sampleDevice
      (snd (hasValidCertificate (lib := sampleLib) quietEnv sampleDevice fullWorld))
    = (Ok cfg, w'') /\
    ConfigRootCAs cfg = RootCAs sampleDevice /\
    InsecureSkipVerify cfg = IgnoreSSLErrors sampleDevice.
Proof.
  apply (valid_certificate_gives_tls_config (lib := sampleLib) quietEnv sampleDevice
           fullWorld).
  - intros name t. reflexivity.
  - vm_compute. reflexivity.
Defined.

(** X4 on a directory that holds a CSR and no key. *)
Lemma regeneration_invalidates_witness :
  has_file "device.csr" (cryptoDir csrOnlyWorld) = true /\
  lookup_file "device.csr"
    (cryptoDir (snd (ensureKeyPair (lib := sampleLib) quietEnv sampleDevice csrOnlyWorld)))
  = None.
Proof.
  split; [reflexivity|].
  apply (regeneration_invalidates (lib := sampleLib) quietEnv sampleDevice csrOnlyWorld).
  - reflexivity.
  - vm_compute. reflexivity.
Defined.

(** X5 on an empty directory. *)
Lemma ensureCSR_idempotent_witness :
  exists w2,
    ensureCSR (lib := sampleLib) quietEnv sampleDevice
      (snd (ensureCSR (lib := sampleLib) quietEnv sampleDevice emptyWorld))
    = (Ok tt, w2) /\
    cryptoDir w2 =
    cryptoDir (snd (ensureCSR (lib := sampleLib) quietEnv sampleDevice emptyWorld)).
Proof.
  destruct (ensureCSR_idempotent (lib := sampleLib) quietEnv sampleDevice emptyWorld
              (snd (ensureCSR (lib := sampleLib) quietEnv sampleDevice emptyWorld))
              ltac:(vm_compute; reflexivity) eq_refl eq_refl) as (w2 & H2 & Hd & _).
  exists w2. split; [exact H2|exact Hd].
Defined.

(** X6 on a directory that holds a key pair. *)
Lemma ensureCSR_keeps_key_witness :
  has_file "device.key" (cryptoDir keyWorld) = true /\
  lookup_file "device.key"
    (cryptoDir (snd (ensureCSR (lib := sampleLib) quietEnv sampleDevice keyWorld)))
  = lookup_file "device.key" (cryptoDir keyWorld).
Proof.
  split; [vm_compute; reflexivity|].
  apply (ensureCSR_keeps_key (lib := sampleLib) quietEnv sampleDevice keyWorld
           (fst (ensureCSR (lib := sampleLib) quietEnv sampleDevice keyWorld))).
  - vm_compute. reflexivity.
  - reflexivity.
  - apply surjective_pairing.
  - discriminate.
Defined.

(** X7 after [ensureCSR] on an empty directory. *)
Lemma getCSRString_spec_witness :
  exists f,
    lookup_file "device.csr"
      (cryptoDir (snd (ensureCSR (lib := sampleLib) quietEnv sampleDevice emptyWorld)))
    = Some f /\
    fst (getCSRString (lib := sampleLib) quietEnv sampleDevice
           (snd (ensureCSR (lib := sampleLib) quietEnv sampleDevice emptyWorld)))
    = Ok (data f).
Proof.
  destruct (getCSRString_spec (lib := sampleLib) quietEnv sampleDevice
              (snd (ensureCSR (lib := sampleLib) quietEnv sampleDevice emptyWorld)))
    as (_ & Hsome & Hafter).
  destruct (Hafter emptyWorld ltac:(vm_compute; reflexivity)) as (f & Hf & _).
  exists f. split; [exact Hf|].
  rewrite (Hsome f Hf). reflexivity.
Defined.

(** X8 on a directory with a certificate, when the disk is full. *)
Lemma saveCertificateFromString_failures_witness :
  fst (saveCertificateFromString (lib := sampleLib) fullDiskEnv sampleDevice
         staleCertificateText fullWorld)
  = Err (PathError (SysWrite "device.crt")) /\
  exists f,
    lookup_file "device.crt"
      (cryptoDir (snd (saveCertificateFromString (lib := sampleLib) fullDiskEnv
                         sampleDevice staleCertificateText fullWorld))) = Some f /\
    data f = ["C"%byte; "E"%byte; "R"%byte].
Proof.
  split; [vm_compute; reflexivity|].
  destruct (saveCertificateFromString_failures (lib := sampleLib) fullDiskEnv sampleDevice
              staleCertificateText fullWorld
              (Err (PathError (SysWrite "device.crt")))
              (snd (saveCertificateFromString (lib := sampleLib) fullDiskEnv
                      sampleDevice staleCertificateText fullWorld))
              ltac:(vm_compute; reflexivity)) as (_ & _ & Hw).
  destruct (Hw eq_refl) as (f & Hf & Hdata & _).
  exists f. split; [exact Hf|]. rewrite Hdata. reflexivity.
Defined.

(** X9: a fresh certificate stored next to the key. *)
Lemma stored_certificate_is_checked_witness :
  exists t w2,
    hasValidCertificate (lib := sampleLib) quietEnv sampleDevice
      (snd (saveCertificateFromString (lib := sampleLib) quietEnv sampleDevice
              freshCertificateText keyWorld))
    = (Ok (Before (time_Now quietEnv t) 122%Z), w2).
Proof.
  edestruct (stored_certificate_is_checked (lib := sampleLib) quietEnv sampleDevice
               freshCertificateText keyWorld
               (snd (saveCertificateFromString (lib := sampleLib) quietEnv sampleDevice
                       freshCertificateText keyWorld)))
    as (t & w2 & H & _).
  - intros name t. reflexivity.
  - vm_compute. reflexivity.
  - vm_compute. reflexivity.
  - vm_compute. reflexivity.
  - vm_compute. reflexivity.
  - vm_compute. reflexivity.
  - exists t, w2. exact H.
Defined.

(** X10: what [ensureCSR] brings into an empty directory. *)
Lemma exec_creates_only_witness :
  has_file "device.csr"
    (cryptoDir (exec (lib := sampleLib) quietEnv sampleDevice OpEnsureCSR emptyWorld))
  = true /\
  (has_file "device.csr" (cryptoDir emptyWorld) = true \/
   In "device.csr" (may_create OpEnsureCSR)).
Proof.
  split; [vm_compute; reflexivity|].
  apply (exec_creates_only (lib := sampleLib) quietEnv sampleDevice).
  vm_compute. reflexivity.
Defined.

(** X11 on a directory whose private-key file is not PEM. *)
Lemma rejected_key_is_never_repaired_witness :
  cryptoDir (run (lib := sampleLib) quietEnv sampleDevice
               [OpEnsureKeyPair; OpEnsureCSR; OpHasValidCertificate; OpEnsureCSR]
               corruptKeyWorld)
  = cryptoDir corruptKeyWorld.
Proof.
  apply (rejected_key_is_never_repaired (lib := sampleLib) quietEnv sampleDevice
           [OpEnsureKeyPair; OpEnsureCSR; OpHasValidCertificate; OpEnsureCSR]
           corruptKeyWorld (mkFile [x01; x02] 438)
           (ErrorString
              "Corrupted data in Device Private key, clearing the crypto store")).
  - intros t. reflexivity.
  - reflexivity.
  - reflexivity.
  - reflexivity.
  - left. split; reflexivity.
Defined.


(** X13 where the private-key file cannot be written in full. *)
Lemma ensureKeyPair_residue_witness :
  fst (ensureKeyPair (lib := sampleLib) keyWriteFailsEnv sampleDevice emptyWorld)
  = Err (PathError (SysWrite "device.key")) /\
  exists written,
    lookup_file "device.key"
      (cryptoDir (snd (ensureKeyPair (lib := sampleLib) keyWriteFailsEnv
                         sampleDevice emptyWorld)))
    = Some (mkFile written 438) /\
    lookup_file "device.pub"
      (cryptoDir (snd (ensureKeyPair (lib := sampleLib) keyWriteFailsEnv
                         sampleDevice emptyWorld)))
    <> None.
Proof.
  split; [vm_compute; reflexivity|].
  destruct (ensureKeyPair_residue (lib := sampleLib) keyWriteFailsEnv sampleDevice
              emptyWorld
              (fst (ensureKeyPair (lib := sampleLib) keyWriteFailsEnv sampleDevice
                      emptyWorld))
              (snd (ensureKeyPair (lib := sampleLib) keyWriteFailsEnv sampleDevice
                      emptyWorld))
              eq_refl (surjective_pairing _) ltac:(vm_compute; reflexivity))
    as (wc & key & pkix & written & _ & _ & _ & Hpub & Hkey & _).
  exists written. split; [exact Hkey|]. rewrite Hpub. discriminate.
Defined.

(** X14 on an empty directory. *)
Lemma ensureCSR_signs_generated_key_witness :
  key_reads_back sampleLib /\
  exists key der t,
    x509_CreateCertificateRequest (GoLib := sampleLib)
      (rand_Reader quietEnv t) (csrTemplate sampleDevice) key = inr der /\
    lookup_file "device.csr"
      (cryptoDir (snd (ensureCSR (lib := sampleLib) quietEnv sampleDevice emptyWorld)))
    = Some (mkFile (pem_EncodeToMemory (GoLib := sampleLib)
                      (mkBlock "CERTIFICATE REQUEST" der)) 438) /\
    lookup_file "device.key"
      (cryptoDir (snd (ensureCSR (lib := sampleLib) quietEnv sampleDevice emptyWorld)))
    = Some (mkFile (pem_EncodeToMemory (GoLib := sampleLib)
                      (mkBlock "RSA PRIVATE KEY"
                         (x509_MarshalPKCS1PrivateKey (GoLib := sampleLib) key))) 438).
Proof.
  split; [exact sample_key_reads_back|].
  destruct (ensureCSR_signs_generated_key (lib := sampleLib) quietEnv sampleDevice
              emptyWorld
              (snd (ensureCSR (lib := sampleLib) quietEnv sampleDevice emptyWorld))
              sample_key_reads_back eq_refl ltac:(vm_compute; reflexivity))
    as (key & pkix & der & t1 & t2 & _ & _ & HC & _ & Hkey & Hcsr).
  exists key, der, t2. split; [exact HC|]. split; [exact Hcsr|exact Hkey].
Defined.
